(** * RunAnywhere: sandbox execution orchestration

    A shallow embedding of the sandbox subsystem of the backend:

    - [runanywhere/security_manager.py]   (module [SecurityManager]),
    - [runanywhere/sandbox_manager.py]    (module [SandboxManager]),
    - [runanywhere/execution_controller.py] (module [ExecutionController]),
    - the execution endpoints of [main_v2.py] (modules [MainV2], [Api]
      and [WireApi]).

    Python [str] values are modelled by [string], one [ascii] per code
    point, so the text of the model ranges over the code points below 256.
    Wall-clock readings ([time.time()]) are rationals, and the CPU quota
    of a container is a floating-point product ([Float]).  The container
    engine, the clock and the identifier source are an environment the
    program calls into ([Env]); every theorem quantifies over it.  The
    [print] calls of the manager are left out: each is taken to write
    its line and return.

    [ExecutionController] takes the metadata of a repository well typed
    and the code of a snippet as such a [string].  [Wire] has
    [execute_repository] on any JSON metadata and [execute_code_snippet]
    on any [str] ([Json], [Unicode]): there the analysis can raise, and
    so can the encoding of the code. *)

From Stdlib Require Import String Ascii List ZArith QArith Bool Lia Sorted.
From stdpp Require Import gmap strings pretty.
Import ListNotations.
Open Scope string_scope.
Open Scope list_scope.

(* ===================================================================== *)
(** * Text: the [str] operations the sources use                          *)
(* ===================================================================== *)

Module Text.

Definition code (c : ascii) : N := N_of_ascii c.

Definition between (lo hi : N) (c : ascii) : bool :=
  ((lo <=? code c) && (code c <=? hi))%N.

(** [str.lower()] on one code point below 256: the ASCII capitals and the
    Latin-1 capitals U+00C0..U+00DE (U+00D7, the multiplication sign, is
    not a letter) move up by 32. *)
Definition lower_char (c : ascii) : ascii :=
  if between 65 90 c
     || (between 192 222 c && negb (code c =? 215)%N)
  then ascii_of_N (code c + 32)
  else c.

Fixpoint lower (s : string) : string :=
  match s with
  | EmptyString => EmptyString
  | String c s' => String (lower_char c) (lower s')
  end.

(** [s.startswith(p)] *)
Fixpoint startswith (p s : string) : bool :=
  match p, s with
  | EmptyString, _ => true
  | String _ _, EmptyString => false
  | String a p', String b s' => Ascii.eqb a b && startswith p' s'
  end.

(** [p in s] for strings: [p] occurs in [s] as a contiguous run. *)
Fixpoint contains (p s : string) : bool :=
  startswith p s ||
  match s with
  | EmptyString => false
  | String _ s' => contains p s'
  end.

(** [x in xs] for a list of strings. *)
Definition mem (x : string) (xs : list string) : bool :=
  existsb (String.eqb x) xs.

(** [s.replace(c, "")] for a one-character [c]. *)
Fixpoint remove_char (c : ascii) (s : string) : string :=
  match s with
  | EmptyString => EmptyString
  | String a s' =>
      if Ascii.eqb a c then remove_char c s' else String a (remove_char c s')
  end.

(** [s.replace(old, new)] for a non-empty [old]: the occurrences are
    replaced left to right, without overlap. *)
Fixpoint skip (n : nat) (s : string) : string :=
  match n, s with
  | O, _ => s
  | S _, EmptyString => EmptyString
  | S n', String _ s' => skip n' s'
  end.

Fixpoint replace_fuel (fuel : nat) (old new s : string) : string :=
  match fuel with
  | O => s
  | S fuel' =>
      match s with
      | EmptyString => EmptyString
      | String c s' =>
          if startswith old s
          then new +:+ replace_fuel fuel' old new (skip (String.length old) s)
          else String c (replace_fuel fuel' old new s')
      end
  end.

Definition replace (old new s : string) : string :=
  replace_fuel (String.length s) old new s.

(** Python truthiness of a string. *)
Definition truthy (s : string) : bool :=
  match s with EmptyString => false | _ => true end.

(** [code.encode('utf-8')] for code points below 256: one byte below 128,
    otherwise the two bytes [110000xx 10xxxxxx].  It never fails on such
    text; [Unicode.encode_utf8] is the method on any [str], where a
    surrogate makes it raise. *)
Definition encode_char (c : ascii) : list Byte.byte :=
  if (code c <? 128)%N then [byte_of_ascii c]
  else [byte_of_ascii (ascii_of_N (192 + code c / 64));
        byte_of_ascii (ascii_of_N (128 + code c mod 64))].

Fixpoint encode_utf8 (s : string) : list Byte.byte :=
  match s with
  | EmptyString => []
  | String c s' => encode_char c ++ encode_utf8 s'
  end.

End Text.

(* ===================================================================== *)
(** * Regular expressions: the fragment of [re] the sources use           *)
(* ===================================================================== *)

(** Every pattern of the sources is a sequence of single-character atoms,
    each under a greedy quantifier; there are no groups, alternations or
    anchors.  Matching is the backtracking search of [re]: at each start
    position, left to right, each quantifier first takes as many
    characters as it can and gives them back one at a time. *)
Module Re.

Inductive atom : Type :=
| Lit (c : ascii)          (* a literal character, escaped or not *)
| Space                    (* \s *)
| Digit                    (* \d *)
| Dot                      (* .  : anything but a newline *)
| OneOf (cs : list ascii). (* [...] *)

Record item : Type := Item {
  it_atom : atom;
  it_min : nat;            (* fewest repetitions *)
  it_max : option nat      (* most repetitions, [None] for no bound *)
}.

Definition regex : Type := list item.

Definition one (a : atom) : item := Item a 1 (Some 1%nat).
Definition star (a : atom) : item := Item a 0 None.
Definition plus (a : atom) : item := Item a 1 None.
Definition at_least (n : nat) (a : atom) : item := Item a n None.

(** A run of literal characters. *)
Fixpoint lit (s : string) : regex :=
  match s with
  | EmptyString => []
  | String c s' => one (Lit c) :: lit s'
  end.

(** Unicode white space below 256: TAB..CR, FS..US, SPACE, NEL, NBSP. *)
Definition is_space (c : ascii) : bool :=
  Text.between 9 13 c || Text.between 28 32 c
  || (Text.code c =? 133)%N || (Text.code c =? 160)%N.

Definition is_digit (c : ascii) : bool := Text.between 48 57 c.

(** [ignorecase] is the flag [re.IGNORECASE]. *)
Definition atom_matches (ignorecase : bool) (a : atom) (c : ascii) : bool :=
  match a with
  | Lit p =>
      if ignorecase
      then Ascii.eqb (Text.lower_char p) (Text.lower_char c)
      else Ascii.eqb p c
  | Space => is_space c
  | Digit => is_digit c
  | Dot => negb (Text.code c =? 10)%N
  | OneOf cs => existsb (Ascii.eqb c) cs
  end.

Definition under (bound : option nat) (n : nat) : bool :=
  match bound with
  | None => true
  | Some b => (n <? b)%nat
  end.

(** How many leading characters of [s] the atom can take, at most
    [bound] of them. *)
Fixpoint run_length (ic : bool) (a : atom) (bound : option nat)
    (taken : nat) (s : string) : nat :=
  match s with
  | EmptyString => taken
  | String c s' =>
      if under bound taken && atom_matches ic a c
      then run_length ic a bound (S taken) s'
      else taken
  end.

Fixpoint drop (n : nat) (s : string) : string :=
  match n, s with
  | O, _ => s
  | S _, EmptyString => EmptyString
  | S n', String _ s' => drop n' s'
  end.

Fixpoint take (n : nat) (s : string) : string :=
  match n, s with
  | O, _ => EmptyString
  | S _, EmptyString => EmptyString
  | S n', String c s' => String c (take n' s')
  end.

(** Give back characters one at a time: try [k], [k-1], ... down to [lo]
    repetitions, the rest of the pattern being [cont]. *)
Fixpoint backtrack (cont : string -> option string) (s : string)
    (lo k : nat) : option string :=
  if (k <? lo)%nat then None
  else
    match cont (drop k s) with
    | Some rest => Some rest
    | None =>
        match k with
        | O => None
        | S k' => backtrack cont s lo k'
        end
    end.

(** Match the pattern at the start of [s]; the result is what is left of
    [s] after the match. *)
Fixpoint match_here (ic : bool) (r : regex) (s : string) : option string :=
  match r with
  | [] => Some s
  | it :: r' =>
      backtrack (match_here ic r') s (it_min it)
        (run_length ic (it_atom it) (it_max it) 0 s)
  end.

(** The first match, scanning start positions left to right: the text
    from the start of the match on, and the text after the match. *)
Fixpoint first_match (ic : bool) (r : regex) (s : string)
    : option (string * string) :=
  match match_here ic r s with
  | Some rest => Some (s, rest)
  | None =>
      match s with
      | EmptyString => None
      | String _ s' => first_match ic r s'
      end
  end.

(** [re.search(r, s, flags)] as a truth value. *)
Definition search (ic : bool) (r : regex) (s : string) : bool :=
  match first_match ic r s with Some _ => true | None => false end.

Definition matched_text (from rest : string) : string :=
  take (String.length from - String.length rest) from.

(** [re.findall(r, s, flags)] for a pattern without groups: the texts of
    the successive non-overlapping matches.  After an empty match the
    scan moves on by one character. *)
Fixpoint findall_fuel (fuel : nat) (ic : bool) (r : regex) (s : string)
    : list string :=
  match fuel with
  | O => []
  | S fuel' =>
      match first_match ic r s with
      | None => []
      | Some (from, rest) =>
          matched_text from rest ::
          (if (String.length rest <? String.length from)%nat
           then findall_fuel fuel' ic r rest
           else match from with
                | EmptyString => []
                | String _ from' => findall_fuel fuel' ic r from'
                end)
      end
  end.

Definition findall (ic : bool) (r : regex) (s : string) : list string :=
  findall_fuel (S (String.length s)) ic r s.

End Re.

(* ===================================================================== *)
(** * runanywhere/security_manager.py                                     *)
(* ===================================================================== *)

Module SecurityManager.

Import Re.

(** The risk levels, in the order of the list
    [safe, low, medium, high] the source ranks them by. *)
Inductive risk : Type := safe | low | medium | high.

Definition risk_index (r : risk) : nat :=
  match r with safe => 0 | low => 1 | medium => 2 | high => 3 end.

(** [max(a, b, key=index)]: the first of the two when they tie. *)
Definition risk_max (a b : risk) : risk :=
  if (risk_index a <? risk_index b)%nat then b else a.

Definition is_high (r : risk) : bool :=
  match r with high => true | _ => false end.

Definition quote_chars : list ascii := ["'"%char; ascii_of_nat 34].

(** [DANGEROUS_PATTERNS], per language. *)
Definition python_patterns : list regex :=
  [ lit "import" ++ [plus Space] ++ lit "os";          (* import\s+os *)
    lit "import" ++ [plus Space] ++ lit "subprocess";  (* import\s+subprocess *)
    lit "import" ++ [plus Space] ++ lit "sys";         (* import\s+sys *)
    lit "__import__";                                  (* __import__ *)
    lit "eval" ++ [star Space] ++ lit "(";             (* eval\s*\( *)
    lit "exec" ++ [star Space] ++ lit "(";             (* exec\s*\( *)
    lit "compile" ++ [star Space] ++ lit "(";          (* compile\s*\( *)
    lit "open" ++ [star Space] ++ lit "(";             (* open\s*\( *)
    lit "file" ++ [star Space] ++ lit "(" ].           (* file\s*\( *)

(** [require\s*\(\s*Q module Q] where Q is one of the two quote
    characters. *)
Definition require_of (module : string) : regex :=
  lit "require" ++ [star Space] ++ lit "(" ++ [star Space]
  ++ [one (OneOf quote_chars)] ++ lit module ++ [one (OneOf quote_chars)].

Definition javascript_patterns : list regex :=
  [ require_of "child_process";
    require_of "fs";
    lit "eval" ++ [star Space] ++ lit "(";             (* eval\s*\( *)
    lit "Function" ++ [star Space] ++ lit "(";         (* Function\s*\( *)
    lit "process.exit";                                (* process\.exit *)
    lit "process.kill" ].                              (* process\.kill *)

Definition bash_patterns : list regex :=
  [ lit "rm" ++ [plus Space] ++ lit "-rf";             (* rm\s+-rf *)
    lit "mkfs";                                        (* mkfs *)
    lit "dd" ++ [plus Space] ++ lit "if=";             (* dd\s+if= *)
    lit ":(){" ++ [star Dot] ++ lit "}";               (* :\(\)\{.*\} *)
    lit "curl" ++ [star Dot] ++ lit "|" ++ [star Dot] ++ lit "bash";
                                                       (* curl.*\|.*bash *)
    lit "wget" ++ [star Dot] ++ lit "|" ++ [star Dot] ++ lit "sh" ].
                                                       (* wget.*\|.*sh *)

(** [DANGEROUS_PATTERNS.get(language.lower(), [])] *)
Definition DANGEROUS_PATTERNS (language : string) : list regex :=
  if String.eqb language "python" then python_patterns
  else if String.eqb language "javascript" then javascript_patterns
  else if String.eqb language "bash" then bash_patterns
  else [].

(** The loop heuristics of [validate_code]. *)
Definition loop_patterns : list regex :=
  [ lit "while" ++ [plus Space] ++ lit "True";         (* while\s+True *)
    lit "while" ++ [plus Space] ++ lit "1";            (* while\s+1 *)
    lit "for" ++ [plus Space; star Dot; plus Space] ++ lit "in"
      ++ [plus Space] ++ lit "range" ++ [star Space] ++ lit "("
      ++ [star Space; at_least 6 Digit] ].
                            (* for\s+.*\s+in\s+range\s*\(\s*\d{6,} *)

(** The entries of the [issues] list. *)
Inductive issue : Type :=
| dangerous_pattern (pattern : regex) (matches : list string) (severity : risk)
| code_too_large (size : nat) (severity : risk)
| potential_infinite_loop (pattern : regex) (severity : risk).

Definition severity (i : issue) : risk :=
  match i with
  | dangerous_pattern _ _ s => s
  | code_too_large _ s => s
  | potential_infinite_loop _ s => s
  end.

Record verdict : Type := Verdict {
  is_safe : bool;
  risk_level : risk;
  issues : list issue;
  strict_mode : bool
}.

(** One turn of the first loop: [re.findall] with
    [re.IGNORECASE | re.MULTILINE]. *)
Definition check_dangerous (strict : bool) (code : string)
    (acc : list issue * risk) (pattern : regex) : list issue * risk :=
  match findall true pattern code with
  | [] => acc
  | matches =>
      (fst acc ++ [dangerous_pattern pattern matches
                     (if strict then high else medium)],
       high)
  end.

Definition check_length (code : string) (acc : list issue * risk)
    : list issue * risk :=
  if (100000 <? Z.of_nat (String.length code))%Z
  then (fst acc ++ [code_too_large (String.length code) medium],
        risk_max (snd acc) medium)
  else acc.

(** One turn of the second loop: [re.search] with [re.IGNORECASE]. *)
Definition check_loop (code : string) (acc : list issue * risk)
    (pattern : regex) : list issue * risk :=
  if search true pattern code
  then (fst acc ++ [potential_infinite_loop pattern medium],
        risk_max (snd acc) medium)
  else acc.

Definition validate_code (code language : string) (strict : bool)
    : verdict :=
  let acc0 : list issue * risk := ([], safe) in
  let acc1 :=
    fold_left (check_dangerous strict code)
      (DANGEROUS_PATTERNS (Text.lower language)) acc0 in
  let acc2 := check_length code acc1 in
  let acc3 := fold_left (check_loop code) loop_patterns acc2 in
  {| is_safe := negb (is_high (snd acc3)) || negb strict;
     risk_level := snd acc3;
     issues := fst acc3;
     strict_mode := strict |}.

(** [safe_domains] of [validate_repository_url]. *)
Definition safe_domains : list regex :=
  [ lit "github.com";      (* github\.com *)
    lit "gitlab.com";      (* gitlab\.com *)
    lit "bitbucket.org" ]. (* bitbucket\.org *)

(** The loop returns [True] at the first domain pattern that
    [re.search] finds anywhere in the URL. *)
Definition validate_repository_url (repo_url : string) : bool :=
  existsb (fun domain => search true domain repo_url) safe_domains.

(** [sanitize_command]: every listed character is removed, then the
    result is stripped of leading and trailing white space. *)
Definition dangerous_chars : list ascii :=
  [";"; "&"; "|"; "`"; "$"; "("; ")"; "<"; ">";
   ascii_of_nat 10; ascii_of_nat 13]%char.

Fixpoint lstrip (s : string) : string :=
  match s with
  | String c s' => if is_space c then lstrip s' else s
  | EmptyString => EmptyString
  end.

Fixpoint rstrip (s : string) : string :=
  match s with
  | EmptyString => EmptyString
  | String c s' =>
      match rstrip s' with
      | EmptyString => if is_space c then EmptyString else String c EmptyString
      | t => String c t
      end
  end.

Definition sanitize_command (command : string) : string :=
  rstrip (lstrip
    (fold_left (fun sanitized c => Text.remove_char c sanitized)
       dangerous_chars command)).

End SecurityManager.

(* ===================================================================== *)
(** * Exceptions and the state-and-exception monad                        *)
(* ===================================================================== *)

(** The exceptions the modelled code raises or catches.  All three are
    subclasses of [Exception]; [ImageNotFound] is the one class a handler
    of the sources singles out. *)
Inductive exn : Type :=
| ImageNotFound (msg : string)
| Exception (msg : string)
| HTTPException (status_code : Z) (detail : string).

(** [str(e)] *)
Definition str_of_exn (e : exn) : string :=
  match e with
  | ImageNotFound msg => msg
  | Exception msg => msg
  | HTTPException status_code detail => pretty status_code +:+ ": " +:+ detail
  end.

Inductive res (A : Type) : Type :=
| Ret (a : A)
| Raise (e : exn).
Arguments Ret {A} a.
Arguments Raise {A} e.

(** A computation over a state [S]: it returns or raises, and the state
    it leaves behind is kept in both cases. *)
Definition M (S A : Type) : Type := S -> res A * S.

Definition ret {S A} (a : A) : M S A := fun s => (Ret a, s).

Definition raise {S A} (e : exn) : M S A := fun s => (Raise e, s).

Definition bind {S A B} (m : M S A) (k : A -> M S B) : M S B :=
  fun s =>
    match m s with
    | (Ret a, s') => k a s'
    | (Raise e, s') => (Raise e, s')
    end.

Notation "'let*' x ':=' m 'in' k" := (bind m (fun x => k))
  (at level 10, x pattern, m at level 100, k at level 200).

(** [try: body  except Exception as e: handler e] *)
Definition try_except {S A} (body : M S A) (handler : exn -> M S A) : M S A :=
  fun s =>
    match body s with
    | (Ret a, s') => (Ret a, s')
    | (Raise e, s') => handler e s'
    end.

Definition gets {S A} (f : S -> A) : M S A := fun s => (Ret (f s), s).

Definition modify {S} (f : S -> S) : M S unit := fun s => (Ret tt, f s).

(** Run a computation on the first component of a pair of states: the
    second component holds the local variables of the caller. *)
Definition on_fst {S L A} (m : M S A) : M (S * L) A :=
  fun sl =>
    match m (fst sl) with
    | (r, s') => (r, (s', snd sl))
    end.

(** Run a computation that uses a local variable, initialised to [l0]. *)
Definition with_local {S L A} (l0 : L) (m : M (S * L) A) : M S A :=
  fun s =>
    match m (s, l0) with
    | (r, (s', _)) => (r, s')
    end.

(* ===================================================================== *)
(** * The container engine and the other ambient services                 *)
(* ===================================================================== *)

Definition bytes : Type := list Byte.byte.

(** A [datetime]: seconds since the epoch and its [isoformat()] text. *)
Module Datetime.
Record t : Type := Make { seconds : Q; isoformat : string }.
End Datetime.

Module Docker.

(** The keyword arguments of [containers.create]. *)
Record create_args : Type := CreateArgs {
  image : string;
  command : string;
  detach : bool;
  mem_limit : string;
  nano_cpus : Z;
  network_mode : string;
  network_disabled : bool;
  cap_drop : list string;
  security_opt : list string;
  read_only : bool;
  tmpfs : list (string * string);
  labels : list (string * string)
}.

(** A container handle; [container.id]. *)
Record container : Type := Container { id : string }.

(** The value of [exec_run(..., demux=True)]. *)
Record exec_result : Type := ExecResult {
  exit_code : Z;
  output : option bytes * option bytes
}.

(** The archive [upload_file_to_sandbox] builds: one member. *)
Record tar_archive : Type := Tar {
  member_name : string;
  member_size : nat;
  member_data : bytes
}.

(** The counters [get_sandbox_stats] reads from [container.stats]:
    the four CPU counters, the optional [usage] and [limit] of
    [memory_stats], and [networks] (absent, or present with or without
    an [eth0] entry of received and sent bytes). *)
Record stats : Type := Stats {
  cpu_total_usage : Z;
  precpu_total_usage : Z;
  system_cpu_usage : Z;
  presystem_cpu_usage : Z;
  memory_usage : option Z;
  memory_limit : option Z;
  networks : option (option (Z * Z))
}.

End Docker.

(** What the program calls into: the identifier source, the clocks, the
    UTF-8 decoder and the Docker SDK.  Each call takes the state of the
    world and returns the next one; the calls that can fail return a
    [res].  The text of a UUID is never empty. *)
Class Env (W : Type) : Type := {
  uuid4 : W -> string * W;
  uuid4_nonempty : forall w, fst (uuid4 w) <> "";
  time_time : W -> Q * W;
  datetime_now : W -> Datetime.t * W;
  bytes_decode : bytes -> res string;
  docker_from_env : W -> res unit * W;
  images_get : string -> W -> res unit * W;
  images_pull : string -> W -> res unit * W;
  containers_create : Docker.create_args -> W -> res Docker.container * W;
  container_start : Docker.container -> W -> res unit * W;
  container_exec_run :
    Docker.container -> string -> string -> W -> res Docker.exec_result * W;
  container_put_archive :
    Docker.container -> string -> Docker.tar_archive -> W -> res bool * W;
  container_stats : Docker.container -> W -> res Docker.stats * W;
  container_stop : Docker.container -> Z -> W -> res unit * W;
  container_remove : Docker.container -> W -> res unit * W
}.

(* ===================================================================== *)
(** * The dictionaries the program builds                                 *)
(* ===================================================================== *)

(** A key that is absent from a dictionary is [None] in its record. *)

(** An entry of [active_sandboxes]. *)
Module Sandbox.
Record t : Type := Make {
  container_id : string;
  container : Docker.container;
  language : string;
  created_at : Datetime.t;
  timeout : Z;
  memory_limit : string;
  cpu_limit : Q;
  network_enabled : bool;
  status : string
}.
End Sandbox.

(** What [execute_in_sandbox] returns. *)
Module CommandResult.
Record t : Type := Make {
  success : bool;
  error : option string;
  stdout : string;
  stderr : string;
  exit_code : Z;
  execution_time : Q
}.
End CommandResult.

(** What [get_sandbox_stats] returns. *)
Module SandboxStats.
Record t : Type := Make {
  sandbox_id : string;
  cpu_percent : Q;
  memory_usage_mb : Q;
  memory_limit_mb : Q;
  memory_percent : Q;
  network_rx_bytes : Z;
  network_tx_bytes : Z
}.
End SandboxStats.

(** The metadata [analyze_repository_executability] reads, each key with
    the default the source gives it when it is absent, when every value
    has the type it is read at: a string, a list of strings and two
    integers.  [Wire.Metadata] has any JSON value under any key. *)
Module RepoData.
Record t : Type := Make {
  language : string;            (* .get("language", "") *)
  tech_stack : list string;     (* .get("tech_stack", []) *)
  stars : Z;                    (* .get("stars", 0) *)
  open_issues_count : Z         (* .get("open_issues_count", 0) *)
}.
End RepoData.

Module Analysis.
Record t : Type := Make {
  is_executable : bool;
  detected_runtime : option string;
  languages : list string;
  setup_commands : list string;
  run_command : option string;
  test_command : option string;
  build_command : option string;
  dependencies : list string;
  estimated_complexity : string;
  requires_docker : bool;
  requires_database : bool;
  confidence : Q;
  issues : list string
}.
End Analysis.

(** An entry of [execution_log]. *)
Module LogEntry.
Record t : Type := Make {
  step : string;
  command : option string;
  status : string;
  output : option string;
  error : option string;
  execution_time : option Q;
  timestamp : string
}.
End LogEntry.

(** What [execute_repository] returns.  [resource_stats] is [None] both
    when the key is absent and when [get_sandbox_stats] returned [None]. *)
Module RepoResult.
Record t : Type := Make {
  execution_id : string;
  sandbox_id : option string;
  status : string;
  error : option string;
  analysis : Analysis.t;
  logs : list LogEntry.t;
  total_execution_time : option Q;
  resource_stats : option SandboxStats.t;
  timestamp : option string
}.
End RepoResult.

(** What [execute_code_snippet] and the [/execute/code] endpoint return. *)
Module SnippetResult.
Record t : Type := Make {
  execution_id : option string;
  sandbox_id : option string;
  status : string;
  error : option string;
  validation : option SecurityManager.verdict;
  stdout : string;
  stderr : string;
  exit_code : option Z;
  execution_time : option Q
}.
End SnippetResult.

(** A Python [dict] with string keys, in insertion order: assigning to a
    key that is present keeps its place. *)
Module PyDict.

Definition t (V : Type) : Type := list (string * V).

Fixpoint get {V} (k : string) (d : t V) : option V :=
  match d with
  | [] => None
  | (k', v) :: d' => if String.eqb k k' then Some v else get k d'
  end.

Fixpoint set {V} (k : string) (v : V) (d : t V) : t V :=
  match d with
  | [] => [(k, v)]
  | (k', v') :: d' =>
      if String.eqb k k' then (k', v) :: d' else (k', v') :: set k v d'
  end.

Definition values {V} (d : t V) : list V := map snd d.


End PyDict.

(* ===================================================================== *)
(** * The state of the process                                            *)
(* ===================================================================== *)

(** The record of the calls made so far, each with what it returned: it
    is not a variable of the program, it is what the theorems about the
    order and number of calls speak of. *)
Module Call.
Inductive t : Type :=
| execute_code_snippet (code language : string) (timeout : Z)
| create_sandbox (language memory_limit : string) (cpu_limit : Q)
    (timeout : Z) (network_enabled : bool) (returned : option string)
| execute_in_sandbox (sandbox_id command working_dir : string)
    (timeout : Z) (returned : CommandResult.t)
| upload_file_to_sandbox (sandbox_id : string) (file_content : bytes)
    (destination_path : string) (returned : bool)
| get_sandbox_stats (sandbox_id : string)
    (returned : option SandboxStats.t)
| stop_sandbox (sandbox_id : string) (returned : bool).
End Call.

Record State (W : Type) : Type := MkState {
  world : W;
  (* main_v2.py *)
  RUNANYWHERE_AVAILABLE : bool;
  (* SandboxManager *)
  docker_client : bool;                       (* [is not None] *)
  docker_available : bool;
  active_sandboxes : gmap string Sandbox.t;
  (* ExecutionController *)
  execution_history : PyDict.t RepoResult.t;
  (* the calls made so far *)
  calls : list Call.t;
  (* the arguments of every [containers.create] so far *)
  created : list Docker.create_args
}.
Arguments MkState {W}.
Arguments world {W}.
Arguments RUNANYWHERE_AVAILABLE {W}.
Arguments docker_client {W}.
Arguments docker_available {W}.
Arguments active_sandboxes {W}.
Arguments execution_history {W}.
Arguments calls {W}.
Arguments created {W}.

Section StateUpdates.
Context {W : Type}.

Definition set_world (w : W) (s : State W) : State W :=
  MkState w (RUNANYWHERE_AVAILABLE s) (docker_client s)
    (docker_available s) (active_sandboxes s) (execution_history s)
    (calls s) (created s).

Definition set_docker (client available : bool) (s : State W) : State W :=
  MkState (world s) (RUNANYWHERE_AVAILABLE s) client available
    (active_sandboxes s) (execution_history s) (calls s) (created s).

Definition set_active_sandboxes (m : gmap string Sandbox.t) (s : State W)
    : State W :=
  MkState (world s) (RUNANYWHERE_AVAILABLE s) (docker_client s)
    (docker_available s) m (execution_history s) (calls s) (created s).

Definition set_execution_history (h : PyDict.t RepoResult.t) (s : State W)
    : State W :=
  MkState (world s) (RUNANYWHERE_AVAILABLE s) (docker_client s)
    (docker_available s) (active_sandboxes s) h (calls s) (created s).

Definition record_call (c : Call.t) (s : State W) : State W :=
  MkState (world s) (RUNANYWHERE_AVAILABLE s) (docker_client s)
    (docker_available s) (active_sandboxes s) (execution_history s)
    (calls s ++ [c]) (created s).

Definition record_created (a : Docker.create_args) (s : State W) : State W :=
  MkState (world s) (RUNANYWHERE_AVAILABLE s) (docker_client s)
    (docker_available s) (active_sandboxes s) (execution_history s)
    (calls s) (created s ++ [a]).

(** A call into the environment that cannot fail. *)
Definition ask {A} (f : W -> A * W) : M (State W) A :=
  fun s =>
    match f (world s) with
    | (a, w') => (Ret a, set_world w' s)
    end.

(** A call into the environment that returns or raises. *)
Definition call {A} (f : W -> res A * W) : M (State W) A :=
  fun s =>
    match f (world s) with
    | (r, w') => (r, set_world w' s)
    end.

(** Run a method and, when it returns, note the call and its value. *)
Definition noting {A} (c : A -> Call.t) (m : M (State W) A)
    : M (State W) A :=
  fun s =>
    match m s with
    | (Ret a, s') => (Ret a, record_call (c a) s')
    | (Raise e, s') => (Raise e, s')
    end.

End StateUpdates.

(* ===================================================================== *)
(** * Floating point                                                      *)
(* ===================================================================== *)

(** A [float] is the rational it stands for.  The one floating-point
    result the model keeps inexact is the product [cpu_limit * 1e9] of
    [create_sandbox]: the exact product, rounded to the nearest float. *)
Module Float.

(** [2^e] *)
Definition pow2 (e : Z) : Q :=
  if (0 <=? e)%Z then inject_Z (2 ^ e) else (/ inject_Z (2 ^ (- e)))%Q.

(** The [e] with [2^e <= x < 2^(e+1)], for a positive [x]. *)
Definition exponent (x : Q) : Z :=
  let e := (Z.log2 (Qnum x) - Z.log2 (Zpos (Qden x)))%Z in
  if Qle_bool (pow2 e) x then e else (e - 1)%Z.

(** The integer nearest to [x], for an [x] that is not negative; of two
    that are equally near, the even one. *)
Definition nearest_even (x : Q) : Z :=
  let n := Qnum x in
  let d := Zpos (Qden x) in
  let m := (n / d)%Z in
  let r := (n - m * d)%Z in
  if (2 * r <? d)%Z then m
  else if (d <? 2 * r)%Z then (m + 1)%Z
  else if Z.even m then m else (m + 1)%Z.

(** The float nearest to [x], ties to even: 53 significant bits, and
    multiples of [2^-1074] below [2^-1022].  A float is left as it is;
    an [int] or a decimal that is no float becomes the float Python
    makes of it.  Values beyond the largest float, where Python has an
    infinity or raises [OverflowError], are not modelled. *)
Definition round (x : Q) : Q :=
  match Qnum x with
  | Z0 => 0%Q
  | _ =>
      let a := (Z.abs (Qnum x) # Qden x)%Q in
      let quantum := pow2 (Z.max (exponent a) (-1022) - 52) in
      let r := (inject_Z (nearest_even (a / quantum)) * quantum)%Q in
      if (Qnum x <? 0)%Z then (- r)%Q else r
  end.

(** [a * b] *)
Definition mul (a b : Q) : Q := round (round a * round b)%Q.

End Float.

(* ===================================================================== *)
(** * runanywhere/sandbox_manager.py                                      *)
(* ===================================================================== *)

Module SandboxManager.
Section WithEnv.
Context {W : Type} {E : Env W}.

(** [int(x)] of a float: truncation towards zero. *)
Definition int_of (x : Q) : Z := Z.quot (Qnum x) (Zpos (Qden x)).

(** [__init__] *)
Definition init : M (State W) unit :=
  try_except
    (let* _ := call docker_from_env in
     modify (fun s => set_docker true true (set_active_sandboxes ∅ s)))
    (fun e =>
       modify (fun s => set_docker false false (set_active_sandboxes ∅ s))).

Definition is_available (s : State W) : bool :=
  docker_available s && docker_client s.

(** [image_map.get(language.lower(), ...)] *)
Definition image_map : list (string * string) :=
  [ ("python", "python:3.11-slim");
    ("node", "node:18-alpine");
    ("javascript", "node:18-alpine");
    ("java", "openjdk:17-slim");
    ("go", "golang:1.21-alpine");
    ("rust", "rust:1.75-slim");
    ("flutter", "cirrusci/flutter:stable");
    ("dart", "dart:stable");
    ("ruby", "ruby:3.2-alpine");
    ("php", "php:8.2-cli-alpine");
    ("cpp", "gcc:13-alpine");
    ("c", "gcc:13-alpine") ].

Definition image_for (language : string) : string :=
  match PyDict.get (Text.lower language) image_map with
  | Some image => image
  | None => "ubuntu:22.04"
  end.

(** The arguments [create_sandbox] passes to [containers.create]. *)
Definition container_config (sandbox_id language image memory_limit : string)
    (cpu_limit : Q) (network_enabled : bool) : Docker.create_args :=
  {| Docker.image := image;
     Docker.command := "/bin/sleep 3600";
     Docker.detach := true;
     Docker.mem_limit := memory_limit;
     Docker.nano_cpus := int_of (Float.mul cpu_limit 1000000000);
     Docker.network_mode := if network_enabled then "bridge" else "none";
     Docker.network_disabled := negb network_enabled;
     Docker.cap_drop := ["ALL"];
     Docker.security_opt := ["no-new-privileges"];
     Docker.read_only := false;
     Docker.tmpfs := [("/tmp", "size=100m,mode=1777")];
     Docker.labels := [ ("hackhub.sandbox", "true");
                        ("hackhub.sandbox_id", sandbox_id);
                        ("hackhub.language", language) ] |}.

Definition register (sandbox_id : string) (sandbox : Sandbox.t)
    (s : State W) : State W :=
  set_active_sandboxes (<[sandbox_id := sandbox]> (active_sandboxes s)) s.

Definition create_sandbox (language memory_limit : string) (cpu_limit : Q)
    (timeout : Z) (network_enabled : bool) : M (State W) (option string) :=
  noting (Call.create_sandbox language memory_limit cpu_limit timeout
            network_enabled)
    (let* available := gets is_available in
     if negb available then ret None
     else
       let* sandbox_id := ask uuid4 in
       let image := image_for language in
       try_except
         ((* pull the image if it is not there *)
          let* _ :=
            try_except (call (images_get image))
              (fun e =>
                 match e with
                 | ImageNotFound _ => call (images_pull image)
                 | _ => raise e
                 end) in
          let config :=
            container_config sandbox_id language image memory_limit
              cpu_limit network_enabled in
          let* _ := modify (record_created config) in
          let* container := call (containers_create config) in
          let* _ := call (container_start container) in
          let* now := ask datetime_now in
          let* _ := modify (register sandbox_id
            {| Sandbox.container_id := Docker.id container;
               Sandbox.container := container;
               Sandbox.language := language;
               Sandbox.created_at := now;
               Sandbox.timeout := timeout;
               Sandbox.memory_limit := memory_limit;
               Sandbox.cpu_limit := cpu_limit;
               Sandbox.network_enabled := network_enabled;
               Sandbox.status := "running" |}) in
          ret (Some sandbox_id))
         (fun e => ret None)).

(** [b.decode('utf-8') if b else ""] *)
Definition decode_or_empty (b : option bytes) : M (State W) string :=
  match b with
  | None | Some [] => ret ""
  | Some data => fun s => (bytes_decode data, s)
  end.

Definition not_found_result : CommandResult.t :=
  {| CommandResult.success := false;
     CommandResult.error := Some "Sandbox not found";
     CommandResult.stdout := "";
     CommandResult.stderr := "Sandbox does not exist";
     CommandResult.exit_code := -1;
     CommandResult.execution_time := 0 |}.

Definition timeout_result (timeout : Z) (execution_time : Q)
    : CommandResult.t :=
  {| CommandResult.success := false;
     CommandResult.error := Some "Execution timeout";
     CommandResult.stdout := "";
     CommandResult.stderr :=
       "Command exceeded " +:+ pretty timeout +:+ "s timeout";
     CommandResult.exit_code := -1;
     CommandResult.execution_time := execution_time |}.

Definition fault_result (e : exn) : CommandResult.t :=
  {| CommandResult.success := false;
     CommandResult.error := Some (str_of_exn e);
     CommandResult.stdout := "";
     CommandResult.stderr := str_of_exn e;
     CommandResult.exit_code := -1;
     CommandResult.execution_time := 0 |}.

(** [execution_time > timeout] *)
Definition exceeds (execution_time : Q) (timeout : Z) : bool :=
  negb (Qle_bool execution_time (inject_Z timeout)).

Definition execute_in_sandbox (sandbox_id command working_dir : string)
    (timeout : Z) : M (State W) CommandResult.t :=
  noting (Call.execute_in_sandbox sandbox_id command working_dir timeout)
    (let* sandboxes := gets active_sandboxes in
     match sandboxes !! sandbox_id with
     | None => ret not_found_result
     | Some sandbox =>
         try_except
           (let* start_time := ask time_time in
            let* exec_result :=
              call (container_exec_run (Sandbox.container sandbox)
                      ("sh -c 'cd " +:+ working_dir +:+ " && "
                         +:+ command +:+ "'")
                      working_dir) in
            let* finished := ask time_time in
            let execution_time := (finished - start_time)%Q in
            if exceeds execution_time timeout
            then ret (timeout_result timeout execution_time)
            else
              let* stdout :=
                decode_or_empty (fst (Docker.output exec_result)) in
              let* stderr :=
                decode_or_empty (snd (Docker.output exec_result)) in
              ret {| CommandResult.success :=
                       (Docker.exit_code exec_result =? 0)%Z;
                     CommandResult.error := None;
                     CommandResult.stdout := stdout;
                     CommandResult.stderr := stderr;
                     CommandResult.exit_code := Docker.exit_code exec_result;
                     CommandResult.execution_time := execution_time |})
           (fun e => ret (fault_result e))
     end).

(** [path.split('/')[-1]] *)
Fixpoint last_component (path : string) : string :=
  match path with
  | EmptyString => EmptyString
  | String c rest =>
      if Text.contains "/" path
      then last_component rest
      else path
  end.

Definition upload_file_to_sandbox (sandbox_id : string)
    (file_content : bytes) (destination_path : string)
    : M (State W) bool :=
  noting (Call.upload_file_to_sandbox sandbox_id file_content
            destination_path)
    (let* sandboxes := gets active_sandboxes in
     match sandboxes !! sandbox_id with
     | None => ret false
     | Some sandbox =>
         try_except
           (let tar :=
              {| Docker.member_name := last_component destination_path;
                 Docker.member_size := length file_content;
                 Docker.member_data := file_content |} in
            let* _ :=
              call (container_put_archive (Sandbox.container sandbox)
                      "/tmp" tar) in
            ret true)
           (fun e => ret false)
     end).

Definition megabyte : Q := inject_Z (1024 * 1024).

(** The dictionary [get_sandbox_stats] builds from the counters; the
    lookup of [eth0] raises [KeyError] when [networks] has no such key. *)
Definition stats_of (sandbox_id : string) (stats : Docker.stats)
    : res SandboxStats.t :=
  let cpu_delta :=
    (Docker.cpu_total_usage stats - Docker.precpu_total_usage stats)%Z in
  let system_delta :=
    (Docker.system_cpu_usage stats - Docker.presystem_cpu_usage stats)%Z in
  let cpu_percent :=
    if (0 <? system_delta)%Z
    then (inject_Z cpu_delta / inject_Z system_delta * 100)%Q
    else 0%Q in
  let memory_usage := default 0%Z (Docker.memory_usage stats) in
  let memory_limit := default 0%Z (Docker.memory_limit stats) in
  let memory_percent :=
    if (0 <? memory_limit)%Z
    then (inject_Z memory_usage / inject_Z memory_limit * 100)%Q
    else 0%Q in
  let result rx tx :=
    {| SandboxStats.sandbox_id := sandbox_id;
       SandboxStats.cpu_percent := cpu_percent;
       SandboxStats.memory_usage_mb := (inject_Z memory_usage / megabyte)%Q;
       SandboxStats.memory_limit_mb := (inject_Z memory_limit / megabyte)%Q;
       SandboxStats.memory_percent := memory_percent;
       SandboxStats.network_rx_bytes := rx;
       SandboxStats.network_tx_bytes := tx |} in
  match Docker.networks stats with
  | None => Ret (result 0%Z 0%Z)
  | Some (Some (rx, tx)) => Ret (result rx tx)
  | Some None => Raise (Exception "'eth0'")
  end.

Definition get_sandbox_stats (sandbox_id : string)
    : M (State W) (option SandboxStats.t) :=
  noting (Call.get_sandbox_stats sandbox_id)
    (let* sandboxes := gets active_sandboxes in
     match sandboxes !! sandbox_id with
     | None => ret None
     | Some sandbox =>
         try_except
           (let* stats := call (container_stats (Sandbox.container sandbox)) in
            let* result := (fun s => (stats_of sandbox_id stats, s)) in
            ret (Some result))
           (fun e => ret None)
     end).

Definition unregister (sandbox_id : string) (s : State W) : State W :=
  set_active_sandboxes (delete sandbox_id (active_sandboxes s)) s.

Definition stop_sandbox (sandbox_id : string) : M (State W) bool :=
  noting (Call.stop_sandbox sandbox_id)
    (let* sandboxes := gets active_sandboxes in
     match sandboxes !! sandbox_id with
     | None => ret false
     | Some sandbox =>
         try_except
           (let* _ := call (container_stop (Sandbox.container sandbox) 5) in
            let* _ := call (container_remove (Sandbox.container sandbox)) in
            let* _ := modify (unregister sandbox_id) in
            ret true)
           (fun e => ret false)
     end).

(** ** The clean-up methods

    The registry of the model is a finite map and keeps no insertion
    order.  The methods that iterate over [self.active_sandboxes] take
    its entries as the list [items], in the order the dictionary yields
    them. *)

(** [for sandbox_id in ids: if await self.stop_sandbox(sandbox_id):
    cleaned += 1], then [return cleaned]. *)
Fixpoint stop_each (ids : list string) (cleaned : Z) : M (State W) Z :=
  match ids with
  | [] => ret cleaned
  | sandbox_id :: rest =>
      let* stopped := stop_sandbox sandbox_id in
      stop_each rest (if stopped then (cleaned + 1)%Z else cleaned)
  end.

(** [(now - sandbox["created_at"]).total_seconds() > sandbox["timeout"]] *)
Definition expired (now : Datetime.t) (sandbox : Sandbox.t) : bool :=
  exceeds
    (Datetime.seconds now - Datetime.seconds (Sandbox.created_at sandbox))
    (Sandbox.timeout sandbox).

Definition cleanup_expired_sandboxes (items : list (string * Sandbox.t))
    : M (State W) Z :=
  let* now := ask datetime_now in
  let expired_ids :=
    map fst (List.filter (fun item => expired now (snd item)) items) in
  stop_each expired_ids 0.

Definition cleanup_all_sandboxes (items : list (string * Sandbox.t))
    : M (State W) Z :=
  let sandbox_ids := map fst items in
  stop_each sandbox_ids 0.

End WithEnv.
End SandboxManager.

(* ===================================================================== *)
(** * runanywhere/execution_controller.py                                 *)
(* ===================================================================== *)

Module ExecutionController.

(** ** [analyze_repository_executability] *)

(** What a detected runtime contributes to the analysis. *)
Record template : Type := Template {
  t_runtime : string;
  t_setup_commands : list string;
  t_run_command : string;
  t_test_command : string;
  t_build_command : option string;
  t_confidence : Q
}.

Definition python_template : template :=
  Template "python"
    [ "pip install --upgrade pip";
      "pip install -r requirements.txt || echo 'No requirements.txt found'" ]
    "python main.py || python app.py || python src/main.py"
    "pytest || python -m unittest discover"
    None (85 # 100).

Definition node_template : template :=
  Template "node"
    [ "npm install || yarn install" ]
    "npm start || node index.js || node server.js"
    "npm test"
    (Some "npm run build") (9 # 10).

Definition flutter_template : template :=
  Template "flutter"
    [ "flutter pub get" ]
    "flutter run -d web-server --web-port=8080"
    "flutter test"
    (Some "flutter build web") (8 # 10).

Definition java_template : template :=
  Template "java"
    [ "mvn clean install || gradle build" ]
    "mvn spring-boot:run || gradle bootRun || java -jar target/*.jar"
    "mvn test || gradle test"
    (Some "mvn package || gradle build") (75 # 100).

Definition go_template : template :=
  Template "go"
    [ "go mod download" ]
    "go run main.go || go run ."
    "go test ./..."
    (Some "go build") (85 # 100).

Definition rust_template : template :=
  Template "rust"
    [ "cargo fetch" ]
    "cargo run"
    "cargo test"
    (Some "cargo build --release") (85 # 100).

(** [any(x in pool for x in tags)] *)
Definition any_in (tags pool : list string) : bool :=
  existsb (fun x => Text.mem x pool) tags.

(** The chain of [if]/[elif] tests, on the lowered language and the
    lowered technology tags. *)
Definition detect (language : string) (tags : list string)
    : option template :=
  if Text.contains "python" language
     || existsb (Text.contains "python") tags
  then Some python_template
  else if existsb (fun x => Text.contains x language)
            ["javascript"; "typescript"]
          || any_in tags ["node"; "react"; "vue"; "angular"; "nextjs"]
  then Some node_template
  else if Text.mem "flutter" tags || Text.contains "dart" language
  then Some flutter_template
  else if Text.contains "java" language
          || any_in tags ["spring"; "maven"; "gradle"]
  then Some java_template
  else if Text.contains "go" language || Text.contains "golang" language
  then Some go_template
  else if Text.contains "rust" language
  then Some rust_template
  else None.

Definition estimate_complexity (stars open_issues : Z) : string :=
  if (stars <? 100)%Z && (open_issues <? 10)%Z then "simple"
  else if (stars <? 1000)%Z && (open_issues <? 50)%Z then "moderate"
  else "complex".

Definition analyze_repository_executability (repo_data : RepoData.t)
    : Analysis.t :=
  let language := Text.lower (RepoData.language repo_data) in
  let tags := map Text.lower (RepoData.tech_stack repo_data) in
  let detected := detect language tags in
  let requires_docker :=
    any_in tags ["docker"; "kubernetes"; "containerized"] in
  let requires_database :=
    any_in tags ["postgresql"; "mysql"; "mongodb"; "redis"; "database"] in
  {| Analysis.is_executable := bool_decide (is_Some detected);
     Analysis.detected_runtime := t_runtime <$> detected;
     Analysis.languages := if Text.truthy language then [language] else [];
     Analysis.setup_commands :=
       (if requires_docker
        then ["docker-compose up -d || docker build -t app ."]
        else [])
       ++ from_option t_setup_commands [] detected;
     Analysis.run_command := t_run_command <$> detected;
     Analysis.test_command := t_test_command <$> detected;
     Analysis.build_command := detected ≫= t_build_command;
     Analysis.dependencies := [];
     Analysis.estimated_complexity :=
       estimate_complexity (RepoData.stars repo_data)
         (RepoData.open_issues_count repo_data);
     Analysis.requires_docker := requires_docker;
     Analysis.requires_database := requires_database;
     Analysis.confidence := from_option t_confidence 0%Q detected;
     Analysis.issues :=
       if requires_database then ["Repository requires database setup"]
       else [] |}.

(** ** The file names and commands of a snippet *)

Definition extensions : list (string * string) :=
  [ ("python", "py"); ("javascript", "js"); ("node", "js");
    ("typescript", "ts"); ("java", "java"); ("go", "go"); ("rust", "rs");
    ("cpp", "cpp"); ("c", "c"); ("ruby", "rb"); ("php", "php") ].

Definition _get_file_extension (language : string) : string :=
  from_option id "txt" (PyDict.get (Text.lower language) extensions).

Definition commands (filename : string) : list (string * string) :=
  let file := "/tmp/" +:+ filename in
  let compiled := " -o /tmp/output && /tmp/output" in
  [ ("python", "python " +:+ file);
    ("javascript", "node " +:+ file);
    ("node", "node " +:+ file);
    ("typescript", "ts-node " +:+ file);
    ("java", "javac " +:+ file +:+ " && java "
               +:+ Text.replace ".java" "" filename);
    ("go", "go run " +:+ file);
    ("rust", "rustc " +:+ file +:+ compiled);
    ("cpp", "g++ " +:+ file +:+ compiled);
    ("c", "gcc " +:+ file +:+ compiled);
    ("ruby", "ruby " +:+ file);
    ("php", "php " +:+ file) ].

Definition _get_run_command (language filename : string) : string :=
  from_option id ("cat /tmp/" +:+ filename)
    (PyDict.get (Text.lower language) (commands filename)).

(** ** The history *)

(** [x.get("timestamp", "")] *)
Definition sort_key (x : RepoResult.t) : string :=
  default "" (RepoResult.timestamp x).

(** [sorted(xs, key=sort_key, reverse=True)]: a stable sort into
    descending order, equal keys keeping the order they came in. *)
Fixpoint insert_desc (x : RepoResult.t) (sorted : list RepoResult.t)
    : list RepoResult.t :=
  match sorted with
  | [] => [x]
  | y :: rest =>
      if String.ltb (sort_key x) (sort_key y)
      then y :: insert_desc x rest
      else x :: sorted
  end.

Definition sorted_desc (xs : list RepoResult.t) : list RepoResult.t :=
  fold_right insert_desc [] xs.

(** [xs[:limit]], a negative [limit] counting from the end. *)
Definition slice_to {A} (limit : Z) (xs : list A) : list A :=
  if (limit <? 0)%Z
  then take (Z.to_nat (Z.of_nat (length xs) + limit)) xs
  else take (Z.to_nat limit) xs.

Definition get_execution_history {W} (limit : Z) (s : State W)
    : list RepoResult.t :=
  slice_to limit (sorted_desc (PyDict.values (execution_history s))).

Definition get_execution_result {W} (execution_id : string) (s : State W)
    : option RepoResult.t :=
  PyDict.get execution_id (execution_history s).

(** ** [execute_repository] and [execute_code_snippet] *)

Section WithEnv.
Context {W : Type} {E : Env W}.

(** The state of a running [execute_repository]: the process state and
    the local list [execution_log]. *)
Definition Frame : Type := State W * list LogEntry.t.

(** [datetime.now().isoformat()] *)
Definition now_iso : M Frame string :=
  let* now := on_fst (ask datetime_now) in
  ret (Datetime.isoformat now).

(** [execution_log.append(entry)] *)
Definition append (entry : LogEntry.t) : M Frame unit :=
  modify (fun f : Frame => (fst f, snd f ++ [entry])).

Definition running_entry (step : string) (command : option string)
    (timestamp : string) : LogEntry.t :=
  {| LogEntry.step := step;
     LogEntry.command := command;
     LogEntry.status := "running";
     LogEntry.output := None;
     LogEntry.error := None;
     LogEntry.execution_time := None;
     LogEntry.timestamp := timestamp |}.

(** The entry appended after a setup, test or build command: [on_failure]
    is the status the step gets when the command did not succeed. *)
Definition finished_entry (step command on_failure : string)
    (result : CommandResult.t) (timestamp : string) : LogEntry.t :=
  {| LogEntry.step := step;
     LogEntry.command := Some command;
     LogEntry.status :=
       if CommandResult.success result then "success" else on_failure;
     LogEntry.output := Some (CommandResult.stdout result);
     LogEntry.error := Some (CommandResult.stderr result);
     LogEntry.execution_time := Some (CommandResult.execution_time result);
     LogEntry.timestamp := timestamp |}.

(** One step after the clone: the [running] entry, the command, the
    entry with its outcome. *)
Definition run_step (sandbox_id step command on_failure : string)
    (timeout : Z) : M Frame unit :=
  let* started := now_iso in
  let* _ := append (running_entry step (Some command) started) in
  let* result :=
    on_fst (SandboxManager.execute_in_sandbox sandbox_id command
              "/tmp/repo" timeout) in
  let* finished := now_iso in
  append (finished_entry step command on_failure result finished).

(** [for i, cmd in enumerate(analysis["setup_commands"]): ...] from
    index [i] on. *)
Fixpoint setup_loop (sandbox_id : string) (i : nat) (cmds : list string)
    : M Frame unit :=
  match cmds with
  | [] => ret tt
  | cmd :: rest =>
      let* _ :=
        run_step sandbox_id ("setup_" +:+ pretty i) cmd "warning" 180 in
      setup_loop sandbox_id (S i) rest
  end.

(** [if analysis[key]: ...] for the test and the build command. *)
Definition optional_step (sandbox_id step : string)
    (command : option string) (timeout : Z) : M Frame unit :=
  match command with
  | Some cmd =>
      if Text.truthy cmd
      then run_step sandbox_id step cmd "failed" timeout
      else ret tt
  | None => ret tt
  end.

(** [log.get("status") == "failed" and log.get("step") in
    ["clone", "build"]] *)
Definition is_critical_failure (log : LogEntry.t) : bool :=
  String.eqb (LogEntry.status log) "failed"
  && Text.mem (LogEntry.step log) ["clone"; "build"].

Definition early_result (execution_id error : string)
    (analysis : Analysis.t) : RepoResult.t :=
  {| RepoResult.execution_id := execution_id;
     RepoResult.sandbox_id := None;
     RepoResult.status := "failed";
     RepoResult.error := Some error;
     RepoResult.analysis := analysis;
     RepoResult.logs := [];
     RepoResult.total_execution_time := None;
     RepoResult.resource_stats := None;
     RepoResult.timestamp := None |}.

Definition stopped_result (execution_id sandbox_id status error : string)
    (analysis : Analysis.t) (logs : list LogEntry.t) : RepoResult.t :=
  {| RepoResult.execution_id := execution_id;
     RepoResult.sandbox_id := Some sandbox_id;
     RepoResult.status := status;
     RepoResult.error := Some error;
     RepoResult.analysis := analysis;
     RepoResult.logs := logs;
     RepoResult.total_execution_time := None;
     RepoResult.resource_stats := None;
     RepoResult.timestamp := None |}.

Definition store (execution_id : string) (result : RepoResult.t)
    (s : State W) : State W :=
  set_execution_history
    (PyDict.set execution_id result (execution_history s)) s.

(** The body of the [try] of [execute_repository]. *)
Definition repository_steps (execution_id sandbox_id repo_url : string)
    (analysis : Analysis.t) (start_time : Datetime.t)
    : M Frame RepoResult.t :=
  (* Step 1: clone *)
  let* started := now_iso in
  let* _ := append (running_entry "clone" None started) in
  let* clone_result :=
    on_fst (SandboxManager.execute_in_sandbox sandbox_id
              ("git clone " +:+ repo_url +:+ " /tmp/repo") "/tmp" 120) in
  if negb (CommandResult.success clone_result)
  then
    let* failed_at := now_iso in
    let* _ := append
      {| LogEntry.step := "clone";
         LogEntry.command := None;
         LogEntry.status := "failed";
         LogEntry.output := None;
         LogEntry.error := Some (CommandResult.stderr clone_result);
         LogEntry.execution_time := None;
         LogEntry.timestamp := failed_at |} in
    let* _ := on_fst (SandboxManager.stop_sandbox sandbox_id) in
    let* execution_log := gets snd in
    ret (stopped_result execution_id sandbox_id "failed"
           "Failed to clone repository" analysis execution_log)
  else
    let* cloned_at := now_iso in
    let* _ := append
      {| LogEntry.step := "clone";
         LogEntry.command := None;
         LogEntry.status := "success";
         LogEntry.output := Some (CommandResult.stdout clone_result);
         LogEntry.error := None;
         LogEntry.execution_time := None;
         LogEntry.timestamp := cloned_at |} in
    (* Step 2: setup commands *)
    let* _ := setup_loop sandbox_id 0 (Analysis.setup_commands analysis) in
    (* Step 3: tests *)
    let* _ :=
      optional_step sandbox_id "test" (Analysis.test_command analysis) 120 in
    (* Step 4: build *)
    let* _ :=
      optional_step sandbox_id "build" (Analysis.build_command analysis)
        240 in
    let* stats := on_fst (SandboxManager.get_sandbox_stats sandbox_id) in
    let* _ := on_fst (SandboxManager.stop_sandbox sandbox_id) in
    let* finished := on_fst (ask datetime_now) in
    let total_time :=
      (Datetime.seconds finished - Datetime.seconds start_time)%Q in
    let* execution_log := gets snd in
    let failed_critical := existsb is_critical_failure execution_log in
    let execution_result :=
      {| RepoResult.execution_id := execution_id;
         RepoResult.sandbox_id := Some sandbox_id;
         RepoResult.status :=
           if failed_critical then "failed" else "success";
         RepoResult.error := None;
         RepoResult.analysis := analysis;
         RepoResult.logs := execution_log;
         RepoResult.total_execution_time := Some total_time;
         RepoResult.resource_stats := stats;
         RepoResult.timestamp := Some (Datetime.isoformat start_time) |} in
    let* _ := on_fst (modify (store execution_id execution_result)) in
    ret execution_result.

(** The [except Exception as e] of [execute_repository]. *)
Definition repository_fault (execution_id sandbox_id : string)
    (analysis : Analysis.t) (e : exn) : M Frame RepoResult.t :=
  let* _ := on_fst (SandboxManager.stop_sandbox sandbox_id) in
  let* execution_log := gets snd in
  ret (stopped_result execution_id sandbox_id "error" (str_of_exn e)
         analysis execution_log).

(** [execute_repository(repo_url, repo_data, timeout)] on well-typed
    metadata; the parameter [steps] of the source is never read.  An
    analysis that is executable always names its runtime; were it
    [None], the call [language.lower()] of [create_sandbox] would
    raise. *)
Definition execute_repository (repo_url : string) (repo_data : RepoData.t)
    (timeout : Z) : M (State W) RepoResult.t :=
  let* execution_id := ask uuid4 in
  let analysis := analyze_repository_executability repo_data in
  if negb (Analysis.is_executable analysis)
  then ret (early_result execution_id "Repository is not executable"
              analysis)
  else
    match Analysis.detected_runtime analysis with
    | None =>
        raise (Exception "'NoneType' object has no attribute 'lower'")
    | Some runtime =>
        let* created :=
          SandboxManager.create_sandbox runtime "1g" 2 timeout true in
        match created with
        | Some sandbox_id =>
            if Text.truthy sandbox_id
            then
              with_local ([] : list LogEntry.t)
                (let* start_time := on_fst (ask datetime_now) in
                 try_except
                   (repository_steps execution_id sandbox_id repo_url
                      analysis start_time)
                   (repository_fault execution_id sandbox_id analysis))
            else
              ret (early_result execution_id
                     "Failed to create sandbox (Docker not available)"
                     analysis)
        | None =>
            ret (early_result execution_id
                   "Failed to create sandbox (Docker not available)"
                   analysis)
        end
    end.

Definition snippet_unavailable (execution_id : string) : SnippetResult.t :=
  {| SnippetResult.execution_id := Some execution_id;
     SnippetResult.sandbox_id := None;
     SnippetResult.status := "failed";
     SnippetResult.error :=
       Some "Failed to create sandbox (Docker not available)";
     SnippetResult.validation := None;
     SnippetResult.stdout := "";
     SnippetResult.stderr := "";
     SnippetResult.exit_code := None;
     SnippetResult.execution_time := None |}.

(** The body of the [try] of [execute_code_snippet]. *)
Definition snippet_steps (execution_id sandbox_id code language : string)
    (timeout : Z) : M (State W) SnippetResult.t :=
  let filename :=
    "code_" +:+ execution_id +:+ "." +:+ _get_file_extension language in
  let* _ :=
    SandboxManager.upload_file_to_sandbox sandbox_id
      (Text.encode_utf8 code) ("/tmp/" +:+ filename) in
  let run_command := _get_run_command language filename in
  let* result :=
    SandboxManager.execute_in_sandbox sandbox_id run_command "/tmp"
      timeout in
  let* _ := SandboxManager.stop_sandbox sandbox_id in
  ret {| SnippetResult.execution_id := Some execution_id;
         SnippetResult.sandbox_id := Some sandbox_id;
         SnippetResult.status :=
           if CommandResult.success result then "success" else "failed";
         SnippetResult.error := None;
         SnippetResult.validation := None;
         SnippetResult.stdout := CommandResult.stdout result;
         SnippetResult.stderr := CommandResult.stderr result;
         SnippetResult.exit_code := Some (CommandResult.exit_code result);
         SnippetResult.execution_time :=
           Some (CommandResult.execution_time result) |}.

(** The [except Exception as e] of [execute_code_snippet]. *)
Definition snippet_fault (execution_id sandbox_id : string) (e : exn)
    : M (State W) SnippetResult.t :=
  let* _ := SandboxManager.stop_sandbox sandbox_id in
  ret {| SnippetResult.execution_id := Some execution_id;
         SnippetResult.sandbox_id := Some sandbox_id;
         SnippetResult.status := "error";
         SnippetResult.error := Some (str_of_exn e);
         SnippetResult.validation := None;
         SnippetResult.stdout := "";
         SnippetResult.stderr := str_of_exn e;
         SnippetResult.exit_code := None;
         SnippetResult.execution_time := None |}.

Definition execute_code_snippet (code language : string) (timeout : Z)
    : M (State W) SnippetResult.t :=
  let* _ :=
    modify (record_call (Call.execute_code_snippet code language timeout)) in
  let* execution_id := ask uuid4 in
  let* created :=
    SandboxManager.create_sandbox language "256m" (1 # 2) timeout false in
  match created with
  | Some sandbox_id =>
      if Text.truthy sandbox_id
      then
        try_except
          (snippet_steps execution_id sandbox_id code language timeout)
          (snippet_fault execution_id sandbox_id)
      else ret (snippet_unavailable execution_id)
  | None => ret (snippet_unavailable execution_id)
  end.

End WithEnv.

Arguments Frame : clear implicits.

End ExecutionController.

(* ===================================================================== *)
(** * main_v2.py: the [/execute/code] endpoint                            *)
(* ===================================================================== *)

Module MainV2.
Section WithEnv.
Context {W : Type} {E : Env W}.

(** The request body [CodeExecutionRequest]. *)
Record CodeExecutionRequest : Type := Request {
  code : string;
  language : string;
  timeout : Z
}.

(** The module-level [execution_controller] is an object exactly when
    [RUNANYWHERE_AVAILABLE] is true, and [None] otherwise. *)
Definition execution_controller (s : State W) : bool :=
  RUNANYWHERE_AVAILABLE s.

Definition rejected (validation : SecurityManager.verdict)
    : SnippetResult.t :=
  {| SnippetResult.execution_id := None;
     SnippetResult.sandbox_id := None;
     SnippetResult.status := "rejected";
     SnippetResult.error :=
       Some "Code contains potentially dangerous patterns";
     SnippetResult.validation := Some validation;
     SnippetResult.stdout := "";
     SnippetResult.stderr := "";
     SnippetResult.exit_code := None;
     SnippetResult.execution_time := None |}.

Definition execute_code (request : CodeExecutionRequest)
    : M (State W) SnippetResult.t :=
  let* runanywhere := gets RUNANYWHERE_AVAILABLE in
  let* controller := gets execution_controller in
  if negb runanywhere || negb controller
  then raise (HTTPException 503
                "RunAnywhere not available. Install: pip install docker")
  else
    let* docker := gets SandboxManager.is_available in
    if negb docker
    then raise (HTTPException 503
                  "Docker not available. Please start Docker Desktop.")
    else
      (* Validate code for security *)
      let validation :=
        SecurityManager.validate_code (code request) (language request)
          true in
      if negb (SecurityManager.is_safe validation)
      then ret (rejected validation)
      else
        (* Execute in sandbox *)
        ExecutionController.execute_code_snippet (code request)
          (language request) (timeout request).

End WithEnv.
End MainV2.

(* ===================================================================== *)
(** * main_v2.py: the other execution endpoints                           *)
(* ===================================================================== *)

Module Api.

(** What a handler passes to [background_tasks.add_task]: the task runs
    once the response has been sent. *)
Inductive background_task : Type :=
| cleanup_expired_sandboxes.

Section WithEnv.
Context {W : Type} {E : Env W}.

(** The metadata [GET /execute/analyze] builds: a dictionary with the
    keys [name], [owner] and [full_name] only, so that each key the
    analysis reads has its default. *)
Definition named_only (owner repo : string) : RepoData.t :=
  {| RepoData.language := "";
     RepoData.tech_stack := [];
     RepoData.stars := 0;
     RepoData.open_issues_count := 0 |}.

(** [GET /execute/analyze] *)
Definition analyze_repository_executability (owner repo : string)
    : M (State W) Analysis.t :=
  let* runanywhere := gets RUNANYWHERE_AVAILABLE in
  let* controller := gets MainV2.execution_controller in
  if negb runanywhere || negb controller
  then raise (HTTPException 503 "RunAnywhere not available")
  else
    ret (ExecutionController.analyze_repository_executability
           (named_only owner repo)).

(** [GET /execute/history]: the entries and their count.  The framework
    admits a [limit] from 1 to 100 and answers any other without calling
    the handler. *)
Definition get_execution_history (limit : Z)
    : M (State W) (list RepoResult.t * Z) :=
  let* runanywhere := gets RUNANYWHERE_AVAILABLE in
  let* controller := gets MainV2.execution_controller in
  if negb runanywhere || negb controller
  then raise (HTTPException 503 "RunAnywhere not available")
  else
    let* history := gets (ExecutionController.get_execution_history limit) in
    ret (history, Z.of_nat (length history)).

(** [GET /execute/status/{execution_id}] *)
Definition get_execution_status (execution_id : string)
    : M (State W) RepoResult.t :=
  let* runanywhere := gets RUNANYWHERE_AVAILABLE in
  let* controller := gets MainV2.execution_controller in
  if negb runanywhere || negb controller
  then raise (HTTPException 503 "RunAnywhere not available")
  else
    let* result :=
      gets (ExecutionController.get_execution_result execution_id) in
    match result with
    | Some found => ret found
    | None => raise (HTTPException 404 "Execution not found")
    end.

(** The module-level [sandbox_manager] is an object exactly when
    [RUNANYWHERE_AVAILABLE] is true, and [None] otherwise. *)
Definition sandbox_manager (s : State W) : bool :=
  RUNANYWHERE_AVAILABLE s.

(** [GET /sandbox/stats/{sandbox_id}] *)
Definition get_sandbox_stats (sandbox_id : string)
    : M (State W) SandboxStats.t :=
  let* runanywhere := gets RUNANYWHERE_AVAILABLE in
  let* manager := gets sandbox_manager in
  if negb runanywhere || negb manager
  then raise (HTTPException 503 "RunAnywhere not available")
  else
    let* stats := SandboxManager.get_sandbox_stats sandbox_id in
    match stats with
    | Some found => ret found
    | None => raise (HTTPException 404 "Sandbox not found")
    end.

End WithEnv.
End Api.

(* ===================================================================== *)
(** * Requests as they arrive                                             *)
(* ===================================================================== *)

(** The modules above take the metadata of a repository with a string, a
    list of strings and two integers under the four keys that are read,
    and the code of a snippet with code points below 256.  The methods
    declare more: [repo_data] is a [Dict[str, Any]] read from the body of
    a request, and [code] is any [str].  The modules below model the two
    methods at those types; [ExecutionController] is what they do on the
    narrower inputs (section [Narrowing]). *)

(** A computation that returns or raises and touches no state. *)
Definition and_then {A B} (r : res A) (k : A -> res B) : res B :=
  match r with
  | Ret a => k a
  | Raise e => Raise e
  end.

Notation "'let+' x ':=' r 'in' k" := (and_then r (fun x => k))
  (at level 10, x pattern, r at level 100, k at level 200).

Definition lift {S A} (r : res A) : M S A := fun s => (r, s).

(** The values a JSON body holds, as Python reads them. *)
Module Json.

(** A [float]: a finite value, an infinity or a NaN (the JSON reader of
    Python takes [Infinity] and [NaN]). *)
Inductive float : Type :=
| finite (value : Q)
| infinity (negative : bool)
| nan.

#[warnings="-register-all"]
Inductive t : Type :=
| null
| boolean (b : bool)
| integer (n : Z)
| real (x : float)
| text (s : string)
| array (items : list t)
| object (members : list (string * t)).

(** [type(v).__name__] *)
Definition type_name (v : t) : string :=
  match v with
  | null => "NoneType"
  | boolean _ => "bool"
  | integer _ => "int"
  | real _ => "float"
  | text _ => "str"
  | array _ => "list"
  | object _ => "dict"
  end.

(** [v.lower()]: of these values only a [str] has the method. *)
Definition lower (v : t) : res string :=
  match v with
  | text s => Ret (Text.lower s)
  | _ =>
      Raise (Exception ("'" +:+ type_name v
                          +:+ "' object has no attribute 'lower'"))
  end.

(** [for x in v]: the items of a list, the characters of a string, the
    keys of a dictionary; the other values are not iterable. *)
Definition iterate (v : t) : res (list t) :=
  match v with
  | array items => Ret items
  | text s => Ret (map (fun c => text (String c "")) (list_ascii_of_string s))
  | object members => Ret (map (fun member => text (fst member)) members)
  | _ => Raise (Exception ("'" +:+ type_name v +:+ "' object is not iterable"))
  end.

(** [x < n] for a float [x] and an integer [n]: the comparison is exact;
    it is false for a NaN. *)
Definition float_less_than (x : float) (n : Z) : bool :=
  match x with
  | finite value => negb (Qle_bool (inject_Z n) value)
  | infinity negative => negative
  | nan => false
  end.

(** [v < n] for an integer [n]; [bool] is a subclass of [int]. *)
Definition less_than (v : t) (n : Z) : res bool :=
  match v with
  | integer m => Ret (m <? n)%Z
  | boolean b => Ret ((if b then 1 else 0) <? n)%Z
  | real x => Ret (float_less_than x n)
  | _ =>
      Raise (Exception ("'<' not supported between instances of '"
                          +:+ type_name v +:+ "' and 'int'"))
  end.

End Json.

(** A [str] in full. *)
Module Unicode.

(** The code points of a [str], each below 0x110000.  The surrogates
    U+D800..U+DFFF may stand alone in a [str]: the JSON reader yields one
    for an unpaired escape. *)
Definition str : Type := list N.

Definition of_string (s : string) : str :=
  map Text.code (list_ascii_of_string s).

Definition is_surrogate (c : N) : bool :=
  ((55296 <=? c) && (c <=? 57343))%N.

Definition octet (n : N) : Byte.byte := byte_of_ascii (ascii_of_N n).

(** The UTF-8 bytes of a code point that is not a surrogate. *)
Definition encode_point (c : N) : bytes :=
  if (c <? 128)%N then [octet c]
  else if (c <? 2048)%N
  then [octet (192 + c / 64); octet (128 + c mod 64)]
  else if (c <? 65536)%N
  then [octet (224 + c / 4096); octet (128 + c / 64 mod 64);
        octet (128 + c mod 64)]
  else [octet (240 + c / 262144); octet (128 + c / 4096 mod 64);
        octet (128 + c / 64 mod 64); octet (128 + c mod 64)].

Definition hex_digit (n : N) : ascii :=
  if (n <? 10)%N then ascii_of_N (48 + n) else ascii_of_N (87 + n).

(** [%04x] *)
Definition hex4 (c : N) : string :=
  String (hex_digit (c / 4096 mod 16))
    (String (hex_digit (c / 256 mod 16))
       (String (hex_digit (c / 16 mod 16))
          (String (hex_digit (c mod 16)) ""))).

(** The number of surrogates a text starts with. *)
Fixpoint surrogates (s : str) : nat :=
  match s with
  | c :: rest => if is_surrogate c then S (surrogates rest) else 0
  | [] => 0
  end.

(** The [UnicodeEncodeError] for the surrogate [c] at index [start],
    followed by [rest]: it covers the whole run of surrogates that
    starts there, and [str(e)] names the character when the run is one
    character long. *)
Definition surrogates_not_allowed (start : nat) (c : N) (rest : str) : exn :=
  Exception
    (match surrogates rest with
     | O =>
         "'utf-8' codec can't encode character '\u" +:+ hex4 c
           +:+ "' in position " +:+ pretty start
           +:+ ": surrogates not allowed"
     | S further =>
         "'utf-8' codec can't encode characters in position "
           +:+ pretty start +:+ "-" +:+ pretty (start + S further)
           +:+ ": surrogates not allowed"
     end).

Fixpoint encode_from (position : nat) (s : str) : res bytes :=
  match s with
  | [] => Ret []
  | c :: rest =>
      if is_surrogate c
      then Raise (surrogates_not_allowed position c rest)
      else
        let+ data := encode_from (S position) rest in
        Ret (encode_point c ++ data)
  end.

(** [s.encode('utf-8')] *)
Definition encode_utf8 (s : str) : res bytes := encode_from 0 s.

End Unicode.

Module Wire.

(** [repo_data]: any JSON value under any key, each key once. *)
Definition Metadata : Type := PyDict.t Json.t.

(** [d.get(key, fallback)] *)
Definition get (key : string) (fallback : Json.t) (d : Metadata) : Json.t :=
  from_option id fallback (PyDict.get key d).

(** Metadata with a string, a list of strings and two integers under
    the four keys. *)
Definition well_typed (repo_data : RepoData.t) : Metadata :=
  [ ("language", Json.text (RepoData.language repo_data));
    ("tech_stack", Json.array (map Json.text (RepoData.tech_stack repo_data)));
    ("stars", Json.integer (RepoData.stars repo_data));
    ("open_issues_count",
     Json.integer (RepoData.open_issues_count repo_data)) ].

Import ExecutionController.

(** [any(p in t.lower() for t in items)]: the generator is read up to
    the first hit. *)
Fixpoint any_lowered_contains (p : string) (items : list Json.t)
    : res bool :=
  match items with
  | [] => Ret false
  | t :: rest =>
      let+ lowered := Json.lower t in
      if Text.contains p lowered then Ret true
      else any_lowered_contains p rest
  end.

(** [[t.lower() for t in items]] *)
Fixpoint lower_each (items : list Json.t) : res (list string) :=
  match items with
  | [] => Ret []
  | t :: rest =>
      let+ lowered := Json.lower t in
      let+ others := lower_each rest in
      Ret (lowered :: others)
  end.

(** [[t.lower() for t in tech_stack]] *)
Definition lowered (tech_stack : Json.t) : res (list string) :=
  let+ items := Json.iterate tech_stack in
  lower_each items.

(** [a or b] and [a and b]: the second operand is evaluated only when
    the first does not decide. *)
Definition or_else (a : bool) (b : res bool) : res bool :=
  if a then Ret true else b.

Definition and_also (a b : res bool) : res bool :=
  let+ first := a in
  if first then b else Ret false.

(** The chain of [if]/[elif] tests (lines 68 to 138), each test reading
    [tech_stack] only when it comes to it. *)
Definition detect (language : string) (tech_stack : Json.t)
    : res (option template) :=
  let+ python :=
    or_else (Text.contains "python" language)
      (let+ items := Json.iterate tech_stack in
       any_lowered_contains "python" items) in
  if python then Ret (Some python_template)
  else
    let+ node :=
      or_else (existsb (fun x => Text.contains x language)
                 ["javascript"; "typescript"])
        (let+ tags := lowered tech_stack in
         Ret (any_in tags ["node"; "react"; "vue"; "angular"; "nextjs"])) in
    if node then Ret (Some node_template)
    else
      let+ flutter :=
        (let+ tags := lowered tech_stack in
         Ret (Text.mem "flutter" tags || Text.contains "dart" language)) in
      if flutter then Ret (Some flutter_template)
      else
        let+ java :=
          or_else (Text.contains "java" language)
            (let+ tags := lowered tech_stack in
             Ret (any_in tags ["spring"; "maven"; "gradle"])) in
        if java then Ret (Some java_template)
        else if Text.contains "go" language
                || Text.contains "golang" language
        then Ret (Some go_template)
        else if Text.contains "rust" language
        then Ret (Some rust_template)
        else Ret None.

(** Lines 151 to 159. *)
Definition estimate_complexity (stars open_issues : Json.t) : res string :=
  let+ simple :=
    and_also (Json.less_than stars 100) (Json.less_than open_issues 10) in
  if simple then Ret "simple"
  else
    let+ moderate :=
      and_also (Json.less_than stars 1000)
        (Json.less_than open_issues 50) in
    if moderate then Ret "moderate" else Ret "complex".

(** [analyze_repository_executability(repo_data)]: it raises when a
    value it reads has not the type it is read at, at the first such
    reading in the order of the source. *)
Definition analyze_repository_executability (repo_data : Metadata)
    : res Analysis.t :=
  let+ language := Json.lower (get "language" (Json.text "") repo_data) in
  let tech_stack := get "tech_stack" (Json.array []) repo_data in
  let+ detected := detect language tech_stack in
  let+ tags := lowered tech_stack in
  let requires_docker :=
    any_in tags ["docker"; "kubernetes"; "containerized"] in
  let+ tags := lowered tech_stack in
  let requires_database :=
    any_in tags ["postgresql"; "mysql"; "mongodb"; "redis"; "database"] in
  let stars := get "stars" (Json.integer 0) repo_data in
  let open_issues := get "open_issues_count" (Json.integer 0) repo_data in
  let+ estimated_complexity := estimate_complexity stars open_issues in
  Ret {| Analysis.is_executable := bool_decide (is_Some detected);
         Analysis.detected_runtime := t_runtime <$> detected;
         Analysis.languages :=
           if Text.truthy language then [language] else [];
         Analysis.setup_commands :=
           (if requires_docker
            then ["docker-compose up -d || docker build -t app ."]
            else [])
           ++ from_option t_setup_commands [] detected;
         Analysis.run_command := t_run_command <$> detected;
         Analysis.test_command := t_test_command <$> detected;
         Analysis.build_command := detected ≫= t_build_command;
         Analysis.dependencies := [];
         Analysis.estimated_complexity := estimated_complexity;
         Analysis.requires_docker := requires_docker;
         Analysis.requires_database := requires_database;
         Analysis.confidence := from_option t_confidence 0%Q detected;
         Analysis.issues :=
           if requires_database then ["Repository requires database setup"]
           else [] |}.

Section WithEnv.
Context {W : Type} {E : Env W}.

(** [execute_repository(repo_url, repo_data, timeout)]; the parameter
    [steps] is never read.  The analysis is made before the [try], so
    that what it raises leaves the method. *)
Definition execute_repository (repo_url : string) (repo_data : Metadata)
    (timeout : Z) : M (State W) RepoResult.t :=
  let* execution_id := ask uuid4 in
  let* analysis := lift (analyze_repository_executability repo_data) in
  if negb (Analysis.is_executable analysis)
  then ret (early_result execution_id "Repository is not executable"
              analysis)
  else
    match Analysis.detected_runtime analysis with
    | None =>
        raise (Exception "'NoneType' object has no attribute 'lower'")
    | Some runtime =>
        let* created :=
          SandboxManager.create_sandbox runtime "1g" 2 timeout true in
        match created with
        | Some sandbox_id =>
            if Text.truthy sandbox_id
            then
              with_local ([] : list LogEntry.t)
                (let* start_time := on_fst (ask datetime_now) in
                 try_except
                   (repository_steps execution_id sandbox_id repo_url
                      analysis start_time)
                   (repository_fault execution_id sandbox_id analysis))
            else
              ret (early_result execution_id
                     "Failed to create sandbox (Docker not available)"
                     analysis)
        | None =>
            ret (early_result execution_id
                   "Failed to create sandbox (Docker not available)"
                   analysis)
        end
    end.

(** The body of the [try] of [execute_code_snippet]: the code is encoded
    when the arguments of the upload are evaluated. *)
Definition snippet_steps (execution_id sandbox_id : string)
    (code : Unicode.str) (language : string) (timeout : Z)
    : M (State W) SnippetResult.t :=
  let filename :=
    "code_" +:+ execution_id +:+ "." +:+ _get_file_extension language in
  let* file_content := lift (Unicode.encode_utf8 code) in
  let* _ :=
    SandboxManager.upload_file_to_sandbox sandbox_id file_content
      ("/tmp/" +:+ filename) in
  let run_command := _get_run_command language filename in
  let* result :=
    SandboxManager.execute_in_sandbox sandbox_id run_command "/tmp"
      timeout in
  let* _ := SandboxManager.stop_sandbox sandbox_id in
  ret {| SnippetResult.execution_id := Some execution_id;
         SnippetResult.sandbox_id := Some sandbox_id;
         SnippetResult.status :=
           if CommandResult.success result then "success" else "failed";
         SnippetResult.error := None;
         SnippetResult.validation := None;
         SnippetResult.stdout := CommandResult.stdout result;
         SnippetResult.stderr := CommandResult.stderr result;
         SnippetResult.exit_code := Some (CommandResult.exit_code result);
         SnippetResult.execution_time :=
           Some (CommandResult.execution_time result) |}.

Definition execute_code_snippet (code : Unicode.str) (language : string)
    (timeout : Z) : M (State W) SnippetResult.t :=
  let* execution_id := ask uuid4 in
  let* created :=
    SandboxManager.create_sandbox language "256m" (1 # 2) timeout false in
  match created with
  | Some sandbox_id =>
      if Text.truthy sandbox_id
      then
        try_except
          (snippet_steps execution_id sandbox_id code language timeout)
          (snippet_fault execution_id sandbox_id)
      else ret (snippet_unavailable execution_id)
  | None => ret (snippet_unavailable execution_id)
  end.

End WithEnv.
End Wire.

(** [POST /execute/repository] of [main_v2.py]: the response and the
    tasks scheduled. *)
Module WireApi.

(** The request body [RepositoryExecutionRequest]. *)
Record RepositoryExecutionRequest : Type := Request {
  repo_url : string;
  repo_data : Wire.Metadata;
  timeout : Z
}.

Section WithEnv.
Context {W : Type} {E : Env W}.

Definition execute_repository (request : RepositoryExecutionRequest)
    : M (State W) (RepoResult.t * list Api.background_task) :=
  let* runanywhere := gets RUNANYWHERE_AVAILABLE in
  let* controller := gets MainV2.execution_controller in
  if negb runanywhere || negb controller
  then raise (HTTPException 503
                "RunAnywhere not available. Install: pip install docker")
  else
    let* docker := gets SandboxManager.is_available in
    if negb docker
    then raise (HTTPException 503
                  "Docker not available. Please start Docker Desktop.")
    else
      (* Validate repository URL *)
      if negb (SecurityManager.validate_repository_url (repo_url request))
      then raise (HTTPException 400 "Invalid or unsafe repository URL")
      else
        let* result :=
          Wire.execute_repository (repo_url request) (repo_data request)
            (timeout request) in
        (* Schedule cleanup in background *)
        ret (result, [Api.cleanup_expired_sandboxes]).

End WithEnv.
End WireApi.

(* ===================================================================== *)
(** * A scripted environment                                               *)
(* ===================================================================== *)

(** A small deterministic environment to run the program on: identifiers
    are numbered, the clock moves only while a command runs, and every
    command takes its exit code and its duration from a script (exit code
    0 in no time once the script is used up).  [engine_up] says whether
    the Docker daemon answers. *)
Module Scripted.

Record t : Type := World {
  next_id : nat;
  ticks : nat;
  clock : Q;
  engine_up : bool;
  script : list (Z * Q)
}.

Definition answer {A} (a : A) (w : t) : res A * t :=
  if engine_up w then (Ret a, w)
  else (Raise (Exception "Error while fetching server API version"), w).

Definition scripted_uuid4 (w : t) : string * t :=
  ("sandbox-" +:+ pretty (next_id w),
   World (S (next_id w)) (ticks w) (clock w) (engine_up w) (script w)).

Definition scripted_now (w : t) : Datetime.t * t :=
  (Datetime.Make (clock w) ("T" +:+ pretty (ticks w)),
   World (next_id w) (S (ticks w)) (clock w) (engine_up w) (script w)).

Definition scripted_exec (c : Docker.container) (cmd workdir : string)
    (w : t) : res Docker.exec_result * t :=
  if engine_up w then
    match script w with
    | [] => (Ret (Docker.ExecResult 0 (None, None)), w)
    | (exit_code, duration) :: rest =>
        (Ret (Docker.ExecResult exit_code (None, None)),
         World (next_id w) (ticks w) (clock w + duration)%Q (engine_up w) rest)
    end
  else (Raise (Exception "Error while fetching server API version"), w).

(** An ASCII decoder: any byte from 128 on is refused. *)
Fixpoint ascii_decode (data : bytes) : res string :=
  match data with
  | [] => Ret ""
  | b :: rest =>
      if (Byte.to_N b <? 128)%N
      then match ascii_decode rest with
           | Ret s => Ret (String (ascii_of_byte b) s)
           | Raise e => Raise e
           end
      else Raise (Exception "'utf-8' codec can't decode byte")
  end.

Definition idle_stats : Docker.stats :=
  Docker.Stats 0 0 0 0 (Some 0%Z) (Some 0%Z) None.

Lemma scripted_uuid4_nonempty (w : t) : fst (scripted_uuid4 w) <> "".
Proof. discriminate. Qed.

#[export] Instance env : Env t := {|
  uuid4 := scripted_uuid4;
  uuid4_nonempty := scripted_uuid4_nonempty;
  time_time := fun w => (clock w, w);
  datetime_now := scripted_now;
  bytes_decode := ascii_decode;
  docker_from_env := answer tt;
  images_get := fun _ => answer tt;
  images_pull := fun _ => answer tt;
  containers_create :=
    fun args => answer (Docker.Container ("container-of-" +:+ Docker.image args));
  container_start := fun _ => answer tt;
  container_exec_run := scripted_exec;
  container_put_archive := fun _ _ _ => answer true;
  container_stats := fun _ => answer idle_stats;
  container_stop := fun _ _ => answer tt;
  container_remove := fun _ => answer tt
|}.

(** The process before [SandboxManager()] is constructed. *)
Definition blank (up : bool) (commands : list (Z * Q)) : State t :=
  MkState (World 0 0 0 up commands) true false false ∅ [] [] [].

(** The process once the module-level singletons exist. *)
Definition boot (up : bool) (commands : list (Z * Q)) : State t :=
  snd (SandboxManager.init (blank up commands)).

Definition python_repo : RepoData.t :=
  RepoData.Make "Python" [] 10 2.

Definition node_repo : RepoData.t :=
  RepoData.Make "JavaScript" ["React"] 10 2.

Definition unknown_repo : RepoData.t :=
  RepoData.Make "" [] 0 0.

End Scripted.

(* ===================================================================== *)
(** * What the theorems speak of                                          *)
(* ===================================================================== *)

Module Observed.

(** The number of [stop_sandbox] calls on one sandbox. *)
Definition is_stop (sandbox_id : string) (c : Call.t) : bool :=
  match c with
  | Call.stop_sandbox sid _ => String.eqb sid sandbox_id
  | _ => false
  end.

Definition stops (sandbox_id : string) (cs : list Call.t) : nat :=
  length (List.filter (is_stop sandbox_id) cs).


(** The calls that create or run something. *)
Definition is_create (c : Call.t) : bool :=
  match c with Call.create_sandbox _ _ _ _ _ _ => true | _ => false end.

Definition is_snippet_run (c : Call.t) : bool :=
  match c with Call.execute_code_snippet _ _ _ => true | _ => false end.

(** The [network_enabled] argument of a [create_sandbox] call. *)
Definition asks_for_network (c : Call.t) : bool :=
  match c with
  | Call.create_sandbox _ _ _ _ network_enabled _ => network_enabled
  | _ => false
  end.

(** The commands sent to a sandbox, in the order they were sent. *)
Definition commands_issued (cs : list Call.t) : list string :=
  omap (fun c =>
          match c with
          | Call.execute_in_sandbox _ command _ _ _ => Some command
          | _ => None
          end) cs.

(** A log entry seen as its step and its status. *)
Definition view (entry : LogEntry.t) : string * string :=
  (LogEntry.step entry, LogEntry.status entry).

(** A step of the pipeline after the clone, as [execute_repository] is
    about to run it: its name, its command, the time it is given and the
    status it is logged with when the command fails. *)
Record planned : Type := Planned {
  p_step : string;
  p_command : string;
  p_timeout : Z;
  p_on_failure : string
}.

Fixpoint setup_plan (i : nat) (cmds : list string) : list planned :=
  match cmds with
  | [] => []
  | cmd :: rest =>
      Planned ("setup_" +:+ pretty i) cmd 180 "warning"
      :: setup_plan (S i) rest
  end.

Definition optional_plan (step : string) (command : option string)
    (timeout : Z) : list planned :=
  match command with
  | Some cmd =>
      if Text.truthy cmd then [Planned step cmd timeout "failed"] else []
  | None => []
  end.

(** The steps that follow a successful clone. *)
Definition plan (analysis : Analysis.t) : list planned :=
  setup_plan 0 (Analysis.setup_commands analysis)
  ++ optional_plan "test" (Analysis.test_command analysis) 120
  ++ optional_plan "build" (Analysis.build_command analysis) 240.

(** The call a planned step makes and the two entries it logs, given the
    result of its command. *)
Definition call_of (sandbox_id : string) (p : planned) (r : CommandResult.t)
    : Call.t :=
  Call.execute_in_sandbox sandbox_id (p_command p) "/tmp/repo" (p_timeout p) r.

Definition views_of (p : planned) (r : CommandResult.t)
    : list (string * string) :=
  [ (p_step p, "running");
    (p_step p, if CommandResult.success r then "success" else p_on_failure p) ].

Fixpoint calls_of (sandbox_id : string) (ps : list planned)
    (rs : list CommandResult.t) : list Call.t :=
  match ps, rs with
  | p :: ps', r :: rs' => call_of sandbox_id p r :: calls_of sandbox_id ps' rs'
  | _, _ => []
  end.

Fixpoint log_of (ps : list planned) (rs : list CommandResult.t)
    : list (string * string) :=
  match ps, rs with
  | p :: ps', r :: rs' => views_of p r ++ log_of ps' rs'
  | _, _ => []
  end.

(** A build step whose command failed. *)
Definition build_failed (p : planned) (r : CommandResult.t) : bool :=
  String.eqb (p_step p) "build" && negb (CommandResult.success r).

Fixpoint any_build_failed (ps : list planned) (rs : list CommandResult.t)
    : bool :=
  match ps, rs with
  | p :: ps', r :: rs' => build_failed p r || any_build_failed ps' rs'
  | _, _ => false
  end.

(** The maximum severity over a list of issues, [safe] when it is
    empty: the risk level as the specification words it. *)
Definition max_severity (issues : list SecurityManager.issue)
    : SecurityManager.risk :=
  fold_left SecurityManager.risk_max (map SecurityManager.severity issues)
    SecurityManager.safe.

(** What an issue counts for in [validate_code]: a dangerous pattern
    sets the risk level to [high] whatever severity it is recorded with. *)
Definition weight (i : SecurityManager.issue) : SecurityManager.risk :=
  match i with
  | SecurityManager.dangerous_pattern _ _ _ => SecurityManager.high
  | _ => SecurityManager.severity i
  end.

Definition max_weight (issues : list SecurityManager.issue)
    : SecurityManager.risk :=
  fold_left SecurityManager.risk_max (map weight issues) SecurityManager.safe.

(** Not in the source: the host component of a URL as the specification
    means it, the text between the [://] of the scheme and the next
    slash. *)
Fixpoint up_to_slash (s : string) : string :=
  match s with
  | EmptyString => EmptyString
  | String c s' =>
      if Ascii.eqb c "/" then EmptyString else String c (up_to_slash s')
  end.

Fixpoint host_of (url : string) : string :=
  match url with
  | EmptyString => EmptyString
  | String _ rest =>
      if Text.startswith "://" url then up_to_slash (Text.skip 3 url)
      else host_of rest
  end.

Definition allowed_hosts : list string :=
  ["github.com"; "gitlab.com"; "bitbucket.org"].

End Observed.

(* ===================================================================== *)
(** * The security gate                                                   *)
(* ===================================================================== *)

Section SecurityGate.
Import SecurityManager Observed.

Lemma risk_max_high (a : risk) : risk_max a high = high.
Proof. destruct a; reflexivity. Qed.

Lemma max_weight_snoc (l : list issue) (i : issue) :
  max_weight (l ++ [i]) = risk_max (max_weight l) (weight i).
Proof. unfold max_weight. rewrite map_app, fold_left_app. reflexivity. Qed.

(** What the three checks keep true of the pair they thread: the risk
    level is the largest weight among the issues found so far. *)
Definition tracks_weight (acc : list issue * risk) : Prop :=
  snd acc = max_weight (fst acc).

(** In strict mode every issue is recorded with the severity it counts
    for. *)
Definition severities_exact (acc : list issue * risk) : Prop :=
  Forall (fun i => weight i = severity i) (fst acc).

Lemma fold_left_invariant {A B} (P : A -> Prop) (f : A -> B -> A)
    (l : list B) (a : A) :
  P a -> (forall x b, P x -> P (f x b)) -> P (fold_left f l a).
Proof.
  intros Ha Hf. revert a Ha.
  induction l as [|b l IH]; intros a Ha; cbn; [exact Ha|].
  apply IH, Hf, Ha.
Qed.

Lemma check_dangerous_tracks strict code acc pattern :
  tracks_weight acc -> tracks_weight (check_dangerous strict code acc pattern).
Proof.
  unfold tracks_weight, check_dangerous. intros H.
  destruct (Re.findall true pattern code); [exact H|].
  cbn [fst snd]. rewrite max_weight_snoc. cbn [weight].
  symmetry. apply risk_max_high.
Qed.

Lemma check_length_tracks code acc :
  tracks_weight acc -> tracks_weight (check_length code acc).
Proof.
  unfold tracks_weight, check_length. intros H.
  destruct (100000 <? _)%Z; [|exact H].
  cbn [fst snd]. rewrite max_weight_snoc, H. reflexivity.
Qed.

Lemma check_loop_tracks code acc pattern :
  tracks_weight acc -> tracks_weight (check_loop code acc pattern).
Proof.
  unfold tracks_weight, check_loop. intros H.
  destruct (Re.search true pattern code); [|exact H].
  cbn [fst snd]. rewrite max_weight_snoc, H. reflexivity.
Qed.

Lemma check_dangerous_exact code acc pattern :
  severities_exact acc -> severities_exact (check_dangerous true code acc pattern).
Proof.
  unfold severities_exact, check_dangerous. intros H.
  destruct (Re.findall true pattern code); [exact H|].
  cbn [fst snd]. apply Forall_app. split; [exact H|].
  constructor; [reflexivity|constructor].
Qed.

Lemma check_length_exact code acc :
  severities_exact acc -> severities_exact (check_length code acc).
Proof.
  unfold severities_exact, check_length. intros H.
  destruct (100000 <? _)%Z; [|exact H].
  cbn [fst snd]. apply Forall_app. split; [exact H|].
  constructor; [reflexivity|constructor].
Qed.

Lemma check_loop_exact code acc pattern :
  severities_exact acc -> severities_exact (check_loop code acc pattern).
Proof.
  unfold severities_exact, check_loop. intros H.
  destruct (Re.search true pattern code); [|exact H].
  cbn [fst snd]. apply Forall_app. split; [exact H|].
  constructor; [reflexivity|constructor].
Qed.

Lemma exact_weights (l : list issue) :
  Forall (fun i => weight i = severity i) l -> max_weight l = max_severity l.
Proof.
  intros H. unfold max_weight, max_severity. f_equal.
  induction H as [|i l Hi _ IH]; cbn; [reflexivity|].
  rewrite Hi, IH. reflexivity.
Qed.

(** C8, as the claim states it, fails: with strict mode off, the code
    [import os] in Python yields one issue of severity [medium], and the
    risk level [high]. *)
Lemma validate_code_risk_above_max_severity :
  let v := validate_code "import os" "python" false in
  map severity (issues v) = [medium]
  /\ max_severity (issues v) = medium
  /\ risk_level v = high.
Proof. vm_compute. repeat split. Qed.

(** C8, amended: for every code, language and strict-mode flag, the risk
    level of the verdict is the largest weight of its issues, a matched
    dangerous pattern weighing [high] whatever severity it is recorded
    with and every other issue weighing its severity; with strict mode on
    this is the maximum severity over the issues; and [is_safe] is
    [risk_level != high] with strict mode on and true with it off. *)
Theorem validate_code_risk_level (code language : string) (strict : bool) :
  let v := validate_code code language strict in
  risk_level v = max_weight (issues v)
  /\ (strict = true -> risk_level v = max_severity (issues v))
  /\ is_safe v = (if strict then negb (is_high (risk_level v)) else true)
  /\ strict_mode v = strict.
Proof.
  cbn zeta. unfold validate_code. cbn [risk_level issues is_safe strict_mode].
  set (acc1 := fold_left (check_dangerous strict code) _ _).
  set (acc2 := check_length code acc1).
  set (acc3 := fold_left (check_loop code) loop_patterns acc2).
  assert (T3 : tracks_weight acc3).
  { apply fold_left_invariant; [|intros; by apply check_loop_tracks].
    apply check_length_tracks.
    apply fold_left_invariant; [reflexivity|].
    intros; by apply check_dangerous_tracks. }
  split; [exact T3|]. split; [|split; [|reflexivity]].
  - intros ->. rewrite T3. apply exact_weights.
    apply (fold_left_invariant severities_exact);
      [|intros; by apply check_loop_exact].
    apply check_length_exact.
    apply (fold_left_invariant severities_exact);
      [constructor|intros; by apply check_dangerous_exact].
  - destruct strict; [|apply orb_true_r]. apply orb_false_r.
Qed.

(** C3: the URL [https://evil.example/github.com] has the host
    [evil.example], which is none of the allowed hosts, and
    [validate_repository_url] accepts it: the domain patterns are searched
    for anywhere in the URL, not compared with its host. *)
Theorem validate_repository_url_accepts_foreign_host :
  let url := "https://evil.example/github.com" in
  host_of url = "evil.example"
  /\ Text.mem (host_of url) allowed_hosts = false
  /\ validate_repository_url url = true.
Proof. vm_compute. repeat split. Qed.

End SecurityGate.

(** Any URL that holds the text of an allowed domain, wherever it stands,
    is accepted. *)
Section SearchAnywhere.
Import Re.

Lemma run_length_full (ic : bool) (a : atom) (n : nat) (s : string) :
  run_length ic a (Some n) n s = n.
Proof.
  destruct s; cbn [run_length under]; [reflexivity|].
  rewrite Nat.ltb_irrefl. reflexivity.
Qed.

Lemma match_here_lit (p s : string) :
  match_here true (lit p) (p +:+ s) = Some s.
Proof.
  induction p as [|c p IH]; [reflexivity|].
  change (String c p +:+ s) with (String c (p +:+ s)).
  cbn [lit match_here one it_atom it_min it_max run_length under
       atom_matches].
  rewrite Ascii.eqb_refl. cbn [Nat.ltb Nat.leb andb].
  rewrite run_length_full. cbn [backtrack Nat.ltb Nat.leb drop].
  rewrite IH. reflexivity.
Qed.

Lemma first_match_unfold (ic : bool) (r : regex) (s : string) :
  first_match ic r s
  = match match_here ic r s with
    | Some rest => Some (s, rest)
    | None =>
        match s with
        | EmptyString => None
        | String _ s' => first_match ic r s'
        end
    end.
Proof. destruct s; reflexivity. Qed.

Lemma search_suffix (r : regex) (before s : string) :
  is_Some (match_here true r s) -> search true r (before +:+ s) = true.
Proof.
  intros [rest Hrest]. unfold search.
  induction before as [|c before IH].
  - change ("" +:+ s) with s. rewrite first_match_unfold, Hrest. reflexivity.
  - change (String c before +:+ s) with (String c (before +:+ s)).
    rewrite first_match_unfold.
    destruct (match_here true r (String c (before +:+ s))); [reflexivity|].
    exact IH.
Qed.

Lemma validate_repository_url_anywhere (before after : string) :
  SecurityManager.validate_repository_url (before +:+ "github.com" +:+ after)
  = true.
Proof.
  unfold SecurityManager.validate_repository_url,
    SecurityManager.safe_domains.
  cbn [existsb]. rewrite search_suffix; [reflexivity|].
  rewrite match_here_lit. eauto.
Qed.

End SearchAnywhere.

(* ===================================================================== *)
(** * The sandbox manager                                                 *)
(* ===================================================================== *)

Ltac unfold_monad :=
  unfold bind, try_except, noting, gets, modify, ask, call, ret, raise in *.

(** Case analysis on every scrutinee of the goal, innermost first. *)
Ltac split_run :=
  repeat match goal with
  | |- context [match ?x with _ => _ end] =>
      lazymatch x with
      | context [match _ with _ => _ end] => fail
      | _ => destruct x eqn:?
      end
  end.

Lemma bind_run {S A B} (m : M S A) (k : A -> M S B) (s s' : S) (a : A) :
  m s = (Ret a, s') -> bind m k s = k a s'.
Proof. intros H. unfold bind. rewrite H. reflexivity. Qed.

Lemma on_fst_run {S L A} (m : M S A) (s s' : S) (l : L) (r : res A) :
  m s = (r, s') -> on_fst m (s, l) = (r, (s', l)).
Proof. intros H. unfold on_fst. cbn [fst snd]. rewrite H. reflexivity. Qed.

(** Run the first computation of a sequence, given what it returns. *)
Tactic Notation "step" open_constr(H) :=
  erewrite (bind_run _ _ _ _ _ H); cbn beta.

Section Manager.
Context {W : Type} {E : Env W}.
Import SandboxManager Observed.

(** One call into the environment, seen from the world. *)
Inductive env_step (w : W) : W -> Prop :=
| step_uuid4 : env_step w (snd (uuid4 w))
| step_time_time : env_step w (snd (time_time w))
| step_datetime_now : env_step w (snd (datetime_now w))
| step_from_env : env_step w (snd (docker_from_env w))
| step_images_get image : env_step w (snd (images_get image w))
| step_images_pull image : env_step w (snd (images_pull image w))
| step_containers_create args : env_step w (snd (containers_create args w))
| step_container_start c : env_step w (snd (container_start c w))
| step_exec_run c cmd workdir :
    env_step w (snd (container_exec_run c cmd workdir w))
| step_put_archive c path tar :
    env_step w (snd (container_put_archive c path tar w))
| step_stats c : env_step w (snd (container_stats c w))
| step_stop c t : env_step w (snd (container_stop c t w))
| step_remove c : env_step w (snd (container_remove c w)).

(** The world changes only through calls into the environment. *)
Definition evolves : W -> W -> Prop := rtc env_step.

Lemma env_step_to (w w' w'' : W) :
  env_step w w'' -> w'' = w' -> env_step w w'.
Proof. by intros H <-. Qed.

(** What every method leaves alone: the module-level flags and the two
    fields [__init__] sets. *)
Definition moves_on (s s' : State W) : Prop :=
  evolves (world s) (world s')
  /\ docker_client s' = docker_client s
  /\ docker_available s' = docker_available s
  /\ RUNANYWHERE_AVAILABLE s' = RUNANYWHERE_AVAILABLE s.

(** What a method of the manager leaves alone: the history as well. *)
Definition keeps_books (s s' : State W) : Prop :=
  execution_history s' = execution_history s /\ moves_on s s'.

Lemma moves_on_refl (s : State W) : moves_on s s.
Proof. repeat split. apply rtc_refl. Qed.

Lemma moves_on_trans (s1 s2 s3 : State W) :
  moves_on s1 s2 -> moves_on s2 s3 -> moves_on s1 s3.
Proof.
  intros (? & ? & ? & ?) (? & ? & ? & ?).
  split; [by eapply rtc_trans|]. repeat split; congruence.
Qed.

Lemma moves_on_set_world (w : W) (s : State W) :
  env_step (world s) w -> moves_on s (set_world w s).
Proof. intros H. repeat split. by apply rtc_once. Qed.

Lemma keeps_books_refl (s : State W) : keeps_books s s.
Proof. split; [reflexivity|apply moves_on_refl]. Qed.

Lemma keeps_books_trans (s1 s2 s3 : State W) :
  keeps_books s1 s2 -> keeps_books s2 s3 -> keeps_books s1 s3.
Proof.
  intros [? ?] [? ?]. split; [congruence|by eapply moves_on_trans].
Qed.

Lemma keeps_books_set_world (w : W) (s : State W) :
  env_step (world s) w -> keeps_books s (set_world w s).
Proof. intros H. split; [reflexivity|by apply moves_on_set_world]. Qed.

Lemma after_datetime_now (w w' : W) (t : Datetime.t) :
  datetime_now w = (t, w') -> env_step w w'.
Proof.
  intros H. eapply env_step_to; [apply step_datetime_now|]. by rewrite H.
Qed.

Lemma after_uuid4 (w w' : W) (x : string) :
  uuid4 w = (x, w') -> env_step w w'.
Proof. intros H. eapply env_step_to; [apply step_uuid4|]. by rewrite H. Qed.

(** Follow the calls recorded in the context from one world to the
    next. *)
Ltac one_step :=
  eapply env_step_to; [econstructor|];
  match goal with
  | H : _ = (_, _) |- snd _ = _ => rewrite H; cbn [snd]; reflexivity
  end.

Ltac evolve :=
  cbn [world set_world record_call record_created set_docker
       set_active_sandboxes set_execution_history
       register unregister] in *;
  repeat first [ apply rtc_refl | eapply rtc_l; [solve [one_step]|] ].

(** Close the goal of a method that returns: name the value and the
    state, then settle each book. *)
Ltac settle :=
  simplify_eq; eexists _, _; split; [reflexivity|];
  unfold keeps_books, moves_on;
  cbn [calls created execution_history docker_client docker_available
       RUNANYWHERE_AVAILABLE set_world record_call record_created
       set_active_sandboxes register unregister];
  repeat match goal with
         | |- _ /\ _ => split
         | |- _ = _ => reflexivity
         | |- evolves _ _ => solve [evolve]
         | |- _ \/ _ => first [left; reflexivity | right; eexists; reflexivity]
         end.

Lemma create_sandbox_returns language memory_limit cpu_limit timeout
    network_enabled (s : State W) :
  exists returned s',
    create_sandbox language memory_limit cpu_limit timeout network_enabled s
    = (Ret returned, s')
    /\ calls s' = calls s ++ [Call.create_sandbox language memory_limit
                                cpu_limit timeout network_enabled returned]
    /\ (created s' = created s
        \/ exists sandbox_id,
             created s' = created s ++
               [container_config sandbox_id language (image_for language)
                  memory_limit cpu_limit network_enabled])
    /\ keeps_books s s'.
Proof.
  unfold create_sandbox. unfold_monad.
  split_run; settle.
Qed.



Lemma execute_in_sandbox_returns sandbox_id command working_dir timeout
    (s : State W) :
  exists r s',
    execute_in_sandbox sandbox_id command working_dir timeout s = (Ret r, s')
    /\ calls s' = calls s ++ [Call.execute_in_sandbox sandbox_id command
                                working_dir timeout r]
    /\ created s' = created s
    /\ active_sandboxes s' = active_sandboxes s
    /\ keeps_books s s'.
Proof.
  unfold execute_in_sandbox, decode_or_empty. unfold_monad.
  split_run; settle.
Qed.

Lemma upload_file_to_sandbox_returns sandbox_id file_content destination_path
    (s : State W) :
  exists r s',
    upload_file_to_sandbox sandbox_id file_content destination_path s
    = (Ret r, s')
    /\ calls s' = calls s ++ [Call.upload_file_to_sandbox sandbox_id
                                file_content destination_path r]
    /\ created s' = created s
    /\ keeps_books s s'.
Proof.
  unfold upload_file_to_sandbox. unfold_monad.
  split_run; settle.
Qed.

Lemma get_sandbox_stats_returns sandbox_id (s : State W) :
  exists r s',
    get_sandbox_stats sandbox_id s = (Ret r, s')
    /\ calls s' = calls s ++ [Call.get_sandbox_stats sandbox_id r]
    /\ created s' = created s
    /\ keeps_books s s'.
Proof.
  unfold get_sandbox_stats. unfold_monad.
  split_run; settle.
Qed.

Lemma stop_sandbox_returns sandbox_id (s : State W) :
  exists r s',
    stop_sandbox sandbox_id s = (Ret r, s')
    /\ calls s' = calls s ++ [Call.stop_sandbox sandbox_id r]
    /\ created s' = created s
    /\ keeps_books s s'.
Proof.
  unfold stop_sandbox. unfold_monad.
  split_run; settle.
Qed.

(** C7: when the sandbox exists, the command runs to its end and the two
    clock readings around it are more than [timeout] apart, the result of
    [execute_in_sandbox] is the timeout result: [success] is false, the
    [error] field says [Execution timeout] (it is [None] in the result of
    a command that ended in time, whatever its exit code), and the exit
    code of the command is not reported. *)
Theorem execute_in_sandbox_timeout (s : State W)
    (sandbox_id command working_dir : string) (timeout : Z)
    (sandbox : Sandbox.t) (start_time finished : Q) (w1 w2 w3 : W)
    (exec_result : Docker.exec_result) :
  active_sandboxes s !! sandbox_id = Some sandbox ->
  time_time (world s) = (start_time, w1) ->
  container_exec_run (Sandbox.container sandbox)
    ("sh -c 'cd " +:+ working_dir +:+ " && " +:+ command +:+ "'")
    working_dir w1 = (Ret exec_result, w2) ->
  time_time w2 = (finished, w3) ->
  (inject_Z timeout < finished - start_time)%Q ->
  exists r,
    fst (execute_in_sandbox sandbox_id command working_dir timeout s) = Ret r
    /\ r = timeout_result timeout (finished - start_time)
    /\ CommandResult.success r = false
    /\ CommandResult.error r = Some "Execution timeout"
    /\ CommandResult.stderr r
       = "Command exceeded " +:+ pretty timeout +:+ "s timeout"
    /\ CommandResult.exit_code r = (-1)%Z.
Proof.
  intros Hsb Ht0 Hexec Ht1 Hlate.
  exists (timeout_result timeout (finished - start_time)).
  split; [|repeat split].
  unfold execute_in_sandbox. unfold_monad.
  rewrite Hsb, Ht0. cbn. rewrite Hexec. cbn. rewrite Ht1. cbn.
  unfold exceeds.
  destruct (Qle_bool (finished - start_time) (inject_Z timeout)) eqn:Hle;
    [|reflexivity].
  apply Qle_bool_iff in Hle. exfalso. exact (Qlt_not_le _ _ Hlate Hle).
Qed.

(** A command that ends in time is reported with the [error] field
    [None] and with its own exit code. *)
Lemma execute_in_sandbox_in_time (s : State W)
    (sandbox_id command working_dir : string) (timeout : Z) :
  forall r s',
    execute_in_sandbox sandbox_id command working_dir timeout s = (Ret r, s') ->
    CommandResult.error r = None ->
    CommandResult.success r = (CommandResult.exit_code r =? 0)%Z.
Proof.
  intros r s'. unfold execute_in_sandbox, decode_or_empty. unfold_monad.
  split_run; intros; simplify_eq; cbn in *; congruence.
Qed.

End Manager.

(* ===================================================================== *)
(** * The steps of a repository pipeline                                  *)
(* ===================================================================== *)

Section Pipeline.
Context {W : Type} {E : Env W}.
Import ExecutionController Observed.

#[local] Arguments SandboxManager.execute_in_sandbox : simpl never.
#[local] Arguments SandboxManager.stop_sandbox : simpl never.
#[local] Arguments SandboxManager.get_sandbox_stats : simpl never.
#[local] Arguments SandboxManager.create_sandbox : simpl never.
#[local] Arguments SandboxManager.upload_file_to_sandbox : simpl never.

Lemma calls_of_app sandbox_id ps qs rs rs' :
  length rs = length ps ->
  calls_of sandbox_id (ps ++ qs) (rs ++ rs')
  = calls_of sandbox_id ps rs ++ calls_of sandbox_id qs rs'.
Proof.
  revert rs. induction ps as [|p ps IH]; intros [|r rs] Hlen;
    cbn in *; try discriminate; [reflexivity|].
  f_equal. apply IH. lia.
Qed.

Lemma log_of_app ps qs rs rs' :
  length rs = length ps ->
  log_of (ps ++ qs) (rs ++ rs') = log_of ps rs ++ log_of qs rs'.
Proof.
  revert rs. induction ps as [|p ps IH]; intros [|r rs] Hlen;
    cbn in *; try discriminate; [reflexivity|].
  do 2 f_equal. apply IH. lia.
Qed.

Lemma calls_of_length sandbox_id ps rs :
  length rs = length ps -> length (calls_of sandbox_id ps rs) = length ps.
Proof.
  revert rs. induction ps as [|p ps IH]; intros [|r rs] Hlen;
    cbn in *; try discriminate; [reflexivity|].
  f_equal. apply IH. lia.
Qed.

(** A computation of the pipeline that runs the planned steps [ps], one
    command each, and logs two entries a step: it returns, whatever the
    commands do. *)
Definition runs_plan (sandbox_id : string) (m : M (Frame W) unit)
    (ps : list planned) : Prop :=
  forall (s : State W) (log : list LogEntry.t),
  exists rs s' entries,
    m (s, log) = (Ret tt, (s', log ++ entries))
    /\ length rs = length ps
    /\ calls s' = calls s ++ calls_of sandbox_id ps rs
    /\ map view entries = log_of ps rs
    /\ created s' = created s
    /\ keeps_books s s'.

Lemma runs_plan_nil sandbox_id : runs_plan sandbox_id (ret tt) [].
Proof.
  intros s log. exists [], s, []. rewrite !app_nil_r.
  repeat split; reflexivity.
Qed.

Lemma runs_plan_bind sandbox_id m k ps qs :
  runs_plan sandbox_id m ps -> runs_plan sandbox_id k qs ->
  runs_plan sandbox_id (let* _ := m in k) (ps ++ qs).
Proof.
  intros Hm Hk s log.
  destruct (Hm s log) as (rs & s1 & e1 & Hrun1 & Hlen1 & Hc1 & Hv1 & Hcr1 & Hb1).
  destruct (Hk s1 (log ++ e1))
    as (rs' & s2 & e2 & Hrun2 & Hlen2 & Hc2 & Hv2 & Hcr2 & Hb2).
  exists (rs ++ rs'), s2, (e1 ++ e2).
  unfold bind. rewrite Hrun1, Hrun2, app_assoc.
  split; [reflexivity|]. split; [rewrite !length_app; lia|].
  split; [rewrite Hc2, Hc1, calls_of_app, app_assoc by exact Hlen1; reflexivity|].
  split; [rewrite map_app, Hv1, Hv2, log_of_app by exact Hlen1; reflexivity|].
  split; [congruence|]. eapply keeps_books_trans; eassumption.
Qed.

Lemma run_step_runs sandbox_id step command on_failure timeout :
  runs_plan sandbox_id (run_step sandbox_id step command on_failure timeout)
    [Planned step command timeout on_failure].
Proof.
  intros s log. unfold run_step, now_iso, append, on_fst.
  unfold_monad. cbn [fst snd].
  destruct (datetime_now (world s)) as [t1 w1] eqn:Hnow1.
  cbn [fst snd].
  destruct (execute_in_sandbox_returns sandbox_id command "/tmp/repo" timeout
              (set_world w1 s)) as (r & s1 & Hrun & Hc & Hcr & _ & Hb).
  rewrite Hrun. cbn [fst snd].
  destruct (datetime_now (world s1)) as [t2 w2] eqn:Hnow2.
  cbn [fst snd].
  exists [r], (set_world w2 s1),
    [running_entry step (Some command) (Datetime.isoformat t1);
     finished_entry step command on_failure r (Datetime.isoformat t2)].
  rewrite <- app_assoc.
  split; [reflexivity|]. split; [reflexivity|]. split; [exact Hc|].
  split; [reflexivity|]. split; [exact Hcr|].
  eapply keeps_books_trans;
    [apply keeps_books_set_world, (after_datetime_now _ _ _ Hnow1)|].
  eapply keeps_books_trans; [exact Hb|].
  apply keeps_books_set_world, (after_datetime_now _ _ _ Hnow2).
Qed.

Lemma setup_loop_runs sandbox_id cmds :
  forall i, runs_plan sandbox_id (setup_loop sandbox_id i cmds)
              (setup_plan i cmds).
Proof.
  induction cmds as [|cmd rest IH]; intros i; cbn [setup_loop setup_plan].
  - apply runs_plan_nil.
  - apply (runs_plan_bind sandbox_id _ _ [_]); [apply run_step_runs|apply IH].
Qed.

Lemma optional_step_runs sandbox_id step command timeout :
  runs_plan sandbox_id (optional_step sandbox_id step command timeout)
    (optional_plan step command timeout).
Proof.
  unfold optional_step, optional_plan.
  destruct command as [cmd|]; [|apply runs_plan_nil].
  destruct (Text.truthy cmd); [apply run_step_runs|apply runs_plan_nil].
Qed.

(** The three blocks after the clone run the whole plan. *)
Lemma after_clone_runs sandbox_id (analysis : Analysis.t) :
  runs_plan sandbox_id
    (let* _ := setup_loop sandbox_id 0 (Analysis.setup_commands analysis) in
     let* _ := optional_step sandbox_id "test"
                 (Analysis.test_command analysis) 120 in
     optional_step sandbox_id "build" (Analysis.build_command analysis) 240)
    (plan analysis).
Proof.
  unfold plan.
  apply runs_plan_bind; [apply setup_loop_runs|].
  apply runs_plan_bind; apply optional_step_runs.
Qed.

(** The status test of the source, on the view of an entry. *)
Definition critical_view (v : string * string) : bool :=
  String.eqb (snd v) "failed" && Text.mem (fst v) ["clone"; "build"].

Lemma is_critical_failure_view (log : list LogEntry.t) :
  existsb is_critical_failure log = existsb critical_view (map view log).
Proof. induction log as [|e log IH]; cbn; [reflexivity|]. by rewrite IH. Qed.

(** A planned step is either the build, logged [failed] when its command
    fails, or a step that is neither the clone nor the build. *)
Definition well_planned (p : planned) : Prop :=
  (p_step p = "build" /\ p_on_failure p = "failed")
  \/ (String.eqb (p_step p) "build" = false
      /\ Text.mem (p_step p) ["clone"; "build"] = false).

Lemma setup_plan_well_planned cmds :
  forall i, Forall well_planned (setup_plan i cmds).
Proof.
  induction cmds as [|cmd rest IH]; intros i; cbn [setup_plan];
    constructor; [|apply IH].
  right. split; reflexivity.
Qed.

Lemma plan_well_planned (analysis : Analysis.t) :
  Forall well_planned (plan analysis).
Proof.
  unfold plan, optional_plan. rewrite !Forall_app. repeat split.
  - apply setup_plan_well_planned.
  - destruct (Analysis.test_command analysis) as [cmd|]; [|constructor].
    destruct (Text.truthy cmd); constructor; [|constructor].
    right. split; reflexivity.
  - destruct (Analysis.build_command analysis) as [cmd|]; [|constructor].
    destruct (Text.truthy cmd); constructor; [|constructor].
    left. split; reflexivity.
Qed.

Lemma critical_views_are_failed_builds ps :
  Forall well_planned ps ->
  forall rs, existsb critical_view (log_of ps rs) = any_build_failed ps rs.
Proof.
  induction 1 as [|p ps Hp _ IH]; intros [|r rs];
    cbn [log_of any_build_failed]; try reflexivity.
  rewrite existsb_app, IH. f_equal.
  unfold views_of, build_failed, critical_view. cbn [existsb fst snd].
  destruct Hp as [[Hstep Hfail]|[Hnot Hmem]].
  - rewrite Hstep, Hfail. destruct (CommandResult.success r); reflexivity.
  - rewrite Hnot, Hmem, !andb_false_r. reflexivity.
Qed.

End Pipeline.

(* ===================================================================== *)
(** * [execute_repository], path by path                                  *)
(* ===================================================================== *)

Section Repository.
Context {W : Type} {E : Env W}.
Import ExecutionController Observed.

#[local] Arguments SandboxManager.execute_in_sandbox : simpl never.
#[local] Arguments SandboxManager.stop_sandbox : simpl never.
#[local] Arguments SandboxManager.get_sandbox_stats : simpl never.
#[local] Arguments SandboxManager.create_sandbox : simpl never.

Lemma now_iso_run (s : State W) (log : list LogEntry.t) :
  now_iso (s, log)
  = (Ret (Datetime.isoformat (fst (datetime_now (world s)))),
     (set_world (snd (datetime_now (world s))) s, log)).
Proof.
  unfold now_iso, on_fst, ask. unfold_monad. cbn [fst snd].
  destruct (datetime_now (world s)); reflexivity.
Qed.

Lemma append_run (entry : LogEntry.t) (s : State W) (log : list LogEntry.t) :
  append entry (s, log) = (Ret tt, (s, log ++ [entry])).
Proof. reflexivity. Qed.

Lemma set_world_calls (w : W) (s : State W) : calls (set_world w s) = calls s.
Proof. reflexivity. Qed.

(** The state after one reading of [datetime.now()]. *)
Definition tick (s : State W) : State W :=
  set_world (snd (datetime_now (world s))) s.

Lemma moves_on_store (execution_id : string) (result : RepoResult.t)
    (s : State W) :
  moves_on s (store execution_id result s).
Proof. repeat split. apply rtc_refl. Qed.

Lemma moves_on_tick (s : State W) : moves_on s (tick s).
Proof. apply moves_on_set_world, step_datetime_now. Qed.

(** The clone command of a repository. *)
Definition clone_call (sandbox_id repo_url : string) (r : CommandResult.t)
    : Call.t :=
  Call.execute_in_sandbox sandbox_id
    ("git clone " +:+ repo_url +:+ " /tmp/repo") "/tmp" 120 r.

(** The two ways the body of the [try] ends; it never raises. *)
Inductive steps_end (execution_id sandbox_id repo_url : string)
    (analysis : Analysis.t) (history history' : PyDict.t RepoResult.t)
    (clone : res CommandResult.t) (result : RepoResult.t)
    : list Call.t -> Prop :=
| clone_failed (r0 : CommandResult.t) (stopped : bool) :
    CommandResult.success r0 = false ->
    RepoResult.status result = "failed" ->
    RepoResult.error result = Some "Failed to clone repository" ->
    map view (RepoResult.logs result)
    = [("clone", "running"); ("clone", "failed")] ->
    history' = history ->
    clone = Ret r0 ->
    steps_end execution_id sandbox_id repo_url analysis history history'
      clone result
      [clone_call sandbox_id repo_url r0;
       Call.stop_sandbox sandbox_id stopped]
| completed (r0 : CommandResult.t) (rs : list CommandResult.t)
    (stats : option SandboxStats.t) (stopped : bool) :
    CommandResult.success r0 = true ->
    length rs = length (plan analysis) ->
    RepoResult.status result
    = (if any_build_failed (plan analysis) rs then "failed" else "success") ->
    RepoResult.error result = None ->
    map view (RepoResult.logs result)
    = [("clone", "running"); ("clone", "success")]
      ++ log_of (plan analysis) rs ->
    history' = PyDict.set execution_id result history ->
    clone = Ret r0 ->
    steps_end execution_id sandbox_id repo_url analysis history history'
      clone result
      (clone_call sandbox_id repo_url r0
       :: calls_of sandbox_id (plan analysis) rs
       ++ [Call.get_sandbox_stats sandbox_id stats;
           Call.stop_sandbox sandbox_id stopped]).

Lemma regroup_steps {B} (a b c : M (Frame W) unit) (rest : M (Frame W) B)
    (f : Frame W) :
  (let* _ := a in let* _ := b in let* _ := c in rest) f
  = (let* _ := (let* _ := a in let* _ := b in c) in rest) f.
Proof.
  unfold bind. destruct (a f) as [[[]|e] f1]; [|reflexivity].
  destruct (b f1) as [[[]|e] f2]; reflexivity.
Qed.

Lemma repository_steps_returns execution_id sandbox_id repo_url analysis
    start_time (s : State W) :
  exists result s' log new,
    repository_steps execution_id sandbox_id repo_url analysis start_time
      (s, []) = (Ret result, (s', log))
    /\ calls s' = calls s ++ new
    /\ created s' = created s
    /\ moves_on s s'
    /\ RepoResult.execution_id result = execution_id
    /\ RepoResult.sandbox_id result = Some sandbox_id
    /\ RepoResult.analysis result = analysis
    /\ steps_end execution_id sandbox_id repo_url analysis
         (execution_history s) (execution_history s')
         (fst (SandboxManager.execute_in_sandbox sandbox_id
                 ("git clone " +:+ repo_url +:+ " /tmp/repo") "/tmp" 120
                 (tick s)))
         result new.
Proof.
  unfold repository_steps.
  step (now_iso_run s []). step (append_run (running_entry "clone" None
    (Datetime.isoformat (fst (datetime_now (world s)))))
    (set_world (snd (datetime_now (world s))) s) []).
  fold (tick s). set (s0 := tick s).
  assert (Hm : moves_on s s0) by apply moves_on_tick.
  destruct (execute_in_sandbox_returns sandbox_id
              ("git clone " +:+ repo_url +:+ " /tmp/repo") "/tmp" 120 s0)
    as (r0 & s1 & Hrun0 & Hc0 & Hcr0 & _ & Hh0 & Hm0).
  step (on_fst_run _ _ _ ([] ++ [running_entry "clone" None
          (Datetime.isoformat (fst (datetime_now (world s))))]) _ Hrun0).
  cbn [app].
  destruct (CommandResult.success r0) eqn:Hok; cbn [negb].
  - (* the clone succeeded *)
    step (now_iso_run s1 [running_entry "clone" None
            (Datetime.isoformat (fst (datetime_now (world s))))]).
    fold (tick s1). set (s2 := tick s1).
    assert (Hm2 : moves_on s1 s2) by apply moves_on_tick.
    match goal with
    | |- context [append ?e] => step (append_run e s2 [running_entry "clone" None
            (Datetime.isoformat (fst (datetime_now (world s))))])
    end.
    cbn [app]. rewrite regroup_steps.
    match goal with
    | |- context [bind _ _ (s2, ?l)] =>
        destruct (after_clone_runs sandbox_id analysis s2 l)
          as (rs & s3 & entries & Hplan & Hlen & Hc3 & Hv3 & Hcr3 & Hh3 & Hm3)
    end.
    step Hplan.
    destruct (get_sandbox_stats_returns sandbox_id s3)
      as (stats & s4 & Hrun4 & Hc4 & Hcr4 & Hh4 & Hm4).
    step (on_fst_run _ _ _ _ _ Hrun4) .
    destruct (stop_sandbox_returns sandbox_id s4)
      as (stopped & s5 & Hrun5 & Hc5 & Hcr5 & Hh5 & Hm5).
    step (on_fst_run _ _ _ _ _ Hrun5).
    unfold on_fst at 1, ask, gets. unfold_monad. cbn [fst snd].
    destruct (datetime_now (world s5)) as [finished w6] eqn:Hnow.
    cbn [fst snd].
    eexists _, _, _, _. split; [reflexivity|].
    cbn [fst snd calls created RUNANYWHERE_AVAILABLE store
         set_execution_history set_world execution_history
         RepoResult.execution_id RepoResult.sandbox_id RepoResult.analysis].
    split.
    { rewrite Hc5, Hc4, Hc3. subst s2. unfold tick at 1.
      rewrite set_world_calls, Hc0.
      subst s0. unfold tick at 1. rewrite set_world_calls.
      rewrite <- !app_assoc. cbn [app]. reflexivity. }
    split; [subst s2 s0; unfold tick in *; cbn in *; congruence|].
    split.
    { do 6 (eapply moves_on_trans; [eassumption|]).
      eapply moves_on_trans; [|apply moves_on_store].
      apply moves_on_set_world, (after_datetime_now _ _ _ Hnow). }
    do 3 (split; [reflexivity|]).
    apply completed; cbn [RepoResult.status RepoResult.error RepoResult.logs];
      try assumption; try reflexivity.
    + rewrite is_critical_failure_view, map_app, Hv3.
      cbn [map app existsb view LogEntry.step LogEntry.status].
      change (critical_view ("clone", "running")) with false.
      change (critical_view ("clone", "success")) with false.
      cbn [orb].
      rewrite critical_views_are_failed_builds by apply plan_well_planned.
      reflexivity.
    + rewrite map_app, Hv3. reflexivity.
    + subst s2 s0. unfold tick in *.
      cbn [fst snd store set_execution_history set_world execution_history]
        in *.
      f_equal. congruence.
    + by rewrite Hrun0.
  - (* the clone failed *)
    step (now_iso_run s1 [running_entry "clone" None
            (Datetime.isoformat (fst (datetime_now (world s))))]).
    fold (tick s1). set (s2 := tick s1).
    assert (Hm2 : moves_on s1 s2) by apply moves_on_tick.
    match goal with
    | |- context [append ?e] => step (append_run e s2 [running_entry "clone" None
            (Datetime.isoformat (fst (datetime_now (world s))))])
    end.
    cbn [app].
    destruct (stop_sandbox_returns sandbox_id s2)
      as (stopped & s3 & Hrun3 & Hc3 & Hcr3 & Hh3 & Hm3).
    step (on_fst_run _ _ _ _ _ Hrun3).
    unfold gets. unfold_monad. cbn [fst snd].
    eexists _, _, _, _. split; [reflexivity|].
    split.
    { rewrite Hc3. subst s2. unfold tick at 1. rewrite set_world_calls, Hc0.
      subst s0. unfold tick at 1. rewrite set_world_calls.
      rewrite <- !app_assoc. cbn [app]. reflexivity. }
    split; [subst s2 s0; unfold tick in *; cbn in *; congruence|].
    split; [do 3 (eapply moves_on_trans; [eassumption|]); exact Hm3|].
    do 3 (split; [reflexivity|]).
    apply clone_failed; try assumption; try reflexivity.
    + subst s2 s0. unfold tick in *. cbn in *. congruence.
    + by rewrite Hrun0.
Qed.

Lemma create_sandbox_names language memory_limit cpu_limit timeout
    network_enabled (s s' : State W) (sandbox_id : string) :
  SandboxManager.create_sandbox language memory_limit cpu_limit timeout
    network_enabled s = (Ret (Some sandbox_id), s') ->
  Text.truthy sandbox_id = true.
Proof.
  unfold SandboxManager.create_sandbox. unfold_monad.
  pose proof (uuid4_nonempty (world s)) as Hne.
  split_run; intros; simplify_eq.
  all: cbn [fst] in Hne; destruct sandbox_id; [done|reflexivity].
Qed.

Lemma executable_has_runtime (repo_data : RepoData.t) :
  Analysis.is_executable (analyze_repository_executability repo_data) = true ->
  exists runtime,
    Analysis.detected_runtime (analyze_repository_executability repo_data)
    = Some runtime.
Proof.
  unfold analyze_repository_executability.
  cbn [Analysis.is_executable Analysis.detected_runtime].
  destruct (detect _ _) as [t|]; [eauto|].
  intros H. apply bool_decide_eq_true in H. destruct H as [? H]. discriminate.
Qed.

(** The state once the execution has drawn its identifier, the value
    [create_sandbox] then returns for a runtime, and the result of the
    clone command in the sandbox it handed out. *)
Definition after_id (s : State W) : State W :=
  set_world (snd (uuid4 (world s))) s.

Definition creation_of (timeout : Z) (s : State W) (runtime : string)
    : res (option string) * State W :=
  SandboxManager.create_sandbox runtime "1g" 2 timeout true (after_id s).

Definition clone_of (repo_url : string) (timeout : Z) (s : State W)
    (runtime sandbox_id : string) : res CommandResult.t :=
  fst (SandboxManager.execute_in_sandbox sandbox_id
         ("git clone " +:+ repo_url +:+ " /tmp/repo") "/tmp" 120
         (tick (tick (snd (creation_of timeout s runtime))))).

Lemma ask_run {A} (f : W -> A * W) (s : State W) :
  ask f s = (Ret (fst (f (world s))), set_world (snd (f (world s))) s).
Proof. unfold ask. destruct (f (world s)); reflexivity. Qed.

(** The ways [execute_repository] ends, with the calls it made: the
    repository is not executable; no sandbox could be created; a sandbox
    was created and the steps ran to one of their two ends. *)
Inductive repository_run (repo_url : string) (analysis : Analysis.t)
    (timeout : Z) (history history' : PyDict.t RepoResult.t)
    (creation : string -> res (option string))
    (clone : string -> string -> res CommandResult.t)
    (result : RepoResult.t) : list Call.t -> Prop :=
| not_executable :
    Analysis.is_executable analysis = false ->
    result = early_result (RepoResult.execution_id result)
               "Repository is not executable" analysis ->
    history' = history ->
    repository_run repo_url analysis timeout history history' creation clone
      result []
| engine_unavailable (runtime : string) :
    Analysis.is_executable analysis = true ->
    Analysis.detected_runtime analysis = Some runtime ->
    result = early_result (RepoResult.execution_id result)
               "Failed to create sandbox (Docker not available)" analysis ->
    history' = history ->
    creation runtime = Ret None ->
    repository_run repo_url analysis timeout history history' creation clone
      result [Call.create_sandbox runtime "1g" 2 timeout true None]
| provisioned_run (runtime sandbox_id : string) (rest : list Call.t) :
    Analysis.is_executable analysis = true ->
    Analysis.detected_runtime analysis = Some runtime ->
    RepoResult.sandbox_id result = Some sandbox_id ->
    steps_end (RepoResult.execution_id result) sandbox_id repo_url analysis
      history history' (clone runtime sandbox_id) result rest ->
    creation runtime = Ret (Some sandbox_id) ->
    repository_run repo_url analysis timeout history history' creation clone
      result
      (Call.create_sandbox runtime "1g" 2 timeout true (Some sandbox_id)
       :: rest).

(** [execute_repository] always returns, in one of those ways. *)
Lemma execute_repository_returns (repo_url : string) (repo_data : RepoData.t)
    (timeout : Z) (s : State W) :
  exists result s' new,
    execute_repository repo_url repo_data timeout s = (Ret result, s')
    /\ calls s' = calls s ++ new
    /\ RepoResult.execution_id result = fst (uuid4 (world s))
    /\ RepoResult.analysis result = analyze_repository_executability repo_data
    /\ repository_run repo_url (analyze_repository_executability repo_data)
         timeout (execution_history s) (execution_history s')
         (fun runtime => fst (creation_of timeout s runtime))
         (clone_of repo_url timeout s) result new
    /\ moves_on (after_id s) s'.
Proof.
  unfold execute_repository.
  set (analysis := analyze_repository_executability repo_data).
  pose proof (executable_has_runtime repo_data) as Hruntime.
  fold analysis in Hruntime.
  step (ask_run uuid4 s). fold (after_id s).
  destruct (Analysis.is_executable analysis) eqn:Hexec; cbn [negb].
  2:{ eexists _, _, []. split; [reflexivity|]. rewrite app_nil_r.
      do 3 (split; [reflexivity|]).
      split; [by apply not_executable|apply moves_on_refl]. }
  destruct Hruntime as [runtime Hrt]; [reflexivity|]. rewrite Hrt.
  destruct (create_sandbox_returns runtime "1g" 2 timeout true (after_id s))
    as (created & s1 & Hrun & Hc & _ & Hh & Hm).
  step Hrun.
  destruct created as [sandbox_id|].
  2:{ eexists _, _, [_]. split; [reflexivity|]. split; [exact Hc|].
      do 2 (split; [reflexivity|]). split; [|exact Hm].
      eapply engine_unavailable; try done.
      unfold creation_of. by rewrite Hrun. }
  rewrite (create_sandbox_names _ _ _ _ _ _ _ _ Hrun).
  unfold with_local.
  step (on_fst_run _ _ _ _ _ (ask_run datetime_now s1)).
  fold (tick s1). unfold try_except.
  destruct (repository_steps_returns (fst (uuid4 (world s))) sandbox_id
              repo_url analysis (fst (datetime_now (world s1))) (tick s1))
    as (result & s3 & log & new & Hsteps & Hc3 & _ & Hm3 & Hid & Hsid & Han
        & Hend).
  rewrite Hsteps.
  eexists result, s3, (_ :: new). split; [reflexivity|].
  split; [rewrite Hc3; unfold tick at 1; rewrite set_world_calls, Hc,
            <- app_assoc; reflexivity|].
  split; [exact Hid|]. split; [exact Han|].
  split.
  - eapply provisioned_run; try eassumption.
    + rewrite Hid. unfold clone_of, creation_of. rewrite Hrun. cbn [snd].
      change (execution_history (tick s1)) with (execution_history s1) in Hend.
      rewrite Hh in Hend. exact Hend.
    + unfold creation_of. by rewrite Hrun.
  - eapply moves_on_trans; [exact Hm|].
    eapply moves_on_trans; [apply moves_on_tick|exact Hm3].
Qed.

End Repository.

(* ===================================================================== *)
(** * [execute_code_snippet], path by path                                *)
(* ===================================================================== *)

Section Snippet.
Context {W : Type} {E : Env W}.
Import ExecutionController Observed.

#[local] Arguments SandboxManager.execute_in_sandbox : simpl never.
#[local] Arguments SandboxManager.stop_sandbox : simpl never.
#[local] Arguments SandboxManager.create_sandbox : simpl never.
#[local] Arguments SandboxManager.upload_file_to_sandbox : simpl never.

(** The calls of a snippet that got its sandbox: upload, run, stop. *)
Definition snippet_calls (execution_id sandbox_id code language : string)
    (timeout : Z) (uploaded : bool) (r : CommandResult.t) (stopped : bool)
    : list Call.t :=
  let filename :=
    "code_" +:+ execution_id +:+ "." +:+ _get_file_extension language in
  [ Call.upload_file_to_sandbox sandbox_id (Text.encode_utf8 code)
      ("/tmp/" +:+ filename) uploaded;
    Call.execute_in_sandbox sandbox_id (_get_run_command language filename)
      "/tmp" timeout r;
    Call.stop_sandbox sandbox_id stopped ].

(** The two ways [execute_code_snippet] ends, with the calls it made
    after the one that notes its own start. *)
Inductive snippet_run (code language : string) (timeout : Z)
    (result : SnippetResult.t) : list Call.t -> Prop :=
| snippet_without_sandbox (execution_id : string) :
    result = snippet_unavailable execution_id ->
    snippet_run code language timeout result
      [Call.create_sandbox language "256m" (1 # 2) timeout false None]
| snippet_with_sandbox (execution_id sandbox_id : string) (uploaded : bool)
    (r : CommandResult.t) (stopped : bool) :
    SnippetResult.sandbox_id result = Some sandbox_id ->
    SnippetResult.status result
    = (if CommandResult.success r then "success" else "failed") ->
    SnippetResult.exit_code result = Some (CommandResult.exit_code r) ->
    SnippetResult.stderr result = CommandResult.stderr r ->
    snippet_run code language timeout result
      (Call.create_sandbox language "256m" (1 # 2) timeout false
         (Some sandbox_id)
       :: snippet_calls execution_id sandbox_id code language timeout
            uploaded r stopped).

(** The configuration of the one container a snippet may create. *)
Definition snippet_config (sandbox_id language : string)
    : Docker.create_args :=
  SandboxManager.container_config sandbox_id language
    (SandboxManager.image_for language) "256m" (1 # 2) false.

Lemma execute_code_snippet_returns (code language : string) (timeout : Z)
    (s : State W) :
  exists result s' new,
    execute_code_snippet code language timeout s = (Ret result, s')
    /\ calls s' = calls s
                  ++ Call.execute_code_snippet code language timeout :: new
    /\ (created s' = created s
        \/ exists sandbox_id,
             created s' = created s ++ [snippet_config sandbox_id language])
    /\ execution_history s' = execution_history s
    /\ snippet_run code language timeout result new.
Proof.
  unfold execute_code_snippet.
  unfold bind at 1, modify. unfold bind at 1, ask. cbn [world record_call].
  destruct (uuid4 (world s)) as [execution_id w0].
  set (s0 := set_world w0 _).
  destruct (create_sandbox_returns language "256m" (1 # 2) timeout false s0)
    as (created & s1 & Hrun & Hc & Hcr & Hh & _).
  step Hrun.
  destruct created as [sandbox_id|].
  2:{ eexists _, _, [_]. split; [reflexivity|].
      split; [rewrite Hc; subst s0; cbn [calls set_world record_call];
              rewrite <- app_assoc; reflexivity|].
      split; [exact Hcr|]. split; [exact Hh|].
      by eapply snippet_without_sandbox. }
  rewrite (create_sandbox_names _ _ _ _ _ _ _ _ Hrun).
  unfold try_except, snippet_steps.
  match goal with
  | |- context [SandboxManager.upload_file_to_sandbox ?a ?b ?c] =>
      destruct (upload_file_to_sandbox_returns a b c s1)
        as (uploaded & s2 & Hrun2 & Hc2 & Hcr2 & Hh2 & _)
  end.
  step Hrun2.
  match goal with
  | |- context [SandboxManager.execute_in_sandbox ?a ?b ?c ?d] =>
      destruct (execute_in_sandbox_returns a b c d s2)
        as (r & s3 & Hrun3 & Hc3 & Hcr3 & _ & Hh3 & _)
  end.
  step Hrun3.
  destruct (stop_sandbox_returns sandbox_id s3)
    as (stopped & s4 & Hrun4 & Hc4 & Hcr4 & Hh4 & _).
  step Hrun4. unfold ret.
  eexists _, s4, (_ :: snippet_calls execution_id sandbox_id code language
                        timeout uploaded r stopped).
  split; [reflexivity|].
  split; [rewrite Hc4, Hc3, Hc2, Hc; subst s0;
          cbn [calls set_world record_call];
          rewrite <- !app_assoc; reflexivity|].
  split; [rewrite Hcr4, Hcr3, Hcr2; exact Hcr|].
  split; [subst s0; cbn in *; congruence|].
  by eapply snippet_with_sandbox.
Qed.

End Snippet.

(* ===================================================================== *)
(** * The narrower inputs                                                 *)
(* ===================================================================== *)

Section Narrowing.
Context {W : Type} {E : Env W}.
Import ExecutionController Observed.

Lemma lower_each_texts (tags : list string) :
  Wire.lower_each (map Json.text tags) = Ret (map Text.lower tags).
Proof.
  induction tags as [|tag tags IH]; cbn; [reflexivity|]. by rewrite IH.
Qed.

Lemma any_lowered_contains_texts (p : string) (tags : list string) :
  Wire.any_lowered_contains p (map Json.text tags)
  = Ret (existsb (Text.contains p) (map Text.lower tags)).
Proof.
  induction tags as [|tag tags IH]; cbn; [reflexivity|].
  destruct (Text.contains p (Text.lower tag)); [reflexivity|exact IH].
Qed.

Lemma detect_texts (language : string) (tags : list string) :
  Wire.detect language (Json.array (map Json.text tags))
  = Ret (detect language (map Text.lower tags)).
Proof.
  unfold Wire.detect, detect, Wire.lowered, Wire.or_else.
  cbn [Json.iterate and_then].
  rewrite lower_each_texts, any_lowered_contains_texts. cbn [and_then].
  set (tags' := map Text.lower tags).
  destruct (Text.contains "python" language),
    (existsb (Text.contains "python") tags'),
    (existsb (fun x => Text.contains x language)
       ["javascript"; "typescript"]),
    (any_in tags' ["node"; "react"; "vue"; "angular"; "nextjs"]),
    (Text.mem "flutter" tags'), (Text.contains "dart" language),
    (Text.contains "java" language),
    (any_in tags' ["spring"; "maven"; "gradle"]);
    cbn [and_then orb]; try reflexivity;
    destruct (Text.contains "go" language || Text.contains "golang" language);
    try reflexivity; destruct (Text.contains "rust" language); reflexivity.
Qed.

Lemma estimate_complexity_integers (stars open_issues : Z) :
  Wire.estimate_complexity (Json.integer stars) (Json.integer open_issues)
  = Ret (estimate_complexity stars open_issues).
Proof.
  unfold Wire.estimate_complexity, estimate_complexity, Wire.and_also.
  cbn [Json.less_than and_then].
  destruct (stars <? 100)%Z, (open_issues <? 10)%Z, (stars <? 1000)%Z,
    (open_issues <? 50)%Z; reflexivity.
Qed.

(** On well-typed metadata the analysis returns, and returns what
    [ExecutionController.analyze_repository_executability] computes. *)
Lemma analyze_well_typed (repo_data : RepoData.t) :
  Wire.analyze_repository_executability (Wire.well_typed repo_data)
  = Ret (analyze_repository_executability repo_data).
Proof.
  destruct repo_data as [language tech_stack stars open_issues].
  unfold Wire.analyze_repository_executability, Wire.well_typed.
  cbn [Wire.get PyDict.get String.eqb Ascii.eqb Bool.eqb from_option id
       Json.lower and_then RepoData.language RepoData.tech_stack
       RepoData.stars RepoData.open_issues_count].
  unfold Wire.lowered. cbn [Json.iterate and_then].
  rewrite lower_each_texts, detect_texts, estimate_complexity_integers.
  reflexivity.
Qed.

Lemma execute_repository_well_typed (repo_url : string)
    (repo_data : RepoData.t) (timeout : Z) (s : State W) :
  Wire.execute_repository repo_url (Wire.well_typed repo_data) timeout s
  = execute_repository repo_url repo_data timeout s.
Proof.
  unfold Wire.execute_repository, execute_repository.
  rewrite !(bind_run _ _ _ _ _ (ask_run uuid4 s)).
  unfold bind at 1, lift. rewrite analyze_well_typed. reflexivity.
Qed.

Lemma encode_point_latin1 (c : ascii) :
  Unicode.is_surrogate (Text.code c) = false
  /\ Unicode.encode_point (Text.code c) = Text.encode_char c.
Proof.
  assert (Hc : (Text.code c < 256)%N) by apply N_ascii_bounded.
  unfold Unicode.is_surrogate, Unicode.encode_point, Text.encode_char,
    Unicode.octet.
  split; [apply andb_false_iff; left; apply N.leb_gt; lia|].
  destruct (Text.code c <? 128)%N;
    [unfold Text.code; by rewrite ascii_N_embedding|].
  assert ((Text.code c <? 2048)%N = true) as -> by (apply N.ltb_lt; lia).
  reflexivity.
Qed.

Lemma encode_from_latin1 (code : string) :
  forall position,
    Unicode.encode_from position (Unicode.of_string code)
    = Ret (Text.encode_utf8 code).
Proof.
  induction code as [|c code IH]; intros position; [reflexivity|].
  cbn [Unicode.of_string list_ascii_of_string map Unicode.encode_from
       Text.encode_utf8].
  destruct (encode_point_latin1 c) as [-> ->].
  fold (Unicode.of_string code). rewrite IH. reflexivity.
Qed.

(** Code of code points below 256 is encoded without fault, to the bytes
    of [Text.encode_utf8]. *)
Lemma encode_utf8_latin1 (code : string) :
  Unicode.encode_utf8 (Unicode.of_string code) = Ret (Text.encode_utf8 code).
Proof. apply encode_from_latin1. Qed.

(** [ExecutionController.execute_code_snippet] is the method on such
    code, after the note of its own call. *)
Lemma execute_code_snippet_latin1 (code language : string) (timeout : Z)
    (s : State W) :
  Wire.execute_code_snippet (Unicode.of_string code) language timeout
    (record_call (Call.execute_code_snippet code language timeout) s)
  = execute_code_snippet code language timeout s.
Proof.
  unfold Wire.execute_code_snippet, execute_code_snippet.
  set (s0 := record_call _ s).
  rewrite (bind_run _ _ s s0 tt) by reflexivity.
  rewrite !(bind_run _ _ _ _ _ (ask_run uuid4 s0)).
  destruct (create_sandbox_returns language "256m" (1 # 2) timeout false
              (set_world (snd (uuid4 (world s0))) s0))
    as (returned & s1 & Hrun & _).
  rewrite !(bind_run _ _ _ _ _ Hrun).
  destruct returned as [sandbox_id|]; [|reflexivity].
  destruct (Text.truthy sandbox_id); [|reflexivity].
  unfold try_except, Wire.snippet_steps, snippet_steps.
  unfold bind at 1, lift. rewrite encode_utf8_latin1. reflexivity.
Qed.

End Narrowing.

(* ===================================================================== *)
(** * The two methods on the requests as they arrive                      *)
(* ===================================================================== *)

Section Received.
Context {W : Type} {E : Env W}.
Import ExecutionController Observed.

#[local] Arguments SandboxManager.execute_in_sandbox : simpl never.
#[local] Arguments SandboxManager.stop_sandbox : simpl never.
#[local] Arguments SandboxManager.get_sandbox_stats : simpl never.
#[local] Arguments SandboxManager.create_sandbox : simpl never.
#[local] Arguments SandboxManager.upload_file_to_sandbox : simpl never.

(** An analysis that says executable names its runtime. *)
Lemma analysed_has_runtime (repo_data : Wire.Metadata)
    (analysis : Analysis.t) :
  Wire.analyze_repository_executability repo_data = Ret analysis ->
  Analysis.is_executable analysis = true ->
  exists runtime, Analysis.detected_runtime analysis = Some runtime.
Proof.
  unfold Wire.analyze_repository_executability, and_then.
  destruct (Json.lower _) as [language|]; [|discriminate].
  destruct (Wire.detect _ _) as [detected|]; [|discriminate].
  repeat match goal with
         | |- context [match ?x with Ret _ => _ | Raise _ => _ end] =>
             destruct x; [|discriminate]
         end.
  intros [= <-]. cbn [Analysis.is_executable Analysis.detected_runtime].
  destruct detected as [t|]; [eauto|].
  intros H. apply bool_decide_eq_true in H. destruct H as [? H]. discriminate.
Qed.

(** [execute_repository] raises what its analysis raises, and nothing
    else; when the analysis returns, it returns in one of the ways of
    [repository_run]. *)
Lemma execute_repository_ends (repo_url : string)
    (repo_data : Wire.Metadata) (timeout : Z) (s : State W) :
  match Wire.analyze_repository_executability repo_data with
  | Raise e =>
      Wire.execute_repository repo_url repo_data timeout s
      = (Raise e, after_id s)
  | Ret analysis =>
      exists result s' new,
        Wire.execute_repository repo_url repo_data timeout s
        = (Ret result, s')
        /\ calls s' = calls s ++ new
        /\ RepoResult.execution_id result = fst (uuid4 (world s))
        /\ RepoResult.analysis result = analysis
        /\ repository_run repo_url analysis timeout
             (execution_history s) (execution_history s')
             (fun runtime => fst (creation_of timeout s runtime))
             (clone_of repo_url timeout s) result new
        /\ moves_on (after_id s) s'
  end.
Proof.
  pose proof (analysed_has_runtime repo_data) as Hruntime.
  unfold Wire.execute_repository.
  step (ask_run uuid4 s). fold (after_id s).
  unfold bind at 1, lift.
  destruct (Wire.analyze_repository_executability repo_data)
    as [analysis|e]; [|reflexivity].
  specialize (Hruntime analysis eq_refl).
  destruct (Analysis.is_executable analysis) eqn:Hexec; cbn [negb].
  2:{ eexists _, _, []. split; [reflexivity|]. rewrite app_nil_r.
      do 3 (split; [reflexivity|]).
      split; [by apply not_executable|apply moves_on_refl]. }
  destruct Hruntime as [runtime Hrt]; [reflexivity|]. rewrite Hrt.
  destruct (create_sandbox_returns runtime "1g" 2 timeout true (after_id s))
    as (created & s1 & Hrun & Hc & _ & Hh & Hm).
  step Hrun.
  destruct created as [sandbox_id|].
  2:{ eexists _, _, [_]. split; [reflexivity|]. split; [exact Hc|].
      do 2 (split; [reflexivity|]). split; [|exact Hm].
      eapply engine_unavailable; try done.
      unfold creation_of. by rewrite Hrun. }
  rewrite (create_sandbox_names _ _ _ _ _ _ _ _ Hrun).
  unfold with_local.
  step (on_fst_run _ _ _ _ _ (ask_run datetime_now s1)).
  fold (tick s1). unfold try_except.
  destruct (repository_steps_returns (fst (uuid4 (world s))) sandbox_id
              repo_url analysis (fst (datetime_now (world s1))) (tick s1))
    as (result & s3 & log & new & Hsteps & Hc3 & _ & Hm3 & Hid & Hsid & Han
        & Hend).
  rewrite Hsteps.
  eexists result, s3, (_ :: new). split; [reflexivity|].
  split; [rewrite Hc3; unfold tick at 1; rewrite set_world_calls, Hc,
            <- app_assoc; reflexivity|].
  split; [exact Hid|]. split; [exact Han|].
  split.
  - eapply provisioned_run; try eassumption.
    + rewrite Hid. unfold clone_of, creation_of. rewrite Hrun. cbn [snd].
      change (execution_history (tick s1)) with (execution_history s1) in Hend.
      rewrite Hh in Hend. exact Hend.
    + unfold creation_of. by rewrite Hrun.
  - eapply moves_on_trans; [exact Hm|].
    eapply moves_on_trans; [apply moves_on_tick|exact Hm3].
Qed.



End Received.

(* ===================================================================== *)
(** * Teardown                                                            *)
(* ===================================================================== *)

Section Teardown.
Context {W : Type} {E : Env W}.
Import ExecutionController Observed.










End Teardown.

(* ===================================================================== *)
(** * Failing steps                                                       *)
(* ===================================================================== *)

Section FailingSteps.
Context {W : Type} {E : Env W}.
Import ExecutionController Observed.

(** The clone as a planned step. *)
Definition clone_step (repo_url : string) : planned :=
  Planned "clone" ("git clone " +:+ repo_url +:+ " /tmp/repo") 120 "failed".

(** How each step after the clone is logged when its command fails: a
    setup step as [warning], the test and the build as [failed]. *)
Definition failure_policy (p : planned) : Prop :=
  (Text.startswith "setup_" (p_step p) = true /\ p_on_failure p = "warning")
  \/ (p_step p = "test" /\ p_on_failure p = "failed")
  \/ (p_step p = "build" /\ p_on_failure p = "failed").

Lemma setup_plan_policy cmds :
  forall i, Forall failure_policy (setup_plan i cmds).
Proof.
  induction cmds as [|cmd rest IH]; intros i; cbn [setup_plan];
    constructor; [|apply IH].
  left. split; reflexivity.
Qed.

Lemma plan_policy (analysis : Analysis.t) :
  Forall failure_policy (plan analysis).
Proof.
  unfold plan, optional_plan. rewrite !Forall_app. repeat split.
  - apply setup_plan_policy.
  - destruct (Analysis.test_command analysis) as [cmd|]; [|constructor].
    destruct (Text.truthy cmd); constructor; [|constructor].
    right. left. split; reflexivity.
  - destruct (Analysis.build_command analysis) as [cmd|]; [|constructor].
    destruct (Text.truthy cmd); constructor; [|constructor].
    right. right. split; reflexivity.
Qed.

(** The commands sent to a sandbox, each with what it returned. *)
Definition is_command (c : Call.t) : bool :=
  match c with
  | Call.execute_in_sandbox _ _ _ _ _ => true
  | _ => false
  end.

Definition commands_sent (cs : list Call.t) : list Call.t :=
  List.filter is_command cs.

Lemma commands_sent_app (cs cs' : list Call.t) :
  commands_sent (cs ++ cs') = commands_sent cs ++ commands_sent cs'.
Proof. apply List.filter_app. Qed.

Lemma commands_sent_calls_of sandbox_id ps rs :
  commands_sent (calls_of sandbox_id ps rs) = calls_of sandbox_id ps rs.
Proof.
  revert rs. induction ps as [|p ps IH]; intros [|r rs]; try reflexivity.
  cbn. f_equal. exact (IH rs).
Qed.

(** C4, amended: in a repository pipeline whose clone succeeded, every
    step of the plan is run whatever the commands before it returned; each
    step is logged by what its own command returned, a failed setup
    command as [warning], a failed test command as [failed]; and the
    result is [failed] exactly when the build command failed, so that a
    failing setup or test alone never makes it [failed].  The results
    [rs] are those the calls of the execution returned, in the order of
    the calls.  (When the analysis of the metadata raises, there is no
    pipeline: the method raises.) *)
Theorem failed_setup_or_test_is_not_fatal (repo_url : string)
    (repo_data : Wire.Metadata) (timeout : Z) (s : State W) :
  match Wire.analyze_repository_executability repo_data with
  | Raise e =>
      Wire.execute_repository repo_url repo_data timeout s
      = (Raise e, after_id s)
  | Ret analysis =>
      Forall failure_policy (plan analysis)
      /\ exists result s' new,
           Wire.execute_repository repo_url repo_data timeout s
           = (Ret result, s')
           /\ calls s' = calls s ++ new
           /\ ((RepoResult.sandbox_id result = None
                /\ commands_sent new = []
                /\ RepoResult.logs result = [])
               \/ (exists runtime sandbox_id r0 stopped,
                     new = [ Call.create_sandbox runtime "1g" 2 timeout true
                               (Some sandbox_id);
                             clone_call sandbox_id repo_url r0;
                             Call.stop_sandbox sandbox_id stopped ]
                     /\ CommandResult.success r0 = false
                     /\ map view (RepoResult.logs result)
                        = [("clone", "running"); ("clone", "failed")]
                     /\ RepoResult.status result = "failed")
               \/ (exists runtime sandbox_id r0 rs stats stopped,
                     new = Call.create_sandbox runtime "1g" 2 timeout true
                             (Some sandbox_id)
                           :: clone_call sandbox_id repo_url r0
                           :: calls_of sandbox_id (plan analysis) rs
                           ++ [ Call.get_sandbox_stats sandbox_id stats;
                                Call.stop_sandbox sandbox_id stopped ]
                     /\ CommandResult.success r0 = true
                     /\ length rs = length (plan analysis)
                     /\ map view (RepoResult.logs result)
                        = [("clone", "running"); ("clone", "success")]
                          ++ log_of (plan analysis) rs
                     /\ RepoResult.status result
                        = (if any_build_failed (plan analysis) rs
                           then "failed" else "success")))
  end.
Proof.
  pose proof (execute_repository_ends repo_url repo_data timeout s) as Hends.
  destruct (Wire.analyze_repository_executability repo_data)
    as [analysis|e]; [|exact Hends].
  split; [apply plan_policy|].
  destruct Hends as (result & s' & new & Hrun & Hc & _ & _ & Hways & _).
  exists result, s', new.
  split; [exact Hrun|]. split; [exact Hc|].
  destruct Hways as [? Hres|runtime ? ? Hres|runtime sandbox_id rest ? ? ? Hend].
  - left. rewrite Hres. repeat split.
  - left. rewrite Hres. repeat split.
  - right.
    destruct Hend as [r0 stopped ? ? ? Hlog|r0 rs stats stopped ? Hlen Hst ? Hlog].
    + left. exists runtime, sandbox_id, r0, stopped. repeat split; assumption.
    + right. exists runtime, sandbox_id, r0, rs, stats, stopped.
      repeat split; assumption.
Qed.

Lemma any_build_failed_app ps qs rs rs' :
  length rs = length ps ->
  any_build_failed (ps ++ qs) (rs ++ rs')
  = any_build_failed ps rs || any_build_failed qs rs'.
Proof.
  revert rs. induction ps as [|p ps IH]; intros [|r rs] Hlen;
    cbn in *; try discriminate; [reflexivity|].
  rewrite IH by lia. apply orb_assoc.
Qed.

Lemma no_build_no_failure ps :
  Forall (fun p => String.eqb (p_step p) "build" = false) ps ->
  forall rs, any_build_failed ps rs = false.
Proof.
  induction 1 as [|p ps Hp _ IH]; intros [|r rs]; cbn; try reflexivity.
  unfold build_failed. rewrite Hp, IH. reflexivity.
Qed.

Lemma setup_plan_no_build cmds :
  forall i,
    Forall (fun p => String.eqb (p_step p) "build" = false) (setup_plan i cmds).
Proof.
  induction cmds as [|cmd rest IH]; intros i; cbn [setup_plan];
    constructor; [reflexivity|apply IH].
Qed.

(** When a build failed, the build is the last step of the plan and its
    command is the one that failed. *)
Lemma failed_build_is_last (analysis : Analysis.t) rs :
  length rs = length (plan analysis) ->
  any_build_failed (plan analysis) rs = true ->
  exists p r,
    last (plan analysis) = Some p /\ last rs = Some r
    /\ p_step p = "build" /\ CommandResult.success r = false.
Proof.
  unfold plan. rewrite app_assoc.
  set (front := setup_plan 0 _ ++ optional_plan "test" _ 120).
  assert (Hfront : Forall (fun p => String.eqb (p_step p) "build" = false) front).
  { subst front. apply Forall_app. split; [apply setup_plan_no_build|].
    unfold optional_plan.
    destruct (Analysis.test_command analysis) as [cmd|]; [|constructor].
    destruct (Text.truthy cmd); constructor; [reflexivity|constructor]. }
  unfold optional_plan.
  destruct (Analysis.build_command analysis) as [cmd|];
    [destruct (Text.truthy cmd)|].
  2,3: rewrite app_nil_r; intros _ Hany;
       rewrite (no_build_no_failure _ Hfront) in Hany; discriminate.
  intros Hlen Hany.
  destruct rs as [|r rs _] using rev_ind;
    [rewrite length_app in Hlen; cbn in Hlen; lia|].
  rewrite !length_app in Hlen. cbn in Hlen.
  rewrite any_build_failed_app in Hany by lia.
  rewrite (no_build_no_failure _ Hfront) in Hany. cbn in Hany.
  rewrite orb_false_r in Hany.
  eexists _, r. rewrite !last_snoc. repeat split.
  by destruct (CommandResult.success r).
Qed.

(** C5: when a repository execution that got its sandbox ends with
    status [failed], the commands it sent are the clone followed by the
    steps [issued], and the log is exactly the entries of the clone and
    of those steps, in the order they were sent, each step by what its
    command returned; either the clone failed and nothing was issued
    after it, or the clone succeeded, the whole plan was issued and its
    last step is the build, which failed.  And in every execution, once
    the clone command has returned a failure no further command is sent:
    the result is [failed] and the log holds the clone alone. *)
Theorem failed_run_logs_issued_steps (repo_url : string)
    (repo_data : Wire.Metadata) (timeout : Z) (s : State W) :
  match Wire.analyze_repository_executability repo_data with
  | Raise e =>
      Wire.execute_repository repo_url repo_data timeout s
      = (Raise e, after_id s)
  | Ret analysis =>
      exists result s' new,
        Wire.execute_repository repo_url repo_data timeout s
        = (Ret result, s')
        /\ calls s' = calls s ++ new
        /\ (RepoResult.sandbox_id result <> None ->
            RepoResult.status result = "failed" ->
            exists sandbox_id r0 rs,
              let issued := take (length rs) (plan analysis) in
              commands_sent new
              = clone_call sandbox_id repo_url r0
                :: calls_of sandbox_id issued rs
              /\ map view (RepoResult.logs result)
                 = log_of (clone_step repo_url :: issued) (r0 :: rs)
              /\ ((CommandResult.success r0 = false /\ rs = [])
                  \/ (CommandResult.success r0 = true
                      /\ length rs = length (plan analysis)
                      /\ exists p r,
                           last (plan analysis) = Some p
                           /\ last rs = Some r
                           /\ p_step p = "build"
                           /\ CommandResult.success r = false)))
        /\ (forall sandbox_id r0 rest,
              commands_sent new
              = clone_call sandbox_id repo_url r0 :: rest ->
              CommandResult.success r0 = false ->
              rest = []
              /\ RepoResult.status result = "failed"
              /\ map view (RepoResult.logs result)
                 = [("clone", "running"); ("clone", "failed")])
  end.
Proof.
  pose proof (execute_repository_ends repo_url repo_data timeout s) as Hends.
  destruct (Wire.analyze_repository_executability repo_data)
    as [analysis|e]; [|exact Hends].
  destruct Hends as (result & s' & new & Hrun & Hc & _ & _ & Hways & _).
  exists result, s', new.
  split; [exact Hrun|]. split; [exact Hc|].
  destruct Hways as [? Hres|runtime ? ? Hres|runtime sandbox_id rest ? ? ? Hend].
  1,2: rewrite Hres; split; [intros Hsome; by destruct Hsome|];
       intros sid r0 rest Hsent; discriminate.
  destruct Hend as [r0 stopped Hr0 Hst ? Hlog|r0 rs stats stopped Hr0 Hlen Hst ? Hlog].
  - split.
    + intros _ _. exists sandbox_id, r0, []. cbn zeta.
      split; [reflexivity|]. split; [|by left].
      rewrite Hlog. cbn. by rewrite Hr0.
    + intros sid r1 rest' Hsent _. cbn in Hsent.
      injection Hsent as _ _ <-. by repeat split.
  - assert (Hsent : commands_sent
              (Call.create_sandbox runtime "1g" 2 timeout true (Some sandbox_id)
               :: clone_call sandbox_id repo_url r0
               :: calls_of sandbox_id (plan analysis) rs
               ++ [Call.get_sandbox_stats sandbox_id stats;
                   Call.stop_sandbox sandbox_id stopped])
            = clone_call sandbox_id repo_url r0
              :: calls_of sandbox_id (plan analysis) rs).
    { change (?a :: ?b :: ?l ++ ?t) with ([a; b] ++ l ++ t).
      rewrite !commands_sent_app, commands_sent_calls_of. cbn.
      by rewrite app_nil_r. }
    rewrite Hsent. split.
    + intros _ Hfailed. rewrite Hfailed in Hst.
      destruct (any_build_failed (plan analysis) rs) eqn:Hany; [|discriminate].
      destruct (failed_build_is_last _ rs Hlen Hany)
        as (p & r & Hp & Hr & Hb & Hf).
      exists sandbox_id, r0, rs. cbn zeta.
      rewrite Hlen, firstn_all.
      split; [reflexivity|].
      split; [rewrite Hlog; cbn [log_of]; unfold views_of; rewrite Hr0;
              reflexivity|].
      right. split; [exact Hr0|]. split; [reflexivity|]. by exists p, r.
    + intros sid r1 rest' Hfirst Hfail. injection Hfirst as _ <- _.
      congruence.
Qed.

End FailingSteps.

(* ===================================================================== *)
(** * Gates: the unreachable engine, the unsafe snippet, the network      *)
(* ===================================================================== *)

Section Gates.
Context {W : Type} {E : Env W}.
Import ExecutionController Observed.

#[local] Arguments SandboxManager.create_sandbox : simpl never.


(** The daemon has stopped answering: from this world on, every
    [images.get] raises an error other than [ImageNotFound]. *)
Definition silent_from (w : W) : Prop :=
  forall w', evolves w w' ->
  forall image, exists msg w'',
    images_get image w' = (Raise (Exception msg), w'').

(** The container engine is unreachable: the manager found none when it
    was constructed, or the daemon has stopped answering since. *)
Definition unreachable (s : State W) : Prop :=
  SandboxManager.is_available s = false \/ silent_from (world s).




(** C1, amended: a snippet whose verdict is not safe never changes the
    state of the process: no call of the snippet executor or of
    [create_sandbox] is made and no container is created, whether the
    request passes the two availability guards of the endpoint or not;
    and when it passes them, the request ends with the response
    [rejected]. *)
Theorem unsafe_snippet_is_rejected (request : MainV2.CodeExecutionRequest)
    (s : State W) :
  let verdict :=
    SecurityManager.validate_code (MainV2.code request)
      (MainV2.language request) true in
  SecurityManager.is_safe verdict = false ->
  snd (MainV2.execute_code request s) = s
  /\ calls (snd (MainV2.execute_code request s)) = calls s
  /\ created (snd (MainV2.execute_code request s)) = created s
  /\ (RUNANYWHERE_AVAILABLE s = true ->
      SandboxManager.is_available s = true ->
      fst (MainV2.execute_code request s) = Ret (MainV2.rejected verdict)
      /\ SnippetResult.status (MainV2.rejected verdict) = "rejected").
Proof.
  cbn zeta. intros Hunsafe.
  assert (Hstate : snd (MainV2.execute_code request s) = s).
  { unfold MainV2.execute_code, MainV2.execution_controller. unfold_monad.
    destruct (RUNANYWHERE_AVAILABLE s); [|reflexivity]. cbn [negb orb].
    destruct (SandboxManager.is_available s); [|reflexivity]. cbn [negb].
    rewrite Hunsafe. reflexivity. }
  rewrite Hstate. split; [reflexivity|]. split; [reflexivity|].
  split; [reflexivity|]. intros Hrun Hdocker. split; [|reflexivity].
  unfold MainV2.execute_code, MainV2.execution_controller. unfold_monad.
  rewrite Hrun. cbn [negb orb]. rewrite Hdocker. cbn [negb].
  rewrite Hunsafe. reflexivity.
Qed.

(** A snippet whose verdict is safe is handed to the executor. *)
Lemma safe_snippet_is_executed (request : MainV2.CodeExecutionRequest)
    (s : State W) :
  RUNANYWHERE_AVAILABLE s = true ->
  SandboxManager.is_available s = true ->
  SecurityManager.is_safe
    (SecurityManager.validate_code (MainV2.code request)
       (MainV2.language request) true) = true ->
  MainV2.execute_code request s
  = execute_code_snippet (MainV2.code request) (MainV2.language request)
      (MainV2.timeout request) s.
Proof.
  intros Hrun Hdocker Hsafe.
  unfold MainV2.execute_code, MainV2.execution_controller. unfold_monad.
  rewrite Hrun. cbn [negb orb]. rewrite Hdocker. cbn [negb].
  rewrite Hsafe. reflexivity.
Qed.

(** A container without network. *)
Definition offline (a : Docker.create_args) : Prop :=
  Docker.network_mode a = "none" /\ Docker.network_disabled a = true.

(** C10: every snippet execution calls [create_sandbox] with
    [network_enabled = False], and every container the engine is asked to
    create for it has network mode [none] and networking disabled. *)
Theorem snippet_sandbox_is_offline (code language : string) (timeout : Z)
    (s : State W) :
  exists result s' new containers,
    execute_code_snippet code language timeout s = (Ret result, s')
    /\ calls s' = calls s ++ new
    /\ created s' = created s ++ containers
    /\ Forall (fun c => asks_for_network c = false) new
    /\ Forall offline containers
    /\ (exists returned,
          In (Call.create_sandbox language "256m" (1 # 2) timeout false
                returned) new).
Proof.
  destruct (execute_code_snippet_returns code language timeout s)
    as (result & s' & new & Hrun & Hc & Hcr & _ & Hways).
  assert (Hcalls : Forall (fun c => asks_for_network c = false)
                     (Call.execute_code_snippet code language timeout :: new)).
  { destruct Hways; repeat constructor. }
  assert (Hcreate : exists returned,
             In (Call.create_sandbox language "256m" (1 # 2) timeout false
                   returned)
                (Call.execute_code_snippet code language timeout :: new)).
  { destruct Hways; eexists; right; left; reflexivity. }
  destruct Hcr as [Hsame|[sandbox_id Hone]].
  - exists result, s', (Call.execute_code_snippet code language timeout :: new),
      [].
    rewrite app_nil_r.
    split; [exact Hrun|]. split; [exact Hc|]. split; [exact Hsame|].
    split; [exact Hcalls|]. split; [constructor|exact Hcreate].
  - exists result, s', (Call.execute_code_snippet code language timeout :: new),
      [snippet_config sandbox_id language].
    split; [exact Hrun|]. split; [exact Hc|]. split; [exact Hone|].
    split; [exact Hcalls|]. split; [|exact Hcreate].
    constructor; [split; reflexivity|constructor].
Qed.

End Gates.

(* ===================================================================== *)
(** * The execution history                                               *)
(* ===================================================================== *)

Section History.
Context {W : Type} {E : Env W}.
Import ExecutionController Observed.







Lemma insert_desc_perm (x : RepoResult.t) (l : list RepoResult.t) :
  Permutation (insert_desc x l) (x :: l).
Proof.
  induction l as [|y l IH]; cbn; [reflexivity|].
  destruct (String.ltb (sort_key x) (sort_key y)); [|reflexivity].
  rewrite IH. apply perm_swap.
Qed.

Lemma sorted_desc_perm (xs : list RepoResult.t) :
  Permutation (sorted_desc xs) xs.
Proof.
  induction xs as [|x xs IH]; cbn; [reflexivity|].
  rewrite insert_desc_perm, IH. reflexivity.
Qed.



End History.

(* ===================================================================== *)
(** * Runs on the scripted environment                                    *)
(* ===================================================================== *)

Module Runs.
Import ExecutionController Observed Scripted.

(** An unsafe snippet. *)
Definition unsafe_request : MainV2.CodeExecutionRequest :=
  MainV2.Request "import os" "python" 5.

(** C1, as the claim states it, fails: the verdict of this snippet is not
    safe, and with no container engine the request ends with an HTTP 503
    error raised by the availability guard, not with the response
    [rejected]. *)
Lemma unsafe_snippet_without_engine :
  SecurityManager.is_safe
    (SecurityManager.validate_code (MainV2.code unsafe_request)
       (MainV2.language unsafe_request) true) = false
  /\ fst (MainV2.execute_code unsafe_request (boot false []))
     = Raise (HTTPException 503
                "Docker not available. Please start Docker Desktop.").
Proof. split; vm_compute; reflexivity. Qed.

(** The same snippet with the engine up: rejected, nothing called. *)
Lemma unsafe_snippet_is_rejected_witness :
  snd (MainV2.execute_code unsafe_request (boot true [])) = boot true []
  /\ calls (snd (MainV2.execute_code unsafe_request (boot true [])))
     = calls (boot true [])
  /\ created (snd (MainV2.execute_code unsafe_request (boot true [])))
     = created (boot true [])
  /\ (RUNANYWHERE_AVAILABLE (boot true []) = true ->
      SandboxManager.is_available (boot true []) = true ->
      fst (MainV2.execute_code unsafe_request (boot true []))
      = Ret (MainV2.rejected
               (SecurityManager.validate_code (MainV2.code unsafe_request)
                  (MainV2.language unsafe_request) true))
      /\ SnippetResult.status
           (MainV2.rejected
              (SecurityManager.validate_code (MainV2.code unsafe_request)
                 (MainV2.language unsafe_request) true)) = "rejected").
Proof.
  apply (unsafe_snippet_is_rejected unsafe_request (boot true [])).
  vm_compute. reflexivity.
Defined.

(** The metadata of a JavaScript repository that uses React. *)
Definition node_metadata : Wire.Metadata :=
  [ ("language", Json.text "JavaScript");
    ("tech_stack", Json.array [Json.text "React"]);
    ("stars", Json.integer 10);
    ("open_issues_count", Json.integer 2) ].

(** C4, as the claim states it, fails: in this run the setup command and
    the test command both fail; the setup step is logged as [warning],
    the test step as [failed], not as [warning]; the build still runs
    and the result is [success]. *)
Lemma failed_test_is_logged_failed :
  exists result,
    fst (Wire.execute_repository "https://github.com/x/y" node_metadata 300
           (boot true [(0%Z, 1%Q); (1%Z, 1%Q); (1%Z, 1%Q); (0%Z, 1%Q)]))
    = Ret result
    /\ map view (RepoResult.logs result)
       = [ ("clone", "running"); ("clone", "success");
           ("setup_0", "running"); ("setup_0", "warning");
           ("test", "running"); ("test", "failed");
           ("build", "running"); ("build", "success") ]
    /\ RepoResult.status result = "success".
Proof. eexists. split; [vm_compute; reflexivity|]. split; reflexivity. Qed.

(** Scenario C: the clone fails; the clone is the only command sent, the
    sandbox is stopped, and nothing is stored. *)
Example failed_clone_run :
  exists result s',
    execute_repository "https://github.com/x/y" python_repo 300
      (boot true [(128%Z, 1%Q)]) = (Ret result, s')
    /\ RepoResult.status result = "failed"
    /\ map view (RepoResult.logs result)
       = [("clone", "running"); ("clone", "failed")]
    /\ commands_issued (calls s')
       = ["git clone https://github.com/x/y /tmp/repo"]
    /\ stops "sandbox-1" (calls s') = 1
    /\ execution_history s' = [].
Proof.
  eexists _, _. split; [vm_compute; reflexivity|]. repeat split.
Qed.



Example python_repository_without_engine :
  exists result,
    fst (Wire.execute_repository "https://github.com/x/y"
           [("language", Json.text "python")] 300 (boot false []))
    = Ret result
    /\ RepoResult.status result = "failed"
    /\ RepoResult.error result
       = Some "Failed to create sandbox (Docker not available)"
    /\ RepoResult.logs result = [].
Proof. eexists. split; [vm_compute; reflexivity|]. repeat split. Qed.

(** Metadata whose language is [null]: the analysis raises at its first
    line, and the execution with it. *)
Example null_language_raises :
  Wire.analyze_repository_executability [("language", Json.null)]
  = Raise (Exception "'NoneType' object has no attribute 'lower'")
  /\ fst (Wire.execute_repository "https://github.com/x/y"
            [("language", Json.null)] 300 (boot false []))
     = Raise (Exception "'NoneType' object has no attribute 'lower'")
  /\ fst (Wire.execute_repository "https://github.com/x/y"
            [("language", Json.null)] 300 (boot true []))
     = Raise (Exception "'NoneType' object has no attribute 'lower'").
Proof. repeat split. Qed.

(** A daemon that was up when the manager was constructed and has
    stopped answering since: the manager still says it is available. *)
Definition lost_daemon : State t :=
  set_world (World 0 0 0 false []) (boot true []).

Lemma down_stays_down (w w' : t) :
  engine_up w = false -> evolves w w' -> engine_up w' = false.
Proof.
  intros Hdown Hev. induction Hev as [w|w w1 w2 Hstep _ IH]; [exact Hdown|].
  apply IH. destruct w as [i k c up sc]. cbn in Hdown. subst.
  destruct Hstep; reflexivity.
Qed.

Lemma lost_daemon_is_unreachable :
  SandboxManager.is_available lost_daemon = true /\ unreachable lost_daemon.
Proof.
  split; [reflexivity|]. right. intros w' Hev image.
  assert (Hdown : engine_up w' = false)
    by (eapply down_stays_down; [|exact Hev]; reflexivity).
  cbn. unfold answer. rewrite Hdown. eauto.
Qed.

Example lost_daemon_run :
  exists result,
    fst (execute_repository "https://github.com/x/y" python_repo 300
           lost_daemon) = Ret result
    /\ RepoResult.status result = "failed"
    /\ RepoResult.error result
       = Some "Failed to create sandbox (Docker not available)"
    /\ RepoResult.logs result = [].
Proof. eexists. split; [vm_compute; reflexivity|]. repeat split. Qed.

(** Scenario A: an endless loop is flagged at medium risk and still
    runs; the command overruns its five seconds and the result is
    [failed]. *)
Example endless_loop_run :
  let verdict :=
    SecurityManager.validate_code "while True: pass" "python" true in
  SecurityManager.risk_level verdict = SecurityManager.medium
  /\ SecurityManager.is_safe verdict = true
  /\ exists result,
       fst (MainV2.execute_code
              (MainV2.Request "while True: pass" "python" 5)
              (boot true [(0%Z, 26 # 5)])) = Ret result
       /\ SnippetResult.status result = "failed"
       /\ SnippetResult.stderr result = "Command exceeded 5s timeout".
Proof.
  cbn zeta. split; [reflexivity|]. split; [reflexivity|].
  eexists. split; [vm_compute; reflexivity|]. split; reflexivity.
Qed.

(** The build fails after a setup, a test that went well: the result is
    [failed], the whole plan was issued and its last entry is the failed
    build. *)
Example failed_build_run :
  exists result s',
    Wire.execute_repository "https://github.com/x/y" node_metadata 300
      (boot true [(0%Z, 1%Q); (0%Z, 1%Q); (0%Z, 1%Q); (2%Z, 1%Q)])
    = (Ret result, s')
    /\ RepoResult.status result = "failed"
    /\ map view (RepoResult.logs result)
       = [ ("clone", "running"); ("clone", "success");
           ("setup_0", "running"); ("setup_0", "success");
           ("test", "running"); ("test", "success");
           ("build", "running"); ("build", "failed") ]
    /\ commands_issued (calls s')
       = [ "git clone https://github.com/x/y /tmp/repo";
           "npm install || yarn install"; "npm test"; "npm run build" ]
    /\ stops "sandbox-1" (calls s') = 1.
Proof.
  eexists _, _. split; [vm_compute; reflexivity|]. repeat split.
Qed.

(** The analysis reads a value only when it comes to it: with 5000
    stars the number of open issues is never compared, so that a [null]
    there does no harm, while with 5 stars it raises; and a technology
    list that cannot be iterated raises at the Docker test even when the
    language alone has settled the runtime. *)
Example analysis_reads_lazily :
  (exists analysis,
     Wire.analyze_repository_executability
       [("stars", Json.integer 5000); ("open_issues_count", Json.null)]
     = Ret analysis
     /\ Analysis.estimated_complexity analysis = "complex")
  /\ Wire.analyze_repository_executability
       [("stars", Json.integer 5); ("open_issues_count", Json.null)]
     = Raise (Exception
                "'<' not supported between instances of 'NoneType' and 'int'")
  /\ Wire.analyze_repository_executability
       [("language", Json.text "Python"); ("tech_stack", Json.null)]
     = Raise (Exception "'NoneType' object is not iterable").
Proof.
  split; [eexists; split; [vm_compute; reflexivity|reflexivity]|].
  split; reflexivity.
Qed.

(** A snippet whose code is the lone surrogate U+D800: the sandbox is
    created, the code cannot be encoded, and the [except] handler stops
    the sandbox and returns the status [error]; nothing is uploaded or
    run. *)
Example lone_surrogate_run :
  exists result s',
    Wire.execute_code_snippet [55296%N] "python" 5 (boot true [])
    = (Ret result, s')
    /\ SnippetResult.status result = "error"
    /\ SnippetResult.stderr result
       = "'utf-8' codec can't encode character '\ud800' in position 0: surrogates not allowed"
    /\ calls s'
       = [ Call.create_sandbox "python" "256m" (1 # 2) 5 false
             (Some "sandbox-1");
           Call.stop_sandbox "sandbox-1" true ]
    /\ stops "sandbox-1" (calls s') = 1
    /\ active_sandboxes s' !! "sandbox-1" = None.
Proof.
  eexists _, _. split; [vm_compute; reflexivity|]. repeat split.
Qed.

(** Scenario D: the setup command fails, the test and the build succeed;
    the result is [success] and all four steps are in the log. *)
Example failed_setup_run :
  exists result,
    fst (execute_repository "https://github.com/x/y" node_repo 300
           (boot true [(0%Z, 1%Q); (1%Z, 1%Q); (0%Z, 1%Q); (0%Z, 1%Q)]))
    = Ret result
    /\ RepoResult.status result = "success"
    /\ map view (RepoResult.logs result)
       = [ ("clone", "running"); ("clone", "success");
           ("setup_0", "running"); ("setup_0", "warning");
           ("test", "running"); ("test", "success");
           ("build", "running"); ("build", "success") ].
Proof. eexists. split; [vm_compute; reflexivity|]. split; reflexivity. Qed.

(** A sandbox with a five-second command that takes 5.2 seconds. *)
Definition slow_command : State t :=
  snd (SandboxManager.create_sandbox "python" "256m" (1 # 2) 5 false
         (boot true [(0%Z, 26 # 5)])).

Lemma execute_in_sandbox_timeout_witness :
  exists r,
    fst (SandboxManager.execute_in_sandbox "sandbox-0" "python /tmp/code.py"
           "/tmp" 5 slow_command) = Ret r
    /\ r = SandboxManager.timeout_result 5 ((26 # 5) - 0)
    /\ CommandResult.success r = false
    /\ CommandResult.error r = Some "Execution timeout"
    /\ CommandResult.stderr r = "Command exceeded " +:+ pretty 5%Z +:+ "s timeout"
    /\ CommandResult.exit_code r = (-1)%Z.
Proof.
  eapply (execute_in_sandbox_timeout slow_command "sandbox-0"
            "python /tmp/code.py" "/tmp" 5).
  - vm_compute. reflexivity.
  - vm_compute. reflexivity.
  - vm_compute. reflexivity.
  - vm_compute. reflexivity.
  - reflexivity.
Defined.

End Runs.

(* ===================================================================== *)
(** * The history has no capacity                                         *)
(* ===================================================================== *)

Module Growth.
Import ExecutionController Observed Scripted.









Definition repository : string := "https://github.com/x/y".

(** One more run of the pipeline on the same Python repository. *)
Definition again (s : State t) : State t :=
  snd (execute_repository repository python_repo 300 s).






End Growth.

(* ===================================================================== *)
(** * [sanitize_command]                                                  *)
(* ===================================================================== *)

Section Sanitizing.
Import SecurityManager.

(** [c in s] for a one-character [c]. *)
Definition occurs (c : ascii) (s : string) : bool :=
  Text.contains (String c "") s.

Lemma occurs_cons (c a : ascii) (s : string) :
  occurs c (String a s) = Ascii.eqb c a || occurs c s.
Proof.
  unfold occurs. cbn [Text.contains Text.startswith].
  destruct s; rewrite andb_true_r; reflexivity.
Qed.

Lemma occurs_remove_char (c d : ascii) (s : string) :
  occurs c (Text.remove_char d s) = negb (Ascii.eqb c d) && occurs c s.
Proof.
  induction s as [|a s IH]; [by rewrite andb_false_r|].
  cbn [Text.remove_char]. rewrite (occurs_cons c a s).
  destruct (Ascii.eqb_spec a d) as [->|Hne].
  - rewrite IH. by destruct (Ascii.eqb c d), (occurs c s).
  - rewrite occurs_cons, IH.
    destruct (Ascii.eqb_spec c d) as [->|_]; [|reflexivity].
    cbn [negb andb]. rewrite orb_false_r.
    apply Ascii.eqb_neq. congruence.
Qed.

Lemma occurs_lstrip (c : ascii) (s : string) :
  occurs c s = false -> occurs c (lstrip s) = false.
Proof.
  induction s as [|a s IH]; [done|]. cbn [lstrip].
  destruct (Re.is_space a); [|done].
  rewrite occurs_cons. intros H. apply orb_false_elim in H as [_ H]. by apply IH.
Qed.

Lemma occurs_rstrip (c : ascii) (s : string) :
  occurs c s = false -> occurs c (rstrip s) = false.
Proof.
  induction s as [|a s IH]; [done|]. cbn [rstrip].
  rewrite occurs_cons. intros H. apply orb_false_elim in H as [Ha H].
  specialize (IH H).
  destruct (rstrip s) as [|b t] eqn:Hr.
  - destruct (Re.is_space a); [done|]. rewrite occurs_cons, Ha. done.
  - rewrite occurs_cons, Ha. exact IH.
Qed.

(** The loop over [dangerous_chars]. *)
Definition cleaned (chars : list ascii) (command : string) : string :=
  fold_left (fun sanitized c => Text.remove_char c sanitized) chars command.

Lemma occurs_cleaned_keeps (c : ascii) (chars : list ascii) (s : string) :
  occurs c s = false -> occurs c (cleaned chars s) = false.
Proof.
  revert s. induction chars as [|d chars IH]; intros s H; [exact H|].
  change (cleaned (d :: chars) s) with (cleaned chars (Text.remove_char d s)).
  apply IH. rewrite occurs_remove_char, H. apply andb_false_r.
Qed.

Lemma occurs_cleaned (c : ascii) (chars : list ascii) (s : string) :
  In c chars -> occurs c (cleaned chars s) = false.
Proof.
  revert s. induction chars as [|d chars IH]; intros s; [intros []|].
  change (cleaned (d :: chars) s) with (cleaned chars (Text.remove_char d s)).
  intros [->|Hin]; [|by apply IH].
  apply occurs_cleaned_keeps. rewrite occurs_remove_char, Ascii.eqb_refl. done.
Qed.

Lemma remove_char_absent (c : ascii) (s : string) :
  occurs c s = false -> Text.remove_char c s = s.
Proof.
  induction s as [|a s IH]; [done|]. rewrite occurs_cons.
  intros H. apply orb_false_elim in H as [Ha H].
  cbn [Text.remove_char]. rewrite Ascii.eqb_sym, Ha, IH by exact H. done.
Qed.

Lemma cleaned_absent (chars : list ascii) (s : string) :
  Forall (fun c => occurs c s = false) chars -> cleaned chars s = s.
Proof.
  induction 1 as [|c chars Hc _ IH]; [done|].
  change (cleaned (c :: chars) s) with (cleaned chars (Text.remove_char c s)).
  rewrite remove_char_absent by exact Hc. exact IH.
Qed.

(** A text that does not begin with white space. *)
Definition starts_clean (s : string) : bool :=
  match s with
  | EmptyString => true
  | String c _ => negb (Re.is_space c)
  end.

Lemma lstrip_starts_clean (s : string) : starts_clean (lstrip s) = true.
Proof.
  induction s as [|a s IH]; [done|]. cbn [lstrip].
  destruct (Re.is_space a) eqn:Ha; [exact IH|]. cbn. by rewrite Ha.
Qed.

Lemma rstrip_starts_clean (s : string) :
  starts_clean s = true -> starts_clean (rstrip s) = true.
Proof.
  destruct s as [|a s]; [done|]. cbn [starts_clean rstrip]. intros Ha.
  destruct (rstrip s); [|exact Ha].
  destruct (Re.is_space a) eqn:Hs; [done|]. cbn. by rewrite Hs.
Qed.

Lemma lstrip_fixed (s : string) : starts_clean s = true -> lstrip s = s.
Proof.
  destruct s as [|a s]; [done|]. cbn. by destruct (Re.is_space a).
Qed.

Lemma rstrip_rstrip (s : string) : rstrip (rstrip s) = rstrip s.
Proof.
  induction s as [|a s IH]; [done|]. cbn [rstrip].
  destruct (rstrip s) as [|b t] eqn:Hr.
  - destruct (Re.is_space a) eqn:Ha; [done|]. cbn. by rewrite Ha.
  - cbn [rstrip]. cbn [rstrip] in IH. rewrite IH. done.
Qed.

Lemma occurs_sanitized (c : ascii) (command : string) :
  In c dangerous_chars -> occurs c (sanitize_command command) = false.
Proof.
  intros Hin.
  apply (occurs_rstrip c), (occurs_lstrip c), (occurs_cleaned c), Hin.
Qed.

(** X1: whatever the command, none of the eleven characters
    [; & | ` $ ( ) < >], line feed and carriage return occurs in what
    [sanitize_command] returns. *)
Theorem sanitize_command_removes_dangerous_chars (command : string) :
  Forall (fun c => Text.contains (String c "") (sanitize_command command)
                   = false)
    dangerous_chars.
Proof.
  apply List.Forall_forall. intros c Hin. by apply occurs_sanitized.
Qed.

(** X2: [sanitize_command] is idempotent: sanitizing what it returned
    changes nothing. *)
Theorem sanitize_command_idempotent (command : string) :
  sanitize_command (sanitize_command command) = sanitize_command command.
Proof.
  unfold sanitize_command at 1. fold (cleaned dangerous_chars
    (sanitize_command command)).
  rewrite cleaned_absent.
  - unfold sanitize_command.
    rewrite lstrip_fixed by apply rstrip_starts_clean, lstrip_starts_clean.
    apply rstrip_rstrip.
  - apply List.Forall_forall. intros c Hin. by apply occurs_sanitized.
Qed.

(** X3: a command that holds none of the eleven characters and has no
    white space at either end is returned as it is. *)
Theorem sanitize_command_keeps_clean_command (command : string) :
  Forall (fun c => Text.contains (String c "") command = false)
    dangerous_chars ->
  lstrip command = command ->
  rstrip command = command ->
  sanitize_command command = command.
Proof.
  intros Hclean Hl Hr. unfold sanitize_command.
  fold (cleaned dangerous_chars command).
  rewrite cleaned_absent by exact Hclean. by rewrite Hl.
Qed.

End Sanitizing.

(* ===================================================================== *)
(** * What the two validators accept                                      *)
(* ===================================================================== *)

Section Validators.
Import Re SecurityManager.

(** A literal pattern under [re.IGNORECASE] matches at the start of a
    text exactly when the lowered text starts with the lowered pattern. *)
Lemma match_here_lit_lower (p : string) :
  forall s,
    match_here true (lit p) s
    = if Text.startswith (Text.lower p) (Text.lower s)
      then Some (Text.skip (String.length p) s)
      else None.
Proof.
  induction p as [|c p IH]; intros s; [by destruct s|].
  destruct s as [|d s]; [reflexivity|].
  cbn [lit match_here one it_atom it_min it_max run_length under
       atom_matches Text.lower Text.startswith String.length Text.skip].
  change (0 <? 1)%nat with true. cbn [andb].
  destruct (Ascii.eqb (Text.lower_char c) (Text.lower_char d)); cbn [andb].
  - rewrite run_length_full.
    cbn [backtrack drop]. change (1 <? 1)%nat with false.
    change (0 <? 1)%nat with true. cbn iota. rewrite IH.
    by destruct (Text.startswith (Text.lower p) (Text.lower s)).
  - reflexivity.
Qed.

Lemma search_lit (p s : string) :
  search true (lit p) s = Text.contains (Text.lower p) (Text.lower s).
Proof.
  unfold search. induction s as [|d s IH].
  - cbn [first_match]. rewrite match_here_lit_lower.
    cbn [Text.lower Text.contains]. rewrite orb_false_r.
    by destruct (Text.startswith (Text.lower p) "").
  - rewrite first_match_unfold, match_here_lit_lower.
    cbn [Text.lower Text.contains].
    destruct (Text.startswith (Text.lower p) _); [reflexivity|].
    exact IH.
Qed.

(** X4: [validate_repository_url] accepts a URL exactly when its text,
    in lower case, holds [github.com], [gitlab.com] or [bitbucket.org]
    somewhere; nothing else of the URL is looked at. *)
Theorem validate_repository_url_is_substring_test (repo_url : string) :
  validate_repository_url repo_url
  = existsb (fun domain => Text.contains domain (Text.lower repo_url))
      ["github.com"; "gitlab.com"; "bitbucket.org"].
Proof.
  unfold validate_repository_url, safe_domains. cbn [existsb].
  rewrite !search_lit. reflexivity.
Qed.

(** [re.findall] finds something exactly when [re.search] does. *)
Lemma findall_nil (ic : bool) (r : regex) (s : string) :
  match findall ic r s with [] => false | _ => true end = search ic r s.
Proof.
  unfold findall, search. cbn [findall_fuel].
  destruct (first_match ic r s) as [[from rest]|]; reflexivity.
Qed.

Definition found (code : string) (pattern : regex) : bool :=
  search true pattern code.

Lemma check_dangerous_risk strict code acc pattern :
  snd (check_dangerous strict code acc pattern)
  = if found code pattern then high else snd acc.
Proof.
  unfold check_dangerous, found. rewrite <- findall_nil.
  by destruct (findall true pattern code).
Qed.

Lemma dangerous_fold_risk strict code patterns :
  forall acc,
    snd (fold_left (check_dangerous strict code) patterns acc)
    = if existsb (found code) patterns then high else snd acc.
Proof.
  induction patterns as [|p ps IH]; intros acc; [reflexivity|].
  cbn [fold_left existsb]. rewrite IH, check_dangerous_risk.
  by destruct (found code p), (existsb (found code) ps).
Qed.

Lemma is_high_risk_max_medium (r : risk) :
  is_high (risk_max r medium) = is_high r.
Proof. by destruct r. Qed.

Lemma check_length_high code acc :
  is_high (snd (check_length code acc)) = is_high (snd acc).
Proof.
  unfold check_length. destruct (100000 <? _)%Z; [|reflexivity].
  apply is_high_risk_max_medium.
Qed.

Lemma loop_fold_high code patterns :
  forall acc,
    is_high (snd (fold_left (check_loop code) patterns acc))
    = is_high (snd acc).
Proof.
  induction patterns as [|p ps IH]; intros acc; [reflexivity|].
  cbn [fold_left]. rewrite IH. unfold check_loop.
  destruct (search true p code); [|reflexivity].
  apply is_high_risk_max_medium.
Qed.

Lemma validate_code_high (code language : string) (strict : bool) :
  is_high (risk_level (validate_code code language strict))
  = existsb (found code) (DANGEROUS_PATTERNS (Text.lower language)).
Proof.
  unfold validate_code. cbn [risk_level].
  rewrite loop_fold_high, check_length_high, dangerous_fold_risk.
  by destruct (existsb _ _).
Qed.

(** X5: the risk level of a verdict is [high] exactly when one of the
    dangerous patterns of the language is found in the code, and in
    strict mode the code is unsafe exactly then: neither the size of the
    code nor a loop pattern ever makes it unsafe. *)
Theorem validate_code_unsafe_iff_dangerous_pattern (code language : string)
    (strict : bool) :
  is_high (risk_level (validate_code code language strict))
  = existsb (fun pattern => search true pattern code)
      (DANGEROUS_PATTERNS (Text.lower language))
  /\ is_safe (validate_code code language true)
     = negb (existsb (fun pattern => search true pattern code)
               (DANGEROUS_PATTERNS (Text.lower language))).
Proof.
  split; [apply validate_code_high|].
  change (fun pattern => search true pattern code) with (found code).
  rewrite <- (validate_code_high code language true).
  unfold validate_code. cbn [is_safe risk_level]. apply orb_false_r.
Qed.

(** X6: code in a language other than Python, JavaScript and Bash is
    never unsafe, in strict mode or not: the risk level stops short of
    [high] whatever the code holds. *)
Theorem validate_code_other_language_is_safe (code language : string)
    (strict : bool) :
  Text.mem (Text.lower language) ["python"; "javascript"; "bash"] = false ->
  is_safe (validate_code code language strict) = true
  /\ is_high (risk_level (validate_code code language strict)) = false.
Proof.
  intros Hother.
  assert (Hnone : DANGEROUS_PATTERNS (Text.lower language) = []).
  { unfold Text.mem in Hother. cbn [existsb] in Hother.
    apply orb_false_elim in Hother as [Hpy Hother].
    apply orb_false_elim in Hother as [Hjs Hother].
    apply orb_false_elim in Hother as [Hsh _].
    unfold DANGEROUS_PATTERNS. by rewrite Hpy, Hjs, Hsh. }
  pose proof (validate_code_high code language strict) as Hhigh.
  rewrite Hnone in Hhigh. cbn [existsb] in Hhigh.
  split; [|exact Hhigh].
  unfold validate_code in *. cbn [is_safe risk_level] in *.
  by rewrite Hhigh.
Qed.

End Validators.

(* ===================================================================== *)
(** * The registry of sandboxes                                           *)
(* ===================================================================== *)

Section Registry.
Context {W : Type} {E : Env W}.
Import SandboxManager.

(** X7: constructing the manager never raises: the registry starts
    empty, and the manager is available exactly when [docker.from_env()]
    returned; nothing else of the process changes. *)
Theorem init_never_raises (s : State W) :
  exists s',
    init s = (Ret tt, s')
    /\ active_sandboxes s' = ∅
    /\ is_available s'
       = match fst (docker_from_env (world s)) with
         | Ret _ => true
         | Raise _ => false
         end
    /\ execution_history s' = execution_history s
    /\ calls s' = calls s
    /\ created s' = created s.
Proof.
  unfold init. unfold_monad.
  destruct (docker_from_env (world s)) as [[[]|e] w']; cbn [fst];
    eexists; (split; [reflexivity|]); repeat split.
Qed.

(** X8: a sandbox that [create_sandbox] hands out is named by the
    identifier drawn at the start of the call and is entered in the
    registry with the language, the time-out, the limits and the network
    flag the caller gave and with status [running]; one container was
    asked for, with the configuration of that sandbox: the image of the
    language, the memory limit, the network setting, the labels, and
    for [nano_cpus] the integer part of the floating-point product
    [cpu_limit * 1e9]. *)
Theorem create_sandbox_registers_its_arguments language memory_limit
    cpu_limit timeout network_enabled (s s' : State W)
    (sandbox_id : string) :
  create_sandbox language memory_limit cpu_limit timeout network_enabled s
  = (Ret (Some sandbox_id), s') ->
  sandbox_id = fst (uuid4 (world s))
  /\ is_available s = true
  /\ created s'
     = created s ++ [container_config sandbox_id language
                       (image_for language) memory_limit cpu_limit
                       network_enabled]
  /\ exists sandbox,
       active_sandboxes s' = <[sandbox_id := sandbox]> (active_sandboxes s)
       /\ active_sandboxes s' !! sandbox_id = Some sandbox
       /\ Sandbox.language sandbox = language
       /\ Sandbox.timeout sandbox = timeout
       /\ Sandbox.memory_limit sandbox = memory_limit
       /\ Sandbox.cpu_limit sandbox = cpu_limit
       /\ Sandbox.network_enabled sandbox = network_enabled
       /\ Sandbox.status sandbox = "running".
Proof.
  unfold create_sandbox. unfold_monad.
  destruct (is_available s) eqn:Havailable; cbn [negb]; [|intros; simplify_eq].
  split_run; intros; simplify_eq.
  all: cbn [fst active_sandboxes created record_call set_world register
            set_active_sandboxes record_created world].
  all: split; [reflexivity|]; split; [reflexivity|]; split; [reflexivity|].
  all: eexists; split; [reflexivity|]; rewrite lookup_insert_eq;
         repeat split.
Qed.

(** X9: when the engine creates the container and then fails to start
    it, [create_sandbox] returns [None] and makes no further call into
    the engine: the container that was created is neither entered in the
    registry nor removed. *)
Theorem create_sandbox_start_failure language memory_limit cpu_limit
    timeout network_enabled (s : State W) (w1 w2 w3 : W)
    (container : Docker.container) (e : exn) :
  let sandbox_id := fst (uuid4 (world s)) in
  let config :=
    container_config sandbox_id language (image_for language) memory_limit
      cpu_limit network_enabled in
  is_available s = true ->
  images_get (image_for language) (snd (uuid4 (world s))) = (Ret tt, w1) ->
  containers_create config w1 = (Ret container, w2) ->
  container_start container w2 = (Raise e, w3) ->
  exists s',
    create_sandbox language memory_limit cpu_limit timeout network_enabled s
    = (Ret None, s')
    /\ active_sandboxes s' = active_sandboxes s
    /\ created s' = created s ++ [config]
    /\ world s' = w3.
Proof.
  cbn zeta. intros Havailable Hget Hcreate Hstart.
  unfold create_sandbox. unfold_monad. rewrite Havailable. cbn [negb].
  destruct (uuid4 (world s)) as [sandbox_id w0].
  cbn [fst snd world set_world record_created] in *.
  rewrite Hget. cbn [world set_world record_created].
  rewrite Hcreate. cbn [world set_world]. rewrite Hstart.
  eexists. split; [reflexivity|]. repeat split.
Qed.

(** What [stop_sandbox] does to the registry. *)
Lemma stop_sandbox_outcome sandbox_id (s : State W) :
  exists stopped s',
    stop_sandbox sandbox_id s = (Ret stopped, s')
    /\ calls s' = calls s ++ [Call.stop_sandbox sandbox_id stopped]
    /\ created s' = created s
    /\ keeps_books s s'
    /\ active_sandboxes s'
       = (if stopped then delete sandbox_id (active_sandboxes s)
          else active_sandboxes s)
    /\ (stopped = true -> is_Some (active_sandboxes s !! sandbox_id))
    /\ (active_sandboxes s !! sandbox_id = None ->
        stopped = false /\ world s' = world s).
Proof.
  destruct (stop_sandbox_returns sandbox_id s)
    as (stopped & s' & Hrun & Hc & Hcr & Hb).
  exists stopped, s'. do 4 (split; [assumption|]).
  revert Hrun. unfold stop_sandbox. unfold_monad.
  split_run; intros; simplify_eq;
    cbn [active_sandboxes record_call set_world unregister
         set_active_sandboxes world];
    (split; [reflexivity|]); split; eauto; try done.
Qed.

(** X10: [stop_sandbox] never raises, and it returns [True] exactly when
    it has taken the sandbox out of the registry: after [False] the
    registry is as it was, so that a sandbox whose container could not be
    stopped or removed stays registered; an identifier that is not
    registered is answered [False] without a call into the engine. *)
Theorem stop_sandbox_true_iff_removed sandbox_id (s : State W) :
  exists stopped s',
    stop_sandbox sandbox_id s = (Ret stopped, s')
    /\ active_sandboxes s'
       = (if stopped then delete sandbox_id (active_sandboxes s)
          else active_sandboxes s)
    /\ (stopped = true -> is_Some (active_sandboxes s !! sandbox_id))
    /\ (active_sandboxes s !! sandbox_id = None ->
        stopped = false /\ world s' = world s).
Proof.
  destruct (stop_sandbox_outcome sandbox_id s)
    as (stopped & s' & Hrun & _ & _ & _ & Hreg & Hwas & Hmissing).
  by exists stopped, s'.
Qed.

(** The answers to an identifier that is not registered. *)
Lemma unregistered_answers sandbox_id (s : State W) :
  active_sandboxes s !! sandbox_id = None ->
  (forall command working_dir timeout,
     fst (execute_in_sandbox sandbox_id command working_dir timeout s)
     = Ret not_found_result
     /\ world (snd (execute_in_sandbox sandbox_id command working_dir
                      timeout s)) = world s)
  /\ (forall file_content destination_path,
        fst (upload_file_to_sandbox sandbox_id file_content
               destination_path s) = Ret false
        /\ world (snd (upload_file_to_sandbox sandbox_id file_content
                         destination_path s)) = world s)
  /\ fst (get_sandbox_stats sandbox_id s) = Ret None
  /\ world (snd (get_sandbox_stats sandbox_id s)) = world s
  /\ fst (stop_sandbox sandbox_id s) = Ret false
  /\ world (snd (stop_sandbox sandbox_id s)) = world s.
Proof.
  intros Hnone.
  unfold execute_in_sandbox, upload_file_to_sandbox, get_sandbox_stats,
    stop_sandbox.
  unfold_monad. rewrite Hnone. repeat split.
Qed.

(** X11: once [stop_sandbox] has returned [True] the sandbox is gone:
    a command sent to it is answered with the result [Sandbox not
    found], an upload with [False], a request for its statistics with
    [None] and a second stop with [False], each without a call into the
    engine. *)
Theorem stopped_sandbox_is_gone sandbox_id (s s' : State W) :
  stop_sandbox sandbox_id s = (Ret true, s') ->
  active_sandboxes s' !! sandbox_id = None
  /\ (forall command working_dir timeout,
        fst (execute_in_sandbox sandbox_id command working_dir timeout s')
        = Ret not_found_result
        /\ world (snd (execute_in_sandbox sandbox_id command working_dir
                         timeout s')) = world s')
  /\ (forall file_content destination_path,
        fst (upload_file_to_sandbox sandbox_id file_content
               destination_path s') = Ret false
        /\ world (snd (upload_file_to_sandbox sandbox_id file_content
                         destination_path s')) = world s')
  /\ fst (get_sandbox_stats sandbox_id s') = Ret None
  /\ world (snd (get_sandbox_stats sandbox_id s')) = world s'
  /\ fst (stop_sandbox sandbox_id s') = Ret false
  /\ world (snd (stop_sandbox sandbox_id s')) = world s'.
Proof.
  intros Hrun.
  destruct (stop_sandbox_outcome sandbox_id s)
    as (stopped & s1 & Hrun1 & _ & _ & _ & Hreg & _).
  rewrite Hrun in Hrun1. injection Hrun1 as <- <-.
  assert (Hnone : active_sandboxes s' !! sandbox_id = None)
    by (rewrite Hreg; apply lookup_delete_eq).
  split; [exact Hnone|]. by apply unregistered_answers.
Qed.

(** What a result of [execute_in_sandbox] always satisfies. *)
Definition sound_result (timeout : Z) (r : CommandResult.t) : Prop :=
  (CommandResult.success r = true ->
     CommandResult.exit_code r = 0%Z
     /\ CommandResult.error r = None
     /\ exceeds (CommandResult.execution_time r) timeout = false)
  /\ (CommandResult.error r = None ->
        CommandResult.success r = (CommandResult.exit_code r =? 0)%Z
        /\ exceeds (CommandResult.execution_time r) timeout = false)
  /\ (is_Some (CommandResult.error r) ->
        CommandResult.success r = false
        /\ CommandResult.exit_code r = (-1)%Z
        /\ CommandResult.stdout r = "").

Lemma execute_in_sandbox_sound sandbox_id command working_dir timeout
    (s : State W) :
  exists r s',
    execute_in_sandbox sandbox_id command working_dir timeout s = (Ret r, s')
    /\ sound_result timeout r.
Proof.
  unfold execute_in_sandbox, decode_or_empty. unfold_monad.
  split_run; simplify_eq; eexists _, _; (split; [reflexivity|]);
    unfold sound_result;
    cbn [CommandResult.success CommandResult.error CommandResult.exit_code
         CommandResult.execution_time CommandResult.stdout
         not_found_result timeout_result fault_result].
  all: repeat split; try done; try (by intros [? ?]).
  all: match goal with
       | H : (_ =? 0)%Z = true |- _ => by apply Z.eqb_eq in H
       end.
Qed.

(** X12: [execute_in_sandbox] never raises, and its result is coherent:
    [success] implies exit code 0, no error and a run within the
    time-out; a result without error reports the exit code of the
    command, [success] being whether it is 0; and a result with an
    error (no such sandbox, time-out, or an exception) has [success]
    false, exit code -1 and an empty [stdout]. *)
Theorem execute_in_sandbox_result_is_coherent sandbox_id command
    working_dir timeout (s : State W) :
  exists r s',
    execute_in_sandbox sandbox_id command working_dir timeout s = (Ret r, s')
    /\ (CommandResult.success r = true ->
          CommandResult.exit_code r = 0%Z
          /\ CommandResult.error r = None
          /\ exceeds (CommandResult.execution_time r) timeout = false)
    /\ (CommandResult.error r = None ->
          CommandResult.success r = (CommandResult.exit_code r =? 0)%Z
          /\ exceeds (CommandResult.execution_time r) timeout = false)
    /\ (is_Some (CommandResult.error r) ->
          CommandResult.success r = false
          /\ CommandResult.exit_code r = (-1)%Z
          /\ CommandResult.stdout r = "").
Proof. apply execute_in_sandbox_sound. Qed.

End Registry.

(* ===================================================================== *)
(** * Uploading a file                                                    *)
(* ===================================================================== *)

Section Uploading.
Context {W : Type} {E : Env W}.
Import SandboxManager.

Lemma occurs_app (c : ascii) (a b : string) :
  occurs c (a +:+ b) = occurs c a || occurs c b.
Proof.
  induction a as [|x a IH]; [reflexivity|].
  change (String x a +:+ b) with (String x (a +:+ b)).
  rewrite !occurs_cons, IH. apply orb_assoc.
Qed.

Lemma last_component_plain (name : string) :
  occurs "/" name = false -> last_component name = name.
Proof.
  destruct name as [|c name]; [reflexivity|]. intros H.
  cbn [last_component]. fold (occurs "/" (String c name)). by rewrite H.
Qed.

Lemma last_component_after_slash (dir name : string) :
  occurs "/" name = false -> last_component (dir +:+ "/" +:+ name) = name.
Proof.
  intros Hname. induction dir as [|c dir IH].
  - change ("" +:+ "/" +:+ name) with (String "/" name).
    cbn [last_component]. fold (occurs "/" (String "/" name)).
    rewrite occurs_cons. cbn [Ascii.eqb Bool.eqb orb].
    by apply last_component_plain.
  - change (String c dir +:+ "/" +:+ name)
      with (String c (dir +:+ "/" +:+ name)).
    cbn [last_component].
    fold (occurs "/" (String c (dir +:+ "/" +:+ name))).
    rewrite occurs_cons, occurs_app.
    change ("/" +:+ name) with (String "/" name).
    rewrite (occurs_cons "/" "/" name). cbn [Ascii.eqb Bool.eqb orb].
    rewrite !orb_true_r. exact IH.
Qed.

(** X13: [upload_file_to_sandbox] ignores the directory of
    [destination_path]: the archive member is named by what follows the
    last slash and the archive is unpacked in [/tmp], so that an upload
    to any directory gives the result and the engine call of the upload
    to [/tmp]. *)
Theorem upload_ignores_directory sandbox_id file_content
    (dir name : string) (s : State W) :
  Text.contains "/" name = false ->
  last_component (dir +:+ "/" +:+ name) = name
  /\ fst (upload_file_to_sandbox sandbox_id file_content
            (dir +:+ "/" +:+ name) s)
     = fst (upload_file_to_sandbox sandbox_id file_content
              ("/tmp/" +:+ name) s)
  /\ world (snd (upload_file_to_sandbox sandbox_id file_content
                   (dir +:+ "/" +:+ name) s))
     = world (snd (upload_file_to_sandbox sandbox_id file_content
                     ("/tmp/" +:+ name) s)).
Proof.
  intros Hname. fold (occurs "/" name) in Hname.
  split; [by apply last_component_after_slash|].
  unfold upload_file_to_sandbox. unfold_monad.
  change ("/tmp/" +:+ name) with ("/tmp" +:+ "/" +:+ name).
  rewrite !last_component_after_slash by exact Hname.
  destruct (active_sandboxes s !! sandbox_id) as [sandbox|];
    [|split; reflexivity].
  destruct (container_put_archive _ _ _ _) as [[uploaded|e] w'];
    split; reflexivity.
Qed.

End Uploading.

(* ===================================================================== *)
(** * Cleaning up                                                         *)
(* ===================================================================== *)

Section CleaningUp.
Context {W : Type} {E : Env W}.
Import SandboxManager.

(** The list [items] holds the entries of the registry, each once, in
    some order: the order of the dictionary is one such. *)
Definition enumerates (items : list (string * Sandbox.t)) (s : State W)
    : Prop :=
  items ≡ₚ map_to_list (active_sandboxes s).

Lemma map_fmap {A B} (f : A -> B) (l : list A) : map f l = f <$> l.
Proof. induction l as [|x l IH]; [reflexivity|]. cbn. by rewrite IH. Qed.

Lemma enumerates_lookup items (s : State W) id sandbox :
  enumerates items s ->
  (id, sandbox) ∈ items <-> active_sandboxes s !! id = Some sandbox.
Proof. intros H. unfold enumerates in H. rewrite H. apply elem_of_map_to_list. Qed.

Lemma enumerates_NoDup items (s : State W) :
  enumerates items s -> NoDup (map fst items).
Proof.
  intros H. unfold enumerates in H. rewrite map_fmap, H.
  apply NoDup_fst_map_to_list.
Qed.

Lemma enumerates_length items (s : State W) :
  enumerates items s -> length items = size (active_sandboxes s).
Proof.
  intros H. unfold enumerates in H. rewrite H. apply length_map_to_list.
Qed.

(** The loop that stops the sandboxes of a list: it returns, its count
    is the number of sandboxes that left the registry, and it touches no
    other entry. *)
Lemma stop_each_returns (ids : list string) :
  forall (cleaned : Z) (s : State W),
  exists (n : Z) (s' : State W),
    stop_each ids cleaned s = (Ret (cleaned + n)%Z, s')
    /\ (0 <= n <= Z.of_nat (length ids))%Z
    /\ (Z.of_nat (size (active_sandboxes s')) + n
        = Z.of_nat (size (active_sandboxes s)))%Z
    /\ (forall id, active_sandboxes s' !! id = None
                   \/ active_sandboxes s' !! id = active_sandboxes s !! id)
    /\ (forall id, id ∉ ids ->
                   active_sandboxes s' !! id = active_sandboxes s !! id)
    /\ created s' = created s
    /\ keeps_books s s'.
Proof.
  induction ids as [|a ids IH]; intros cleaned s.
  - exists 0%Z, s. cbn [stop_each]. unfold ret. rewrite Z.add_0_r.
    split; [reflexivity|]. split; [cbn; lia|]. split; [lia|].
    split; [by right|]. split; [done|]. split; [done|].
    apply keeps_books_refl.
  - destruct (stop_sandbox_outcome a s)
      as (stopped & s1 & Hrun & _ & Hcr & Hb & Hreg & Hwas & _).
    destruct (IH (if stopped then (cleaned + 1)%Z else cleaned) s1)
      as (n & s' & Hrest & Hn & Hsize & Hdel & Hout & Hcr' & Hb').
    exists ((if stopped then 1 else 0) + n)%Z, s'.
    cbn [stop_each]. step Hrun. rewrite Hrest.
    split; [f_equal; f_equal; destruct stopped; lia|].
    split; [cbn [length]; destruct stopped; lia|].
    split.
    { rewrite Hreg in Hsize. destruct stopped; [|lia].
      rewrite map_size_delete_Some in Hsize by by apply Hwas.
      destruct (Hwas eq_refl) as [sandbox Hsome].
      assert (size (active_sandboxes s) <> 0).
      { intros Hzero. apply map_size_empty_inv in Hzero.
        rewrite Hzero in Hsome. by rewrite lookup_empty in Hsome. }
      lia. }
    split.
    { intros id. destruct (Hdel id) as [Hnone|Hsame]; [by left|].
      rewrite Hsame, Hreg. destruct stopped; [|by right].
      destruct (decide (a = id)) as [->|Hne];
        [left; apply lookup_delete_eq|right; by apply lookup_delete_ne]. }
    split.
    { intros id Hid. apply not_elem_of_cons in Hid as [Hne Hid].
      rewrite (Hout id Hid), Hreg. destruct stopped; [|done].
      by apply lookup_delete_ne. }
    split; [congruence|]. by eapply keeps_books_trans.
Qed.

(** An engine that stops and removes every container it is asked to,
    now and after any further calls. *)
Definition obliging (w : W) : Prop :=
  forall w', evolves w w' ->
  forall (c : Docker.container) (t : Z),
    (exists w'', container_stop c t w' = (Ret tt, w''))
    /\ (exists w'', container_remove c w' = (Ret tt, w'')).

Lemma obliging_evolves (w w' : W) :
  obliging w -> evolves w w' -> obliging w'.
Proof.
  intros Hob Hev w'' Hev'. apply Hob. by eapply rtc_trans.
Qed.

Lemma stop_sandbox_obliging sandbox_id (s : State W) :
  obliging (world s) -> is_Some (active_sandboxes s !! sandbox_id) ->
  exists s',
    stop_sandbox sandbox_id s = (Ret true, s')
    /\ active_sandboxes s' = delete sandbox_id (active_sandboxes s)
    /\ created s' = created s
    /\ keeps_books s s'.
Proof.
  intros Hob [sandbox Hsome].
  destruct (stop_sandbox_outcome sandbox_id s)
    as (stopped & s' & Hrun & _ & Hcr & Hb & Hreg & _).
  assert (Hstopped : stopped = true).
  { revert Hrun. unfold stop_sandbox. unfold_monad. rewrite Hsome.
    destruct (Hob (world s) (rtc_refl _ _) (Sandbox.container sandbox) 5%Z)
      as [[w1 Hstop] _].
    rewrite Hstop. cbn [world set_world].
    assert (Hstep : env_step (world s) w1).
    { eapply env_step_to; [apply (step_stop _ (Sandbox.container sandbox) 5)|].
      by rewrite Hstop. }
    destruct (Hob w1 (rtc_once _ _ Hstep) (Sandbox.container sandbox) 5%Z)
      as [_ [w2 Hremove]].
    rewrite Hremove. intros; by simplify_eq. }
  subst stopped. by exists s'.
Qed.

Lemma stop_each_obliging (ids : list string) :
  NoDup ids ->
  forall (cleaned : Z) (s : State W),
    obliging (world s) ->
    (forall id, id ∈ ids -> is_Some (active_sandboxes s !! id)) ->
    exists s',
      stop_each ids cleaned s
      = (Ret (cleaned + Z.of_nat (length ids))%Z, s')
      /\ (forall id, active_sandboxes s' !! id
                     = if decide (id ∈ ids) then None
                       else active_sandboxes s !! id).
Proof.
  induction 1 as [|a ids Hfresh Hnodup IH]; intros cleaned s Hob Hall.
  - exists s. cbn. unfold ret. rewrite Z.add_0_r. split; [reflexivity|].
    intros id. by rewrite decide_False by apply not_elem_of_nil.
  - destruct (stop_sandbox_obliging a s Hob) as (s1 & Hrun & Hreg & _ & Hb);
      [apply Hall; left|].
    destruct (IH (cleaned + 1)%Z s1) as (s' & Hrest & Hlook).
    { eapply obliging_evolves; [exact Hob|apply Hb]. }
    { intros id Hid. rewrite Hreg, lookup_delete_ne; [apply Hall; by right|].
      intros ->. contradiction. }
    exists s'. cbn [stop_each]. step Hrun. rewrite Hrest.
    split; [f_equal; f_equal; cbn [length]; lia|].
    intros id. rewrite Hlook, Hreg.
    destruct (decide (id ∈ ids)) as [Hin|Hout].
    + by rewrite decide_True by by right.
    + destruct (decide (a = id)) as [->|Hne].
      * rewrite decide_True by by left. apply lookup_delete_eq.
      * rewrite decide_False by (intros [?|?]%elem_of_cons; congruence).
        by apply lookup_delete_ne.
Qed.

(** The identifiers [cleanup_expired_sandboxes] collects. *)
Definition expired_ids (now : Datetime.t) (items : list (string * Sandbox.t))
    : list string :=
  map fst (List.filter (fun item => expired now (snd item)) items).

Lemma elem_of_expired_ids now items id :
  id ∈ expired_ids now items
  <-> exists sandbox, (id, sandbox) ∈ items /\ expired now sandbox = true.
Proof.
  unfold expired_ids. rewrite map_fmap, list_elem_of_fmap. split.
  - intros [[id' sandbox] [-> Hin]]. apply list_elem_of_In in Hin.
    apply List.filter_In in Hin as [Hin Hexp].
    exists sandbox. split; [by apply list_elem_of_In|exact Hexp].
  - intros (sandbox & Hin & Hexp). exists (id, sandbox). split; [done|].
    apply list_elem_of_In, List.filter_In. split; [|exact Hexp].
    by apply list_elem_of_In.
Qed.

Lemma NoDup_map_fst_filter {A B} (f : A * B -> bool) (l : list (A * B)) :
  NoDup (map fst l) -> NoDup (map fst (List.filter f l)).
Proof.
  induction l as [|x l IH]; [done|]. cbn [map List.filter]. intros Hnd.
  apply NoDup_cons in Hnd as [Hx Hnd].
  destruct (f x); [|by apply IH]. cbn [map]. apply NoDup_cons.
  split; [|by apply IH]. intros Hin. apply Hx.
  rewrite map_fmap in Hin |- *.
  apply list_elem_of_fmap in Hin as [y [Hy Hin]].
  apply list_elem_of_fmap. exists y. split; [done|].
  apply list_elem_of_In in Hin. apply List.filter_In in Hin as [Hin _].
  by apply list_elem_of_In.
Qed.

(** X14: [cleanup_expired_sandboxes] never raises and never touches a
    sandbox that has not outlived its time-out at the one reading of the
    clock it takes: such a sandbox is registered afterwards as it was.
    The method only ever takes entries out of the registry, the number
    it returns is the number it took out, and the history is as it
    was. *)
Theorem cleanup_expired_spares_the_rest items (s : State W) :
  enumerates items s ->
  let now := fst (datetime_now (world s)) in
  exists (cleaned : Z) (s' : State W),
    cleanup_expired_sandboxes items s = (Ret cleaned, s')
    /\ (forall id sandbox,
          active_sandboxes s !! id = Some sandbox ->
          expired now sandbox = false ->
          active_sandboxes s' !! id = Some sandbox)
    /\ (forall id, active_sandboxes s' !! id = None
                   \/ active_sandboxes s' !! id = active_sandboxes s !! id)
    /\ (Z.of_nat (size (active_sandboxes s')) + cleaned
        = Z.of_nat (size (active_sandboxes s)))%Z
    /\ (0 <= cleaned <= Z.of_nat (length (expired_ids now items)))%Z
    /\ execution_history s' = execution_history s.
Proof.
  intros Hitems. cbn zeta.
  unfold cleanup_expired_sandboxes.
  step (ask_run datetime_now s).
  set (now := fst (datetime_now (world s))).
  fold (expired_ids now items).
  destruct (stop_each_returns (expired_ids now items) 0
              (set_world (snd (datetime_now (world s))) s))
    as (n & s' & Hrun & Hn & Hsize & Hdel & Hout & _ & Hhist & _).
  exists n, s'. rewrite Hrun. split; [reflexivity|].
  cbn [active_sandboxes set_world execution_history] in *.
  split.
  { intros id sandbox Hsome Hfresh. rewrite Hout; [exact Hsome|].
    intros Hin. apply elem_of_expired_ids in Hin as (sandbox' & Hin & Hexp).
    apply (enumerates_lookup items s) in Hin; [|exact Hitems].
    congruence. }
  split; [exact Hdel|]. split; [exact Hsize|]. split; [exact Hn|].
  exact Hhist.
Qed.

(** X15: when the engine stops and removes every container it is asked
    to, [cleanup_expired_sandboxes] takes exactly the expired sandboxes
    out of the registry and returns their number. *)
Theorem cleanup_expired_removes_the_expired items (s : State W) :
  enumerates items s ->
  obliging (world s) ->
  let now := fst (datetime_now (world s)) in
  exists s' : State W,
    cleanup_expired_sandboxes items s
    = (Ret (Z.of_nat (length (expired_ids now items))), s')
    /\ forall id,
         active_sandboxes s' !! id
         = match active_sandboxes s !! id with
           | Some sandbox => if expired now sandbox then None else Some sandbox
           | None => None
           end.
Proof.
  intros Hitems Hob. cbn zeta.
  unfold cleanup_expired_sandboxes.
  step (ask_run datetime_now s).
  set (now := fst (datetime_now (world s))).
  fold (expired_ids now items).
  destruct (stop_each_obliging (expired_ids now items)) with
    (cleaned := 0%Z) (s := set_world (snd (datetime_now (world s))) s)
    as (s' & Hrun & Hlook).
  { apply NoDup_map_fst_filter. by eapply enumerates_NoDup. }
  { eapply obliging_evolves; [exact Hob|].
    apply rtc_once, step_datetime_now. }
  { intros id Hin. apply elem_of_expired_ids in Hin as (sandbox & Hin & _).
    apply (enumerates_lookup items s) in Hin; [|exact Hitems]. by exists sandbox. }
  exists s'. rewrite Hrun. split; [reflexivity|].
  intros id. rewrite Hlook. cbn [active_sandboxes set_world].
  destruct (decide (id ∈ expired_ids now items)) as [Hin|Hout].
  - apply elem_of_expired_ids in Hin as (sandbox & Hin & Hexp).
    apply (enumerates_lookup items s) in Hin; [|exact Hitems].
    by rewrite Hin, Hexp.
  - destruct (active_sandboxes s !! id) as [sandbox|] eqn:Hsome; [|done].
    destruct (expired now sandbox) eqn:Hexp; [|done].
    exfalso. apply Hout, elem_of_expired_ids. exists sandbox.
    split; [|exact Hexp]. by apply (enumerates_lookup items s).
Qed.

(** X16: [cleanup_all_sandboxes] never raises, only ever takes entries
    out of the registry and returns the number it took out; when the
    engine stops and removes every container it is asked to, the
    registry is empty afterwards and the number is its former size. *)
Theorem cleanup_all_empties_the_registry items (s : State W) :
  enumerates items s ->
  exists (cleaned : Z) (s' : State W),
    cleanup_all_sandboxes items s = (Ret cleaned, s')
    /\ (Z.of_nat (size (active_sandboxes s')) + cleaned
        = Z.of_nat (size (active_sandboxes s)))%Z
    /\ (forall id, active_sandboxes s' !! id = None
                   \/ active_sandboxes s' !! id = active_sandboxes s !! id)
    /\ (obliging (world s) ->
        active_sandboxes s' = ∅
        /\ cleaned = Z.of_nat (size (active_sandboxes s))).
Proof.
  intros Hitems. unfold cleanup_all_sandboxes.
  destruct (stop_each_returns (map fst items) 0 s)
    as (n & s' & Hrun & Hn & Hsize & Hdel & _).
  exists n, s'. rewrite Hrun. split; [reflexivity|].
  split; [exact Hsize|]. split; [exact Hdel|]. intros Hob.
  destruct (stop_each_obliging (map fst items)) with
    (cleaned := 0%Z) (s := s) as (s2 & Hrun2 & Hlook).
  { by eapply enumerates_NoDup. }
  { exact Hob. }
  { intros id Hin. rewrite map_fmap in Hin.
    apply list_elem_of_fmap in Hin as [[id' sandbox] [-> Hin]].
    apply (enumerates_lookup items s) in Hin; [|exact Hitems].
    by exists sandbox. }
  rewrite Hrun in Hrun2. injection Hrun2 as Hcount <-.
  assert (Hempty : active_sandboxes s' = ∅).
  { apply map_empty. intros id. rewrite Hlook.
    destruct (decide (id ∈ map fst items)) as [_|Hout]; [done|].
    destruct (active_sandboxes s !! id) as [sandbox|] eqn:Hsome; [|done].
    exfalso. apply Hout. rewrite map_fmap. apply list_elem_of_fmap.
    exists (id, sandbox). split; [done|].
    by apply (enumerates_lookup items s). }
  split; [exact Hempty|].
  rewrite Hempty, map_size_empty in Hsize. lia.
Qed.

End CleaningUp.

(* ===================================================================== *)
(** * The analysis of a repository                                        *)
(* ===================================================================== *)

Section Analysing.
Context {W : Type} {E : Env W}.
Import ExecutionController.

Definition templates : list template :=
  [ python_template; node_template; flutter_template; java_template;
    go_template; rust_template ].

Lemma detect_template (language : string) (tags : list string)
    (t : template) :
  detect language tags = Some t -> In t templates.
Proof.
  unfold detect.
  repeat match goal with
         | |- context [if ?c then _ else _] => destruct c
         end;
    intros; simplify_eq; cbn; tauto.
Qed.

(** X17: an analysis is executable exactly when a runtime was detected,
    and then the runtime has an image of its own in the image table of
    the sandbox manager, a run command and a test command are given,
    there is at least one setup command and the confidence is positive;
    an analysis that is not executable names no runtime and no command
    and has confidence 0, its only possible setup command being the
    Docker one. *)
Theorem analysis_is_consistent (repo_data : RepoData.t) :
  let analysis := analyze_repository_executability repo_data in
  (Analysis.is_executable analysis = true ->
   exists runtime,
     Analysis.detected_runtime analysis = Some runtime
     /\ is_Some (PyDict.get (Text.lower runtime) SandboxManager.image_map)
     /\ is_Some (Analysis.run_command analysis)
     /\ is_Some (Analysis.test_command analysis)
     /\ Analysis.setup_commands analysis <> []
     /\ (0 < Analysis.confidence analysis)%Q)
  /\ (Analysis.is_executable analysis = false ->
      Analysis.detected_runtime analysis = None
      /\ Analysis.run_command analysis = None
      /\ Analysis.test_command analysis = None
      /\ Analysis.build_command analysis = None
      /\ Analysis.confidence analysis = 0%Q
      /\ Analysis.setup_commands analysis
         = if Analysis.requires_docker analysis
           then ["docker-compose up -d || docker build -t app ."]
           else []).
Proof.
  cbn zeta. unfold analyze_repository_executability.
  cbn [Analysis.is_executable Analysis.detected_runtime Analysis.run_command
       Analysis.test_command Analysis.build_command Analysis.confidence
       Analysis.setup_commands Analysis.requires_docker].
  destruct (detect _ _) as [t|] eqn:Hdetect.
  - split; [intros _|intros H; by apply bool_decide_eq_false in H as []].
    apply detect_template in Hdetect.
    exists (t_runtime t). split; [reflexivity|].
    cbn in Hdetect.
    destruct Hdetect as [<-|[<-|[<-|[<-|[<-|[<-|[]]]]]]];
      (split; [by eexists|]); (split; [by eexists|]);
      (split; [by eexists|]);
      (split; [destruct (any_in _ _); cbn; discriminate|reflexivity]).
  - split; [intros H; apply bool_decide_eq_true in H as [? H]; discriminate|].
    intros _. repeat split. cbn. by rewrite app_nil_r.
Qed.

(** X18: [GET /execute/analyze] gives the analysis nothing but the
    name of the repository, so that whatever owner and repository are
    asked for, the answer is the same analysis: not executable, no
    runtime, no command, complexity [simple]. *)
Theorem analyze_endpoint_never_finds_a_runtime (owner repo : string)
    (s : State W) :
  exists outcome,
    Api.analyze_repository_executability owner repo s = (outcome, s)
    /\ (RUNANYWHERE_AVAILABLE s = false ->
        outcome = Raise (HTTPException 503 "RunAnywhere not available"))
    /\ (RUNANYWHERE_AVAILABLE s = true ->
        exists analysis,
          outcome = Ret analysis
          /\ Analysis.is_executable analysis = false
          /\ Analysis.detected_runtime analysis = None
          /\ Analysis.languages analysis = []
          /\ Analysis.setup_commands analysis = []
          /\ Analysis.run_command analysis = None
          /\ Analysis.test_command analysis = None
          /\ Analysis.build_command analysis = None
          /\ Analysis.estimated_complexity analysis = "simple").
Proof.
  unfold Api.analyze_repository_executability, MainV2.execution_controller.
  unfold_monad.
  destruct (RUNANYWHERE_AVAILABLE s); cbn [negb orb];
    eexists; (split; [reflexivity|]); (split; [done|]); [|done].
  intros _. eexists. split; [reflexivity|]. repeat split.
Qed.

End Analysing.

(* ===================================================================== *)
(** * The file and the command of a snippet                               *)
(* ===================================================================== *)

Section SnippetFiles.
Context {W : Type} {E : Env W}.
Import ExecutionController Observed.






(** The languages the controller has an extension for are those it has
    a command for. *)
Lemma tables_agree (language filename : string) :
  PyDict.get language extensions = None
  <-> PyDict.get language (commands filename) = None.
Proof.
  unfold extensions, commands. cbn [PyDict.get].
  repeat match goal with
         | |- context [String.eqb language ?k] =>
             destruct (String.eqb language k)
         end; split; done.
Qed.



(** X20: a snippet in a language the controller has no command for is
    not run: its file gets the extension [txt] and the one command sent
    to the sandbox prints that file with [cat]. *)
Theorem snippet_in_unknown_language_is_printed (code language : string)
    (timeout : Z) (s : State W) :
  PyDict.get (Text.lower language) extensions = None ->
  _get_file_extension language = "txt"
  /\ (forall filename,
        _get_run_command language filename = "cat /tmp/" +:+ filename)
  /\ exists result s' new,
       execute_code_snippet code language timeout s = (Ret result, s')
       /\ calls s' = calls s ++ new
       /\ (commands_issued new = []
           \/ exists execution_id,
                commands_issued new
                = ["cat /tmp/code_" +:+ execution_id +:+ ".txt"]).
Proof.
  intros Hunknown.
  assert (Hext : _get_file_extension language = "txt")
    by (unfold _get_file_extension; by rewrite Hunknown).
  assert (Hcmd : forall filename,
            _get_run_command language filename = "cat /tmp/" +:+ filename).
  { intros filename. unfold _get_run_command.
    apply (tables_agree _ filename) in Hunknown. by rewrite Hunknown. }
  split; [exact Hext|]. split; [exact Hcmd|].
  destruct (execute_code_snippet_returns code language timeout s)
    as (result & s' & new & Hrun & Hc & _ & _ & Hways).
  exists result, s', (Call.execute_code_snippet code language timeout :: new).
  split; [exact Hrun|]. split; [exact Hc|].
  destruct Hways as [execution_id _
                    |execution_id sandbox_id uploaded r stopped _ _ _ _].
  - by left.
  - right. exists execution_id. unfold snippet_calls.
    rewrite Hcmd, Hext. reflexivity.
Qed.

End SnippetFiles.

(* ===================================================================== *)
(** * Looking up an execution                                             *)
(* ===================================================================== *)

Section Lookups.
Context {W : Type} {E : Env W}.
Import ExecutionController.

Lemma get_set_eq {V} (k : string) (v : V) (d : PyDict.t V) :
  PyDict.get k (PyDict.set k v d) = Some v.
Proof.
  induction d as [|[k0 v0] d IH]; cbn [PyDict.get PyDict.set].
  - by rewrite String.eqb_refl.
  - destruct (String.eqb k k0) eqn:Hk; cbn [PyDict.get]; by rewrite Hk.
Qed.

Lemma get_set_ne {V} (k k' : string) (v : V) (d : PyDict.t V) :
  k' <> k -> PyDict.get k' (PyDict.set k v d) = PyDict.get k' d.
Proof.
  intros Hne. induction d as [|[k0 v0] d IH]; cbn [PyDict.get PyDict.set].
  - by apply String.eqb_neq in Hne as ->.
  - destruct (String.eqb_spec k k0) as [->|Hk]; cbn [PyDict.get].
    + by apply String.eqb_neq in Hne as ->.
    + by rewrite IH.
Qed.

(** How [execute_repository] leaves the history, by the [error] key of
    its result. *)
Lemma execute_repository_stores (repo_url : string) (repo_data : RepoData.t)
    (timeout : Z) (s : State W) :
  exists result s',
    execute_repository repo_url repo_data timeout s = (Ret result, s')
    /\ RepoResult.execution_id result = fst (uuid4 (world s))
    /\ RUNANYWHERE_AVAILABLE s' = RUNANYWHERE_AVAILABLE s
    /\ (RepoResult.status result = "success"
        \/ RepoResult.status result = "failed")
    /\ match RepoResult.error result with
       | None =>
           execution_history s'
           = PyDict.set (RepoResult.execution_id result) result
               (execution_history s)
           /\ is_Some (RepoResult.sandbox_id result)
       | Some _ =>
           execution_history s' = execution_history s
           /\ RepoResult.status result = "failed"
       end.
Proof.
  destruct (execute_repository_returns repo_url repo_data timeout s)
    as (result & s' & new & Hrun & _ & Hid & _ & Hways & Hmoves).
  exists result, s'. split; [exact Hrun|]. split; [exact Hid|].
  split; [by destruct Hmoves as (_ & _ & _ & ->)|].
  destruct Hways as [_ Hres ->|runtime _ _ Hres -> _
                    |runtime sandbox_id rest _ _ Hsid Hend _].
  - rewrite Hres. cbn. split; [by right|done].
  - rewrite Hres. cbn. split; [by right|done].
  - destruct Hend as [r0 stopped _ Hstatus Herror _ -> _
                     |r0 rs stats stopped _ _ Hstatus Herror _ -> _].
    + rewrite Herror, Hstatus. split; [by right|done].
    + rewrite Herror, Hstatus, Hsid.
      split; [destruct (Observed.any_build_failed _ _); [by right|by left]|].
      split; [reflexivity|by eexists].
Qed.

(** X21: a repository execution that ran past the clone is stored
    under its identifier and [get_execution_result] then returns it; an
    execution that ended earlier (no runtime, no sandbox, or a failed
    clone) is not stored and leaves the history as it was; no other
    identifier is affected. *)
Theorem get_execution_result_after_execution (repo_url : string)
    (repo_data : RepoData.t) (timeout : Z) (s : State W) :
  exists result s',
    execute_repository repo_url repo_data timeout s = (Ret result, s')
    /\ (RepoResult.error result = None ->
        get_execution_result (RepoResult.execution_id result) s'
        = Some result)
    /\ (is_Some (RepoResult.error result) ->
        execution_history s' = execution_history s)
    /\ (forall execution_id,
          execution_id <> RepoResult.execution_id result ->
          get_execution_result execution_id s'
          = get_execution_result execution_id s).
Proof.
  destruct (execute_repository_stores repo_url repo_data timeout s)
    as (result & s' & Hrun & _ & _ & _ & Hstored).
  exists result, s'. split; [exact Hrun|]. unfold get_execution_result.
  destruct (RepoResult.error result) as [error|].
  - destruct Hstored as [-> _]. split; [done|]. split; done.
  - destruct Hstored as [-> _]. split; [intros _; apply get_set_eq|].
    split; [by intros [? ?]|]. intros execution_id Hne. by apply get_set_ne.
Qed.

(** X22: [GET /execute/status] after a repository execution whose
    identifier was not in the history: the endpoint returns the result
    when the execution ran past the clone, and answers with the HTTP
    error 404 when it ended earlier, although the caller was given the
    identifier. *)
Theorem status_after_execution (repo_url : string) (repo_data : RepoData.t)
    (timeout : Z) (s : State W) :
  RUNANYWHERE_AVAILABLE s = true ->
  PyDict.get (fst (uuid4 (world s))) (execution_history s) = None ->
  exists result s',
    execute_repository repo_url repo_data timeout s = (Ret result, s')
    /\ Api.get_execution_status (RepoResult.execution_id result) s'
       = (match RepoResult.error result with
          | None => Ret result
          | Some _ => Raise (HTTPException 404 "Execution not found")
          end, s').
Proof.
  intros Hrunanywhere Hfresh.
  destruct (execute_repository_stores repo_url repo_data timeout s)
    as (result & s' & Hrun & Hid & Hflag & _ & Hstored).
  exists result, s'. split; [exact Hrun|].
  unfold Api.get_execution_status, MainV2.execution_controller,
    get_execution_result.
  unfold_monad. rewrite Hflag, Hrunanywhere. cbn [negb orb].
  destruct (RepoResult.error result) as [error|].
  - destruct Hstored as [-> _]. by rewrite Hid, Hfresh.
  - destruct Hstored as [-> _]. by rewrite get_set_eq.
Qed.

Lemma length_sorted_desc (xs : list RepoResult.t) :
  length (sorted_desc xs) = length xs.
Proof. apply Permutation_length, sorted_desc_perm. Qed.

(** X23: [GET /execute/history] with a limit the framework admits
    (from 1 to 100): the count it reports is the number of entries it
    returns, which is the smaller of the limit and the number of stored
    results; when no more than [limit] results are stored, every one of
    them is returned. *)
Theorem history_endpoint_count (limit : Z) (s : State W) :
  RUNANYWHERE_AVAILABLE s = true ->
  (1 <= limit <= 100)%Z ->
  exists history,
    Api.get_execution_history limit s
    = (Ret (history, Z.of_nat (length history)), s)
    /\ history = get_execution_history limit s
    /\ Z.of_nat (length history)
       = Z.min limit (Z.of_nat (length (execution_history s)))
    /\ (Z.of_nat (length (execution_history s)) <= limit ->
        history ≡ₚ PyDict.values (execution_history s))%Z.
Proof.
  intros Hrunanywhere Hlimit.
  exists (get_execution_history limit s).
  unfold Api.get_execution_history, MainV2.execution_controller.
  unfold_monad. rewrite Hrunanywhere. cbn [negb orb].
  split; [reflexivity|]. split; [reflexivity|].
  unfold get_execution_history, slice_to.
  destruct (limit <? 0)%Z eqn:Hneg; [lia|].
  assert (Hlen : length (PyDict.values (execution_history s))
                 = length (execution_history s))
    by apply length_map.
  split.
  - rewrite length_take, length_sorted_desc, Hlen. lia.
  - intros Hall. rewrite take_ge; [apply sorted_desc_perm|].
    rewrite length_sorted_desc, Hlen. lia.
Qed.

(** X24: [POST /execute/repository] turns a request down before
    anything is run: without RunAnywhere or without Docker it raises the
    HTTP error 503, and for a URL [validate_repository_url] rejects the
    error 400, each time leaving the process as it was.  A request that
    passes the three checks is handed to [execute_repository]: when the
    analysis of its metadata returns, the handler returns the result of
    the execution and schedules one clean-up of the expired sandboxes;
    when the analysis raises, the handler raises the same exception and
    schedules nothing. *)
Theorem repository_endpoint_checks_first
    (request : WireApi.RepositoryExecutionRequest) (s : State W) :
  (RUNANYWHERE_AVAILABLE s = false ->
   WireApi.execute_repository request s
   = (Raise (HTTPException 503
               "RunAnywhere not available. Install: pip install docker"), s))
  /\ (RUNANYWHERE_AVAILABLE s = true ->
      SandboxManager.is_available s = false ->
      WireApi.execute_repository request s
      = (Raise (HTTPException 503
                  "Docker not available. Please start Docker Desktop."), s))
  /\ (RUNANYWHERE_AVAILABLE s = true ->
      SandboxManager.is_available s = true ->
      SecurityManager.validate_repository_url (WireApi.repo_url request)
      = false ->
      WireApi.execute_repository request s
      = (Raise (HTTPException 400 "Invalid or unsafe repository URL"), s))
  /\ (RUNANYWHERE_AVAILABLE s = true ->
      SandboxManager.is_available s = true ->
      SecurityManager.validate_repository_url (WireApi.repo_url request)
      = true ->
      match Wire.analyze_repository_executability
              (WireApi.repo_data request) with
      | Ret _ =>
          exists result s',
            Wire.execute_repository (WireApi.repo_url request)
              (WireApi.repo_data request) (WireApi.timeout request) s
            = (Ret result, s')
            /\ WireApi.execute_repository request s
               = (Ret (result, [Api.cleanup_expired_sandboxes]), s')
      | Raise e =>
          WireApi.execute_repository request s = (Raise e, after_id s)
      end).
Proof.
  unfold WireApi.execute_repository, MainV2.execution_controller.
  unfold_monad.
  split; [by intros ->|].
  split; [intros -> Hdocker; cbn [negb orb]; by rewrite Hdocker|].
  split; [intros -> Hdocker Hurl; cbn [negb orb];
          by rewrite Hdocker, Hurl|].
  intros -> Hdocker Hurl. cbn [negb orb]. rewrite Hdocker, Hurl. cbn [negb].
  pose proof (execute_repository_ends (WireApi.repo_url request)
                (WireApi.repo_data request) (WireApi.timeout request) s)
    as Hends.
  destruct (Wire.analyze_repository_executability _) as [analysis|e].
  - destruct Hends as (result & s' & new & Hrun & _).
    exists result, s'. by rewrite Hrun.
  - by rewrite Hends.
Qed.

End Lookups.

(* ===================================================================== *)
(** * The containers and the outcomes of an execution                     *)
(* ===================================================================== *)

Section Outcomes.
Context {W : Type} {E : Env W}.
Import ExecutionController Observed.

(** What [create_sandbox] asks of every container, whatever the
    caller. *)
Definition confined (a : Docker.create_args) : Prop :=
  Docker.cap_drop a = ["ALL"]
  /\ Docker.security_opt a = ["no-new-privileges"]
  /\ Docker.command a = "/bin/sleep 3600"
  /\ Docker.detach a = true
  /\ Docker.tmpfs a = [("/tmp", "size=100m,mode=1777")].

(** The container of a repository execution. *)
Definition repository_container (a : Docker.create_args) : Prop :=
  confined a
  /\ Docker.mem_limit a = "1g"
  /\ Docker.nano_cpus a = 2000000000%Z
  /\ Docker.network_mode a = "bridge"
  /\ Docker.network_disabled a = false.

(** The container of a snippet execution. *)
Definition snippet_container (a : Docker.create_args) : Prop :=
  confined a
  /\ Docker.mem_limit a = "256m"
  /\ Docker.nano_cpus a = 500000000%Z
  /\ Docker.network_mode a = "none"
  /\ Docker.network_disabled a = true.

Lemma execute_repository_creates (repo_url : string) (repo_data : RepoData.t)
    (timeout : Z) (s : State W) :
  exists result s',
    execute_repository repo_url repo_data timeout s = (Ret result, s')
    /\ (created s' = created s
        \/ exists sandbox_id runtime,
             created s'
             = created s ++
               [SandboxManager.container_config sandbox_id runtime
                  (SandboxManager.image_for runtime) "1g" 2 true]).
Proof.
  pose proof (executable_has_runtime repo_data) as Hruntime.
  unfold execute_repository.
  step (ask_run uuid4 s). fold (after_id s).
  destruct (Analysis.is_executable _) eqn:Hexec; cbn [negb].
  2:{ eexists _, _. split; [reflexivity|]. by left. }
  destruct Hruntime as [runtime ->]; [reflexivity|].
  destruct (create_sandbox_returns runtime "1g" 2 timeout true (after_id s))
    as (returned & s1 & Hrun & _ & Hcr & _).
  step Hrun.
  assert (Hcreated : created s1 = created s
            \/ exists sandbox_id runtime,
                 created s1
                 = created s ++
                   [SandboxManager.container_config sandbox_id runtime
                      (SandboxManager.image_for runtime) "1g" 2 true]).
  { destruct Hcr as [Hsame|[sandbox_id Hone]]; [by left|right; eauto]. }
  destruct returned as [sandbox_id|].
  2:{ eexists _, _. split; [reflexivity|]. exact Hcreated. }
  rewrite (create_sandbox_names _ _ _ _ _ _ _ _ Hrun).
  unfold with_local.
  step (on_fst_run _ _ _ _ _ (ask_run datetime_now s1)).
  fold (tick s1). unfold try_except.
  destruct (repository_steps_returns (fst (uuid4 (world s))) sandbox_id
              repo_url (analyze_repository_executability repo_data)
              (fst (datetime_now (world s1))) (tick s1))
    as (result & s3 & log & new & Hsteps & _ & Hcr3 & _).
  rewrite Hsteps. exists result, s3. split; [reflexivity|].
  rewrite Hcr3. exact Hcreated.
Qed.

(** X25: an execution asks the engine for at most one container, and a
    container it asks for is confined: every capability dropped, no new
    privileges, a 100 MB [/tmp] and the command [/bin/sleep 3600].  The
    container of a repository has 1 GB of memory, two CPUs and the
    bridge network; the container of a snippet has 256 MB, half a CPU
    and no network. *)
Theorem executions_confine_their_container :
  (forall repo_url repo_data timeout (s : State W),
     exists result s' containers,
       execute_repository repo_url repo_data timeout s = (Ret result, s')
       /\ created s' = created s ++ containers
       /\ (length containers <= 1)%nat
       /\ Forall repository_container containers)
  /\ (forall code language timeout (s : State W),
        exists result s' containers,
          execute_code_snippet code language timeout s = (Ret result, s')
          /\ created s' = created s ++ containers
          /\ (length containers <= 1)%nat
          /\ Forall snippet_container containers).
Proof.
  split.
  - intros repo_url repo_data timeout s.
    destruct (execute_repository_creates repo_url repo_data timeout s)
      as (result & s' & Hrun & [Hsame|(sandbox_id & runtime & Hone)]).
    + exists result, s', []. rewrite app_nil_r.
      repeat split; [done..|cbn; lia|constructor].
    + eexists result, s', [_].
      split; [exact Hrun|]. split; [exact Hone|]. split; [cbn; lia|].
      repeat constructor.
  - intros code language timeout s.
    destruct (execute_code_snippet_returns code language timeout s)
      as (result & s' & new & Hrun & _ & [Hsame|(sandbox_id & Hone)] & _).
    + exists result, s', []. rewrite app_nil_r.
      repeat split; [done..|cbn; lia|constructor].
    + eexists result, s', [_].
      split; [exact Hrun|]. split; [exact Hone|]. split; [cbn; lia|].
      repeat constructor.
Qed.

(** X26: [execute_repository] raises only what the analysis of its
    metadata raises, and then before it has asked for a sandbox: no
    call is made, and the registry and the history are as they were.
    When the analysis returns, so does the execution, and never with the
    status [error]: its status is [success] or [failed], and a result
    with status [success] has no error, names its sandbox and is the
    entry of the history under its identifier. *)
Theorem repository_status_is_never_error (repo_url : string)
    (repo_data : Wire.Metadata) (timeout : Z) (s : State W) :
  match Wire.analyze_repository_executability repo_data with
  | Raise e =>
      Wire.execute_repository repo_url repo_data timeout s
      = (Raise e, after_id s)
      /\ calls (after_id s) = calls s
      /\ active_sandboxes (after_id s) = active_sandboxes s
      /\ execution_history (after_id s) = execution_history s
  | Ret _ =>
      exists result s',
        Wire.execute_repository repo_url repo_data timeout s
        = (Ret result, s')
        /\ (RepoResult.status result = "success"
            \/ RepoResult.status result = "failed")
        /\ (RepoResult.status result = "success" ->
            RepoResult.error result = None
            /\ is_Some (RepoResult.sandbox_id result)
            /\ get_execution_result (RepoResult.execution_id result) s'
               = Some result)
  end.
Proof.
  pose proof (execute_repository_ends repo_url repo_data timeout s) as Hends.
  destruct (Wire.analyze_repository_executability repo_data)
    as [analysis|e]; [|by repeat split].
  destruct Hends as (result & s' & new & Hrun & _ & _ & _ & Hways & _).
  exists result, s'. split; [exact Hrun|].
  destruct Hways as [_ Hres _|runtime _ _ Hres _ _
                    |runtime sandbox_id rest _ _ Hsid Hend _].
  - rewrite Hres. cbn. split; [by right|done].
  - rewrite Hres. cbn. split; [by right|done].
  - destruct Hend as [r0 stopped _ Hstatus Herror _ _ _
                     |r0 rs stats stopped _ _ Hstatus Herror _ Hhist _].
    + rewrite Hstatus. split; [by right|done].
    + rewrite Hstatus, Herror, Hsid.
      split; [destruct (any_build_failed _ _); [by right|by left]|].
      intros _. split; [reflexivity|]. split; [by eexists|].
      unfold get_execution_result. rewrite Hhist. apply get_set_eq.
Qed.

(** X27: [execute_code_snippet] never raises.  Its status is [error]
    exactly when it got a sandbox and the code cannot be encoded as
    UTF-8 (a lone surrogate): the result then carries the text of the
    encoding error and no exit code.  Otherwise the status is [success]
    or [failed]; [success] means that the command ran in a sandbox,
    within the time-out, and left with exit code 0; a result without
    sandbox is [failed] for want of Docker. *)
Theorem snippet_status_is_coherent (code : Unicode.str) (language : string)
    (timeout : Z) (s : State W) :
  exists result s',
    Wire.execute_code_snippet code language timeout s = (Ret result, s')
    /\ (SnippetResult.status result = "success"
        \/ SnippetResult.status result = "failed"
        \/ SnippetResult.status result = "error")
    /\ (SnippetResult.status result = "error"
        <-> is_Some (SnippetResult.sandbox_id result)
            /\ exists e, Unicode.encode_utf8 code = Raise e)
    /\ (SnippetResult.status result = "error" ->
        exists e,
          Unicode.encode_utf8 code = Raise e
          /\ SnippetResult.error result = Some (str_of_exn e)
          /\ SnippetResult.stderr result = str_of_exn e
          /\ SnippetResult.stdout result = ""
          /\ SnippetResult.exit_code result = None)
    /\ (SnippetResult.status result = "success" ->
        SnippetResult.exit_code result = Some 0%Z
        /\ SnippetResult.error result = None
        /\ is_Some (SnippetResult.sandbox_id result)
        /\ exists execution_time,
             SnippetResult.execution_time result = Some execution_time
             /\ SandboxManager.exceeds execution_time timeout = false)
    /\ (SnippetResult.sandbox_id result = None ->
        SnippetResult.status result = "failed"
        /\ SnippetResult.error result
           = Some "Failed to create sandbox (Docker not available)").
Proof.
  unfold Wire.execute_code_snippet.
  step (ask_run uuid4 s). set (s0 := set_world _ s).
  destruct (create_sandbox_returns language "256m" (1 # 2) timeout false s0)
    as (returned & s1 & Hrun & _).
  step Hrun.
  destruct returned as [sandbox_id|].
  2:{ eexists _, _. split; [reflexivity|]. cbn.
      split; [by right; left|]. split; [|done].
      split; [discriminate|]. by intros [[? ?] _]. }
  rewrite (create_sandbox_names _ _ _ _ _ _ _ _ Hrun).
  unfold try_except, Wire.snippet_steps.
  unfold bind at 1, lift.
  destruct (Unicode.encode_utf8 code) as [file_content|e].
  - match goal with
    | |- context [SandboxManager.upload_file_to_sandbox ?a ?b ?c] =>
        destruct (upload_file_to_sandbox_returns a b c s1)
          as (uploaded & s2 & Hrun2 & _)
    end.
    step Hrun2.
    match goal with
    | |- context [SandboxManager.execute_in_sandbox ?a ?b ?c ?d] =>
        destruct (execute_in_sandbox_sound a b c d s2)
          as (r & s3 & Hrun3 & Hsuccess & _)
    end.
    step Hrun3.
    destruct (stop_sandbox_returns sandbox_id s3)
      as (stopped & s4 & Hrun4 & _).
    step Hrun4. unfold ret.
    eexists _, _. split; [reflexivity|].
    cbn [SnippetResult.status SnippetResult.exit_code SnippetResult.error
         SnippetResult.sandbox_id SnippetResult.execution_time
         SnippetResult.stderr SnippetResult.stdout].
    destruct (CommandResult.success r) eqn:Hok.
    + destruct (Hsuccess eq_refl) as (Hcode & _ & Htime).
      split; [by left|].
      split; [split; [discriminate|by intros [_ [? ?]]]|].
      split; [discriminate|]. split; [|done]. intros _. rewrite Hcode.
      split; [done|]. split; [done|]. split; [by eexists|]. by eexists.
    + split; [by right; left|].
      split; [split; [discriminate|by intros [_ [? ?]]]|].
      split; [discriminate|]. split; done.
  - unfold snippet_fault.
    destruct (stop_sandbox_returns sandbox_id s1)
      as (stopped & s2 & Hrun2 & _).
    step Hrun2. unfold ret.
    eexists _, _. split; [reflexivity|].
    cbn [SnippetResult.status SnippetResult.exit_code SnippetResult.error
         SnippetResult.sandbox_id SnippetResult.execution_time
         SnippetResult.stderr SnippetResult.stdout].
    split; [by right; right|].
    split; [split; [intros _; split; by eexists|done]|].
    split; [intros _; by exists e|]. split; done.
Qed.

(** The time each step of the pipeline is given, by its name. *)
Definition pipeline_timeout (step : string) : Z :=
  if String.eqb step "clone" then 120
  else if String.eqb step "test" then 120
  else if String.eqb step "build" then 240
  else 180.

Lemma setup_plan_pipeline_timeout (cmds : list string) :
  forall i,
    Forall (fun p => Text.startswith "setup_" (p_step p) = true
                     /\ p_timeout p = 180%Z
                     /\ p_timeout p = pipeline_timeout (p_step p))
      (setup_plan i cmds).
Proof.
  induction cmds as [|cmd cmds IH]; intros i; cbn [setup_plan];
    constructor; [|apply IH].
  cbn [p_step p_timeout]. repeat split.
Qed.

Lemma plan_pipeline_timeout (analysis : Analysis.t) :
  Forall (fun p => (Text.startswith "setup_" (p_step p) = true
                    \/ p_step p = "test" \/ p_step p = "build")
                   /\ p_timeout p = pipeline_timeout (p_step p))
    (plan analysis).
Proof.
  unfold plan, optional_plan. rewrite !Forall_app. repeat split.
  - eapply Forall_impl; [apply setup_plan_pipeline_timeout|].
    intros p (Hsetup & _ & Htime). split; [by left|exact Htime].
  - destruct (Analysis.test_command analysis) as [cmd|]; [|constructor].
    destruct (Text.truthy cmd); constructor; [|constructor].
    split; [right; by left|reflexivity].
  - destruct (Analysis.build_command analysis) as [cmd|]; [|constructor].
    destruct (Text.truthy cmd); constructor; [|constructor].
    split; [right; by right|reflexivity].
Qed.

(** X28: the time-out of a repository request bounds no command.  It
    is an argument of the one [create_sandbox] call and of no other
    call; the commands sent are the clone, given 120 seconds, followed
    by the steps of the plan that were issued, each given the time of
    its kind: 180 seconds for a setup command, 120 for the tests, 240
    for the build. *)
Theorem pipeline_timeouts_are_fixed (repo_url : string)
    (repo_data : Wire.Metadata) (timeout : Z) (s : State W) :
  match Wire.analyze_repository_executability repo_data with
  | Raise e =>
      Wire.execute_repository repo_url repo_data timeout s
      = (Raise e, after_id s)
  | Ret analysis =>
      Forall (fun p => (Text.startswith "setup_" (p_step p) = true
                        \/ p_step p = "test" \/ p_step p = "build")
                       /\ p_timeout p = pipeline_timeout (p_step p))
        (plan analysis)
      /\ exists result s' new,
           Wire.execute_repository repo_url repo_data timeout s
           = (Ret result, s')
           /\ calls s' = calls s ++ new
           /\ (new = []
               \/ exists runtime returned rest,
                    new = Call.create_sandbox runtime "1g" 2 timeout true
                            returned :: rest
                    /\ Forall (fun c => is_create c = false) rest
                    /\ (commands_sent rest = []
                        \/ exists sandbox_id r0 rs,
                             commands_sent rest
                             = Call.execute_in_sandbox sandbox_id
                                 ("git clone " +:+ repo_url +:+ " /tmp/repo")
                                 "/tmp" (pipeline_timeout "clone") r0
                               :: calls_of sandbox_id
                                    (take (length rs) (plan analysis)) rs))
  end.
Proof.
  pose proof (execute_repository_ends repo_url repo_data timeout s) as Hends.
  destruct (Wire.analyze_repository_executability repo_data)
    as [analysis|e]; [|exact Hends].
  split; [apply plan_pipeline_timeout|].
  destruct Hends as (result & s' & new & Hrun & Hc & _ & _ & Hways & _).
  exists result, s', new.
  split; [exact Hrun|]. split; [exact Hc|].
  destruct Hways as [| |runtime sandbox_id rest _ _ _ Hend _]; [by left|..].
  - right. eexists _, _, []. split; [reflexivity|].
    split; [constructor|by left].
  - right. eexists _, _, rest. split; [reflexivity|].
    destruct Hend as [r0 stopped|r0 rs stats stopped _ Hlen].
    + split; [repeat constructor|]. right.
      exists sandbox_id, r0, []. reflexivity.
    + split.
      * constructor; [reflexivity|]. apply Forall_app. split.
        -- clear. generalize (plan analysis) as ps. intros ps. revert rs.
           induction ps as [|p ps IH]; intros [|r rs]; cbn;
             constructor; [reflexivity|apply IH].
        -- repeat constructor.
      * right. exists sandbox_id, r0, rs.
        rewrite Hlen, firstn_all.
        change (clone_call sandbox_id repo_url r0 :: ?l ++ ?t)
          with ([clone_call sandbox_id repo_url r0] ++ l ++ t).
        rewrite !commands_sent_app, commands_sent_calls_of. cbn.
        by rewrite app_nil_r.
Qed.

End Outcomes.

(* ===================================================================== *)
(** * The statistics endpoint                                             *)
(* ===================================================================== *)

Section Statistics.
Context {W : Type} {E : Env W}.

(** X29: [GET /sandbox/stats] answers with the HTTP error 404,
    [Sandbox not found], for a sandbox that is registered, whenever its
    statistics cannot be had: the engine raises, or the statistics name
    networks and no [eth0] among them.  The sandbox stays registered. *)
Theorem stats_endpoint_blames_the_sandbox (sandbox_id : string)
    (s : State W) (sandbox : Sandbox.t) (outcome : res Docker.stats)
    (w' : W) :
  RUNANYWHERE_AVAILABLE s = true ->
  active_sandboxes s !! sandbox_id = Some sandbox ->
  container_stats (Sandbox.container sandbox) (world s) = (outcome, w') ->
  match outcome with
  | Raise _ => True
  | Ret stats => Docker.networks stats = Some None
  end ->
  fst (Api.get_sandbox_stats sandbox_id s)
  = Raise (HTTPException 404 "Sandbox not found")
  /\ active_sandboxes (snd (Api.get_sandbox_stats sandbox_id s))
       !! sandbox_id = Some sandbox.
Proof.
  intros Hrunanywhere Hsandbox Hstats Hwhy.
  unfold Api.get_sandbox_stats, Api.sandbox_manager,
    SandboxManager.get_sandbox_stats.
  unfold_monad. rewrite Hrunanywhere. cbn [negb orb].
  rewrite Hsandbox, Hstats.
  destruct outcome as [stats|e].
  - unfold SandboxManager.stats_of. rewrite Hwhy. split; [reflexivity|].
    exact Hsandbox.
  - split; [reflexivity|]. exact Hsandbox.
Qed.

End Statistics.

(* ===================================================================== *)
(** * No sandbox is left behind                                           *)
(* ===================================================================== *)

Section NoLeak.
Context {W : Type} {E : Env W}.
Import ExecutionController Observed.

#[local] Arguments SandboxManager.execute_in_sandbox : simpl never.
#[local] Arguments SandboxManager.stop_sandbox : simpl never.
#[local] Arguments SandboxManager.get_sandbox_stats : simpl never.
#[local] Arguments SandboxManager.create_sandbox : simpl never.
#[local] Arguments SandboxManager.upload_file_to_sandbox : simpl never.













End NoLeak.

(* ===================================================================== *)
(** * An engine that cannot start its containers                          *)
(* ===================================================================== *)

(** The world is the number of identifiers drawn so far.  The engine
    finds every image and creates every container, and raises on every
    other request. *)
Module Stalled.

Definition refuse {A} (w : nat) : res A * nat :=
  (Raise (Exception "cannot start container"), w).

Definition numbered (w : nat) : string * nat :=
  ("sandbox-" +:+ pretty w, S w).

Lemma numbered_nonempty (w : nat) : fst (numbered w) <> "".
Proof. discriminate. Qed.

#[export] Instance env : Env nat := {|
  uuid4 := numbered;
  uuid4_nonempty := numbered_nonempty;
  time_time := fun w => (0%Q, w);
  datetime_now := fun w => (Datetime.Make 0 "T0", w);
  bytes_decode := Scripted.ascii_decode;
  docker_from_env := fun w => (Ret tt, w);
  images_get := fun _ w => (Ret tt, w);
  images_pull := fun _ w => (Ret tt, w);
  containers_create := fun _ w => (Ret (Docker.Container "stalled"), w);
  container_start := fun _ => refuse;
  container_exec_run := fun _ _ _ => refuse;
  container_put_archive := fun _ _ _ => refuse;
  container_stats := fun _ => refuse;
  container_stop := fun _ _ => refuse;
  container_remove := fun _ => refuse
|}.

(** The process once the manager has been constructed. *)
Definition ready : State nat :=
  snd (SandboxManager.init (MkState 0 true false false ∅ [] [] [])).

Lemma create_sandbox_start_failure_witness :
  exists s',
    SandboxManager.create_sandbox "python" "256m" (1 # 2) 5 false
      ready = (Ret None, s')
    /\ active_sandboxes s' = active_sandboxes ready
    /\ created s'
       = created ready
         ++ [SandboxManager.container_config
               (fst (uuid4 (world ready))) "python"
               (SandboxManager.image_for "python") "256m" (1 # 2) false]
    /\ world s' = 1.
Proof.
  apply (create_sandbox_start_failure "python" "256m" (1 # 2) 5 false
           ready 1 1 1 (Docker.Container "stalled")
           (Exception "cannot start container")); reflexivity.
Defined.

End Stalled.

(* ===================================================================== *)
(** * Instances on the scripted environment                               *)
(* ===================================================================== *)

Module Checks.
Import ExecutionController Observed Scripted SecurityManager.

Lemma sanitize_command_keeps_clean_command_witness :
  sanitize_command "rm -rf /" = "rm -rf /".
Proof.
  apply (sanitize_command_keeps_clean_command "rm -rf /").
  - vm_compute. repeat constructor.
  - reflexivity.
  - reflexivity.
Defined.

Lemma validate_code_other_language_is_safe_witness :
  is_safe (validate_code "system('rm -rf /')" "Ruby" true) = true
  /\ is_high (risk_level (validate_code "system('rm -rf /')" "Ruby" true))
     = false.
Proof.
  apply (validate_code_other_language_is_safe "system('rm -rf /')" "Ruby"
           true).
  reflexivity.
Defined.

(** A Python sandbox with a time-out of five seconds, just created. *)
Definition fresh : State t :=
  snd (SandboxManager.create_sandbox "python" "256m" (1 # 2) 5 false
         (boot true [(0%Z, 26 # 5)])).

Lemma create_sandbox_registers_its_arguments_witness :
  "sandbox-0" = fst (uuid4 (world (boot true [(0%Z, 26 # 5)])))
  /\ SandboxManager.is_available (boot true [(0%Z, 26 # 5)]) = true
  /\ created fresh
     = created (boot true [(0%Z, 26 # 5)])
       ++ [SandboxManager.container_config "sandbox-0" "python"
             (SandboxManager.image_for "python") "256m" (1 # 2) false]
  /\ exists sandbox,
       active_sandboxes fresh
       = <["sandbox-0" := sandbox]>
           (active_sandboxes (boot true [(0%Z, 26 # 5)]))
       /\ active_sandboxes fresh !! "sandbox-0" = Some sandbox
       /\ Sandbox.language sandbox = "python"
       /\ Sandbox.timeout sandbox = 5%Z
       /\ Sandbox.memory_limit sandbox = "256m"
       /\ Sandbox.cpu_limit sandbox = 1 # 2
       /\ Sandbox.network_enabled sandbox = false
       /\ Sandbox.status sandbox = "running".
Proof.
  apply (create_sandbox_registers_its_arguments "python" "256m" (1 # 2) 5
           false (boot true [(0%Z, 26 # 5)]) fresh "sandbox-0").
  vm_compute. reflexivity.
Defined.

(** The CPU quota is a floating-point product: 8.2 CPUs are
    8199999999 billionths and 0.29 CPUs are 290000000. *)
Example nano_cpus_of_two_limits :
  Docker.nano_cpus
    (SandboxManager.container_config "sandbox-0" "python"
       (SandboxManager.image_for "python") "256m" (82 # 10) false)
  = 8199999999%Z
  /\ Docker.nano_cpus
       (SandboxManager.container_config "sandbox-0" "python"
          (SandboxManager.image_for "python") "256m" (29 # 100) false)
     = 290000000%Z
  /\ Docker.nano_cpus
       (SandboxManager.container_config "sandbox-0" "python"
          (SandboxManager.image_for "python") "256m" (1 # 2) false)
     = 500000000%Z.
Proof. repeat split; vm_compute; reflexivity. Qed.

(** The state after that sandbox has been stopped. *)
Definition stopped : State t :=
  snd (SandboxManager.stop_sandbox "sandbox-0" fresh).

Lemma stopped_sandbox_is_gone_witness :
  active_sandboxes stopped !! "sandbox-0" = None
  /\ (forall command working_dir timeout,
        fst (SandboxManager.execute_in_sandbox "sandbox-0" command
               working_dir timeout stopped)
        = Ret SandboxManager.not_found_result
        /\ world (snd (SandboxManager.execute_in_sandbox "sandbox-0" command
                         working_dir timeout stopped)) = world stopped)
  /\ (forall file_content destination_path,
        fst (SandboxManager.upload_file_to_sandbox "sandbox-0" file_content
               destination_path stopped) = Ret false
        /\ world (snd (SandboxManager.upload_file_to_sandbox "sandbox-0"
                         file_content destination_path stopped))
           = world stopped)
  /\ fst (SandboxManager.get_sandbox_stats "sandbox-0" stopped) = Ret None
  /\ world (snd (SandboxManager.get_sandbox_stats "sandbox-0" stopped))
     = world stopped
  /\ fst (SandboxManager.stop_sandbox "sandbox-0" stopped) = Ret false
  /\ world (snd (SandboxManager.stop_sandbox "sandbox-0" stopped))
     = world stopped.
Proof.
  apply (stopped_sandbox_is_gone "sandbox-0" fresh stopped).
  vm_compute. reflexivity.
Defined.

Lemma upload_ignores_directory_witness :
  SandboxManager.last_component ("/opt/app" +:+ "/" +:+ "main.py") = "main.py"
  /\ fst (SandboxManager.upload_file_to_sandbox "sandbox-0" []
            ("/opt/app" +:+ "/" +:+ "main.py") fresh)
     = fst (SandboxManager.upload_file_to_sandbox "sandbox-0" []
              ("/tmp/" +:+ "main.py") fresh)
  /\ world (snd (SandboxManager.upload_file_to_sandbox "sandbox-0" []
                   ("/opt/app" +:+ "/" +:+ "main.py") fresh))
     = world (snd (SandboxManager.upload_file_to_sandbox "sandbox-0" []
                     ("/tmp/" +:+ "main.py") fresh)).
Proof.
  apply (upload_ignores_directory "sandbox-0" [] "/opt/app" "main.py" fresh).
  reflexivity.
Defined.

(** The engine of the scripted environment obliges as long as it is
    up. *)
Lemma up_stays_up (w w' : t) :
  engine_up w = true -> evolves w w' -> engine_up w' = true.
Proof.
  intros Hup Hev. induction Hev as [w|w w1 w2 Hstep _ IH]; [exact Hup|].
  apply IH. destruct w as [i k c up sc]. cbn in Hup. subst.
  destruct Hstep; try reflexivity. cbn. by destruct sc as [|[? ?] ?].
Qed.

Lemma up_is_obliging (w : t) : engine_up w = true -> obliging w.
Proof.
  intros Hup w' Hev c timeout.
  pose proof (up_stays_up w w' Hup Hev) as Hup'.
  cbn. unfold answer. rewrite Hup'. eauto.
Qed.

(** Two sandboxes: the first has outlived its five seconds while a
    command ran in it for 5.2 seconds, the second has 300 seconds and
    was created after that. *)
Definition two_sandboxes : State t :=
  snd (SandboxManager.create_sandbox "node" "1g" 2 300 true
         (snd (SandboxManager.execute_in_sandbox "sandbox-0" "sleep 6"
                 "/tmp" 5 fresh))).

Definition entries : list (string * Sandbox.t) :=
  map_to_list (active_sandboxes two_sandboxes).

Definition noon : Datetime.t := fst (datetime_now (world two_sandboxes)).

Lemma cleanup_expired_spares_the_rest_witness :
  exists (cleaned : Z) (s' : State t),
    SandboxManager.cleanup_expired_sandboxes entries two_sandboxes
    = (Ret cleaned, s')
    /\ (forall id sandbox,
          active_sandboxes two_sandboxes !! id = Some sandbox ->
          SandboxManager.expired noon sandbox = false ->
          active_sandboxes s' !! id = Some sandbox)
    /\ (forall id, active_sandboxes s' !! id = None
                   \/ active_sandboxes s' !! id
                      = active_sandboxes two_sandboxes !! id)
    /\ (Z.of_nat (size (active_sandboxes s')) + cleaned
        = Z.of_nat (size (active_sandboxes two_sandboxes)))%Z
    /\ (0 <= cleaned <= Z.of_nat (length (expired_ids noon entries)))%Z
    /\ execution_history s' = execution_history two_sandboxes.
Proof.
  apply (cleanup_expired_spares_the_rest entries two_sandboxes).
  unfold enumerates, entries. reflexivity.
Defined.

Lemma cleanup_expired_removes_the_expired_witness :
  exists s' : State t,
    SandboxManager.cleanup_expired_sandboxes entries two_sandboxes
    = (Ret (Z.of_nat (length (expired_ids noon entries))), s')
    /\ forall id,
         active_sandboxes s' !! id
         = match active_sandboxes two_sandboxes !! id with
           | Some sandbox =>
               if SandboxManager.expired noon sandbox then None
               else Some sandbox
           | None => None
           end.
Proof.
  apply (cleanup_expired_removes_the_expired entries two_sandboxes).
  - unfold enumerates, entries. reflexivity.
  - apply up_is_obliging. reflexivity.
Defined.

Lemma cleanup_all_empties_the_registry_witness :
  exists (cleaned : Z) (s' : State t),
    SandboxManager.cleanup_all_sandboxes entries two_sandboxes
    = (Ret cleaned, s')
    /\ (Z.of_nat (size (active_sandboxes s')) + cleaned
        = Z.of_nat (size (active_sandboxes two_sandboxes)))%Z
    /\ (forall id, active_sandboxes s' !! id = None
                   \/ active_sandboxes s' !! id
                      = active_sandboxes two_sandboxes !! id)
    /\ (obliging (world two_sandboxes) ->
        active_sandboxes s' = ∅
        /\ cleaned = Z.of_nat (size (active_sandboxes two_sandboxes))).
Proof.
  apply (cleanup_all_empties_the_registry entries two_sandboxes).
  unfold enumerates, entries. reflexivity.
Defined.

(** What the two clean-ups do to these two sandboxes: the first goes
    when the expired are cleaned up, both go when all are. *)
Example cleanup_runs :
  fst (SandboxManager.cleanup_expired_sandboxes entries two_sandboxes)
  = Ret 1%Z
  /\ map fst
       (map_to_list
          (active_sandboxes
             (snd (SandboxManager.cleanup_expired_sandboxes entries
                     two_sandboxes)))) = ["sandbox-1"]
  /\ fst (SandboxManager.cleanup_all_sandboxes entries two_sandboxes)
     = Ret 2%Z
  /\ active_sandboxes
       (snd (SandboxManager.cleanup_all_sandboxes entries two_sandboxes))
     = ∅.
Proof. vm_compute. repeat split. Qed.

Example cleanup_of_two_sandboxes :
  SandboxManager.expired noon <$> active_sandboxes two_sandboxes !! "sandbox-0"
  = Some true
  /\ SandboxManager.expired noon <$> active_sandboxes two_sandboxes !! "sandbox-1"
     = Some false
  /\ obliging (world two_sandboxes).
Proof.
  split; [vm_compute; reflexivity|]. split; [vm_compute; reflexivity|].
  apply up_is_obliging. reflexivity.
Qed.


Lemma snippet_in_unknown_language_is_printed_witness :
  _get_file_extension "bash" = "txt"
  /\ (forall filename,
        _get_run_command "bash" filename = "cat /tmp/" +:+ filename)
  /\ exists result s' new,
       execute_code_snippet "echo hello" "bash" 30 (boot true [])
       = (Ret result, s')
       /\ calls s' = calls (boot true []) ++ new
       /\ (commands_issued new = []
           \/ exists execution_id,
                commands_issued new
                = ["cat /tmp/code_" +:+ execution_id +:+ ".txt"]).
Proof.
  apply (snippet_in_unknown_language_is_printed "echo hello" "bash" 30
           (boot true [])).
  reflexivity.
Defined.

Lemma status_after_execution_witness :
  exists result s',
    execute_repository "https://github.com/x/y" python_repo 300
      (boot true [(128%Z, 1%Q)]) = (Ret result, s')
    /\ Api.get_execution_status (RepoResult.execution_id result) s'
       = (match RepoResult.error result with
          | None => Ret result
          | Some _ => Raise (HTTPException 404 "Execution not found")
          end, s').
Proof.
  apply (status_after_execution "https://github.com/x/y" python_repo 300
           (boot true [(128%Z, 1%Q)])); reflexivity.
Defined.

(** The caller of that execution was given an identifier and is then
    told that there is no such execution. *)
Example status_of_a_failed_clone :
  exists result s',
    execute_repository "https://github.com/x/y" python_repo 300
      (boot true [(128%Z, 1%Q)]) = (Ret result, s')
    /\ RepoResult.execution_id result = "sandbox-0"
    /\ RepoResult.status result = "failed"
    /\ fst (Api.get_execution_status "sandbox-0" s')
       = Raise (HTTPException 404 "Execution not found").
Proof. eexists _, _. split; [vm_compute; reflexivity|]. repeat split. Qed.

Lemma history_endpoint_count_witness :
  exists history,
    Api.get_execution_history 10 (Growth.again (boot true []))
    = (Ret (history, Z.of_nat (length history)), Growth.again (boot true []))
    /\ history = get_execution_history 10 (Growth.again (boot true []))
    /\ Z.of_nat (length history)
       = Z.min 10
           (Z.of_nat (length (execution_history (Growth.again (boot true [])))))
    /\ (Z.of_nat (length (execution_history (Growth.again (boot true []))))
        <= 10 ->
        history ≡ₚ PyDict.values
                     (execution_history (Growth.again (boot true []))))%Z.
Proof.
  apply (history_endpoint_count 10 (Growth.again (boot true []))).
  - vm_compute. reflexivity.
  - lia.
Defined.


End Checks.

(** The daemon of the scripted environment is lost while a sandbox is
    registered. *)
Module Lost.
Import Scripted.

Definition orphaned : State t :=
  set_world (World 1 1 0 false []) Checks.fresh.

Lemma stats_endpoint_blames_the_sandbox_witness :
  fst (Api.get_sandbox_stats "sandbox-0" orphaned)
  = Raise (HTTPException 404 "Sandbox not found")
  /\ active_sandboxes (snd (Api.get_sandbox_stats "sandbox-0" orphaned))
       !! "sandbox-0"
     = Some
         {| Sandbox.container_id := "container-of-python:3.11-slim";
            Sandbox.container :=
              Docker.Container "container-of-python:3.11-slim";
            Sandbox.language := "python";
            Sandbox.created_at := Datetime.Make 0 "T0";
            Sandbox.timeout := 5;
            Sandbox.memory_limit := "256m";
            Sandbox.cpu_limit := 1 # 2;
            Sandbox.network_enabled := false;
            Sandbox.status := "running" |}.
Proof.
  eapply (stats_endpoint_blames_the_sandbox "sandbox-0" orphaned _
            (Raise (Exception "Error while fetching server API version"))).
  - reflexivity.
  - vm_compute. reflexivity.
  - reflexivity.
  - exact I.
Defined.

End Lost.
